(** * pulsar-gpp-compiler: a shallow embedding of [index.js]

    The package is glue between the editor API, the file system and child
    processes.  The embedding keeps the control flow of every method of
    [module.exports] that is modelled, and makes the collaborators explicit:

    - JavaScript strings are sequences of UTF-16 code units ([jsstring]);
      Node [Buffer]s and file contents are sequences of bytes;
    - [process.platform], [os.tmpdir()], [path.join], [path.parse],
      [atom.config] and the failures of the file system and of the workspace
      are fields of a [Host];
    - the mutable part (files on disk, open text editors, and the calls made
      to the outside, in order) is a [World], threaded by a state-and-exception
      monad [M];
    - what the compiler process does is an input, a [Child]; one command
      runs at a time, from its trigger to the last call of its handlers. *)

From stdpp Require Import gmap list strings.
From Stdlib Require Import ZArith Lia.

Open Scope Z_scope.

(** ** JavaScript strings *)

(** A string value: its UTF-16 code units, each in [0, 0xFFFF]. *)
Definition jsstring := list Z.

(** An ASCII literal of the source text as a string value. *)
Definition lit (s : string) : jsstring :=
  List.map (fun a => Z.of_N (Ascii.N_of_ascii a)) (String.list_ascii_of_string s).

(** [a === b] on strings. *)
Definition str_eq (a b : jsstring) : bool := bool_decide (a = b).

(** [Boolean(s)]: a string is falsy exactly when it is empty. *)
Definition Boolean (s : jsstring) : bool :=
  match s with
  | [] => false
  | _ :: _ => true
  end.

(** [s.split(sep)] for a separator of one code unit (the source only calls
    [split(" ")]): the pieces between occurrences of [sep], empty pieces
    included; the empty string gives one empty piece. *)
Fixpoint split (sep : Z) (s : jsstring) : list jsstring :=
  match s with
  | [] => [[]]
  | c :: s' =>
      if Z.eqb c sep then [] :: split sep s'
      else match split sep s' with
           | [] => [[c]]
           | piece :: pieces => (c :: piece) :: pieces
           end
  end.

(** [pieces.join(sep)], the inverse of [split]. *)
Fixpoint join (sep : Z) (pieces : list jsstring) : jsstring :=
  match pieces with
  | [] => []
  | [piece] => piece
  | piece :: rest => piece ++ sep :: join sep rest
  end.

(** [s.replace(/\n/g, by)]: every line feed replaced. *)
Definition replace_newlines (by_ : jsstring) (s : jsstring) : jsstring :=
  List.flat_map (fun c => if Z.eqb c 10 then by_ else [c]) s.

(** The code unit of the space character, the separator of [split(" ")]. *)
Definition SPACE : Z := 32.

(** ** UTF-8, as Node applies it between [Buffer]s, strings and files *)

(** A Unicode scalar value: a code point that is not a surrogate. *)
Definition scalar (c : Z) : Prop :=
  0 <= c < 0xD800 \/ 0xE000 <= c <= 0x10FFFF.

(** The UTF-8 bytes of one code point. *)
Definition utf8_encode_cp (c : Z) : list Z :=
  if c <? 0x80 then [c]
  else if c <? 0x800 then [0xC0 + c / 64; 0x80 + c mod 64]
  else if c <? 0x10000 then
    [0xE0 + c / 4096; 0x80 + (c / 64) mod 64; 0x80 + c mod 64]
  else
    [0xF0 + c / 262144; 0x80 + (c / 4096) mod 64;
     0x80 + (c / 64) mod 64; 0x80 + c mod 64].

(** The UTF-16 code units of one code point. *)
Definition utf16_units (c : Z) : jsstring :=
  if c <? 0x10000 then [c]
  else [0xD800 + (c - 0x10000) / 1024; 0xDC00 + (c - 0x10000) mod 1024].

(** The state of the UTF-8 decoder between two bytes: how many continuation
    bytes are still due, the bits collected so far, and the range allowed
    for the next byte. *)
Record decoder := {
  needed : Z;
  code_point : Z;
  lower : Z;
  upper : Z
}.

Definition decoder_init : decoder :=
  {| needed := 0; code_point := 0; lower := 0x80; upper := 0xBF |}.

(** A byte met when no sequence is open. *)
Definition decode_lead (b : Z) : list Z * decoder :=
  if b <=? 0x7F then ([b], decoder_init)
  else if (0xC2 <=? b) && (b <=? 0xDF) then
    ([], {| needed := 1; code_point := b - 0xC0; lower := 0x80; upper := 0xBF |})
  else if (0xE0 <=? b) && (b <=? 0xEF) then
    ([], {| needed := 2; code_point := b - 0xE0;
            lower := if b =? 0xE0 then 0xA0 else 0x80;
            upper := if b =? 0xED then 0x9F else 0xBF |})
  else if (0xF0 <=? b) && (b <=? 0xF4) then
    ([], {| needed := 3; code_point := b - 0xF0;
            lower := if b =? 0xF0 then 0x90 else 0x80;
            upper := if b =? 0xF4 then 0x8F else 0xBF |})
  else ([0xFFFD], decoder_init).

(** One byte through the decoder: the code points it completes and the next
    state.  A byte that cannot continue the open sequence closes it with
    U+FFFD and is then read again as a lead byte. *)
Definition decode_byte (st : decoder) (b : Z) : list Z * decoder :=
  if needed st =? 0 then decode_lead b
  else if (lower st <=? b) && (b <=? upper st) then
    let cp := code_point st * 64 + (b - 0x80) in
    if needed st =? 1 then ([cp], decoder_init)
    else ([], {| needed := needed st - 1; code_point := cp;
                 lower := 0x80; upper := 0xBF |})
  else
    let '(out, st') := decode_lead b in (0xFFFD :: out, st').

(** The code points of a byte sequence; a sequence cut short by the end of
    the input gives U+FFFD. *)
Fixpoint utf8_decode_from (st : decoder) (bytes : list Z) : list Z :=
  match bytes with
  | [] => if needed st =? 0 then [] else [0xFFFD]
  | b :: rest =>
      let '(out, st') := decode_byte st b in out ++ utf8_decode_from st' rest
  end.

(** [buffer.toString()], which is what [stderr += data] applies to a
    [Buffer]: UTF-8 decoding, ill-formed input replaced by U+FFFD. *)
Definition Buffer_toString (bytes : list Z) : jsstring :=
  List.flat_map utf16_units (utf8_decode_from decoder_init bytes).

Definition is_high_surrogate (u : Z) : bool := (0xD800 <=? u) && (u <=? 0xDBFF).
Definition is_low_surrogate (u : Z) : bool := (0xDC00 <=? u) && (u <=? 0xDFFF).

(** The bytes [fs.writeFile(path, s)] stores for a string: its UTF-8
    encoding, a surrogate pair as one code point, a lone surrogate as
    U+FFFD. *)
Fixpoint utf8_of_string (s : jsstring) : list Z :=
  match s with
  | [] => []
  | u :: s' =>
      if is_high_surrogate u then
        match s' with
        | l :: s'' =>
            if is_low_surrogate l then
              utf8_encode_cp (0x10000 + (u - 0xD800) * 1024 + (l - 0xDC00))
                ++ utf8_of_string s''
            else utf8_encode_cp 0xFFFD ++ utf8_of_string s'
        | [] => utf8_encode_cp 0xFFFD
        end
      else if is_low_surrogate u then utf8_encode_cp 0xFFFD ++ utf8_of_string s'
      else utf8_encode_cp u ++ utf8_of_string s'
  end.

(** ** The host: platform, configuration and failures *)

(** The object [path.parse] returns (the fields the package reads). *)
Record PathInfo := {
  dir : jsstring;
  base : jsstring;
  name : jsstring;
  ext : jsstring
}.

(** The settings of [config], read through [atom.config.get]; a schema
    default applies when the user set nothing, so each is present, except
    [linuxTerminal], which the schema does not declare. *)
Record Config := {
  addCompilingErr : bool;
  splitDirection : jsstring;
  debugMode : bool;
  cCompilerOptions : jsstring;
  cppCompilerOptions : jsstring;
  runAfterCompile : bool;
  showWarnings : bool;
  cCompiler : jsstring;
  cppCompiler : jsstring;
  compileToTmpDirectory : bool;
  closeErrorTabOnSuccess : bool;
  showErrorNotifications : bool;
  linuxTerminal : option jsstring
}.

(** The exceptions and rejections that can occur. *)
Inductive Error :=
| ReadOfUndefined (property : jsstring)
    (* TypeError: a property read or a method call on undefined *)
| InvalidFileArgument
    (* TypeError of child_process.spawn: the command is not a non-empty string *)
| ENOENT (path : jsstring)
    (* fs: no such file *)
| HostError (message : jsstring).
    (* any failure the host reports: EACCES, a rejected open, a failed save *)

(** The calls that can fail for reasons outside the package. *)
Inductive request :=
| ReqSave
| ReqWriteFile (path : jsstring)
| ReqAccess (path : jsstring)
| ReqUnlink (path : jsstring)
| ReqOpen (path : jsstring).

(** A grammar of the registry: its name and the file types (extensions
    without the dot) it declares. *)
Record Grammar := {
  grammar_name : jsstring;
  fileTypes : list jsstring
}.

(** ** The world: what the package reads and changes *)

(** The active text editor: the path of [buffer.file] (absent for a buffer
    never saved) and its grammar. *)
Record TextEditor := {
  buffer_file : option jsstring;
  getGrammar : Grammar
}.

Inductive level := Error_ | Warning_ | Success_.

(** The calls made to the outside, as the trace records them. *)
Inductive call :=
| Save                                                    (* editor.save() *)
| Spawn (command : option jsstring) (args : list jsstring) (cwd : jsstring)
                                                          (* child_process.spawn *)
| Exec (command : jsstring) (cwd : jsstring)              (* child_process.exec *)
| Notify (l : level) (message : jsstring)                 (* atom.notifications.add... *)
| ConsoleInfo (label : jsstring)                          (* console.info(label, ...) *)
| ConsoleError (label : jsstring) (err : Error)           (* console.error(label, err) *)
| WriteFile (path : jsstring) (data : list Z)             (* fs.writeFile *)
| Access (path : jsstring)                                (* fs.access *)
| Unlink (path : jsstring)                                (* fs.unlink *)
| Open (path : jsstring) (split_option : option jsstring) (* atom.workspace.open *)
| SetSoftTabs (path : jsstring) (v : bool)
| SetSoftWrapped (path : jsstring) (v : bool)
| SetReadOnly (path : jsstring) (v : bool)
| Destroy (path : jsstring)                               (* textEditor.destroy() *)
| ActivateContainer                      (* paneContainerForItem(item).activate() *)
| ActivatePane.                                           (* activePane.activate() *)

(** The host: Node, the editor's services and its workspace.  Where
    [atom.workspace.open] puts an item and which editor has the focus after
    a call are the workspace's matter, decided by its pane layout, which the
    package never reads: [open] looks for the path in the pane it targets
    only, adds a new editor there when that pane has none for it, and
    activates the item; [destroy] and [activate] move the focus.  The
    package sees the outcome through [getTextEditors()] and
    [getActiveTextEditor()]. *)
Record Host := {
  platform : jsstring;                          (* process.platform *)
  tmpdir : jsstring;                            (* os.tmpdir() *)
  path_join : jsstring -> jsstring -> jsstring; (* path.join(a, b) *)
  path_parse : jsstring -> PathInfo;            (* path.parse(p) *)
  config : Config;                              (* atom.config *)
  grammars : list Grammar;                      (* atom.grammars.getGrammars() *)
  error_message : Error -> jsstring;            (* error.message *)
  fault : request -> option Error;              (* the call fails with this error *)
  opens_nothing : jsstring -> bool;             (* atom.workspace.open resolves to undefined *)
  placed : jsstring -> option jsstring -> list (option jsstring)
           -> list (option jsstring);
    (* getTextEditors() once atom.workspace.open(path, {split}) has its item *)
  focused : call -> option TextEditor -> option TextEditor
    (* getActiveTextEditor() after a call on the workspace *)
}.

(** The state.  [files] are the files as the package's own [fs] calls read
    and change them, and nothing else: what [editor.save()] stores and what
    the compiler produces are written by others and are not in it, so it
    says nothing about the rest of the disk.  [tabs] holds [getPath()] of
    each open text editor, over all panes; [activeTextEditor] is the editor
    that has the focus.  [trace] lists the calls made so far, oldest first,
    whether or not they succeeded. *)
Record World := {
  files : gmap jsstring (list Z);
  tabs : list (option jsstring);
  activeTextEditor : option TextEditor; (* atom.workspace.getActiveTextEditor() *)
  trace : list call
}.

(** ** The monad of the methods: state and exceptions *)

Inductive result (A : Type) :=
| Val (a : A)
| Exn (e : Error).
Arguments Val {A} a.
Arguments Exn {A} e.

Definition M (A : Type) : Type := World -> result A * World.

Definition ret {A} (a : A) : M A := fun w => (Val a, w).

Definition bind {A B} (m : M A) (k : A -> M B) : M B :=
  fun w =>
    match m w with
    | (Val a, w') => k a w'
    | (Exn e, w') => (Exn e, w')
    end.

Definition throw {A} (e : Error) : M A := fun w => (Exn e, w).

(** [try { m } catch (err) { handler(err) }] *)
Definition try_catch {A} (m : M A) (handler : Error -> M A) : M A :=
  fun w =>
    match m w with
    | (Val a, w') => (Val a, w')
    | (Exn e, w') => handler e w'
    end.

Notation "x <- m ;; k" := (bind m (fun x => k))
  (at level 20, m at level 99, k at level 200, only parsing).
Notation "m >> k" := (bind m (fun _ => k))
  (at level 100, k at level 200, right associativity, only parsing).

Definition when (b : bool) (m : M unit) : M unit := if b then m else ret tt.

(** Record a call in the trace. *)
Definition emit (c : call) : M unit :=
  fun w => (Val tt, {| files := files w; tabs := tabs w;
                       activeTextEditor := activeTextEditor w;
                       trace := trace w ++ [c] |}).

Definition get_world : M World := fun w => (Val w, w).

Definition set_files (f : gmap jsstring (list Z)) : M unit :=
  fun w => (Val tt, {| files := f; tabs := tabs w;
                       activeTextEditor := activeTextEditor w;
                       trace := trace w |}).

Definition set_tabs (t : list (option jsstring)) : M unit :=
  fun w => (Val tt, {| files := files w; tabs := t;
                       activeTextEditor := activeTextEditor w;
                       trace := trace w |}).

Definition set_active (a : option TextEditor) : M unit :=
  fun w => (Val tt, {| files := files w; tabs := tabs w;
                       activeTextEditor := a;
                       trace := trace w |}).

(** Drop the first occurrence of [x]: one editor leaves the workspace. *)
Fixpoint remove_first (x : option jsstring) (l : list (option jsstring))
  : list (option jsstring) :=
  match l with
  | [] => []
  | y :: l' => if bool_decide (x = y) then l' else y :: remove_first x l'
  end.

(** A call of an [async] method whose promise is dropped: a rejection is not
    observed by the caller. *)
Definition unawaited {A} (m : M A) : M unit :=
  try_catch (m >> ret tt) (fun _ => ret tt).

(** The double quote, which no literal of this file spells directly. *)
Definition DQUOTE : jsstring := [34].

(** What the compiler process does between [spawn] and its [close] event:
    the [Buffer]s of its [stderr] stream, in order of arrival, and the exit
    code ([null] when a signal ended it).  A process that could not be
    started (its [error] event has no listener) is outside the model. *)
Record Child := {
  stderr_chunks : list (list Z);
  exit_code : option Z
}.

(** How the promise that [compile] returns ends: [resolve()] is called, or
    it stays pending for ever. *)
Inductive settled := Resolved | Pending.

Section Package.

Variable h : Host.

(** *** The editor, file system and process interfaces *)

Definition getActiveTextEditor : M (option TextEditor) :=
  fun w => (Val (activeTextEditor w), w).

(** A host call that may fail. *)
Definition host_call (r : request) : M unit :=
  match fault h r with
  | Some e => throw e
  | None => ret tt
  end.

(** [editor.save()].  The editor writes its own file; the package has no
    part in that write, and [files] does not show it. *)
Definition editor_save : M unit :=
  emit Save >> host_call ReqSave.

(** [child_process.spawn(command, args, {cwd})]; the call throws when the
    command is not a non-empty string. *)
Definition spawn (command : option jsstring) (args : list jsstring)
    (cwd : jsstring) : M unit :=
  emit (Spawn command args cwd) >>
  match command with
  | Some (_ :: _) => ret tt
  | _ => throw InvalidFileArgument
  end.

Definition exec (command : jsstring) (cwd : jsstring) : M unit :=
  emit (Exec command cwd).

(** [fs.writeFile(path, text)]: the file holds the UTF-8 bytes of [text]. *)
Definition fs_writeFile (path : jsstring) (text : jsstring) : M unit :=
  emit (WriteFile path (utf8_of_string text)) >>
  host_call (ReqWriteFile path) >>
  w <- get_world;;
  set_files (<[path := utf8_of_string text]> (files w)).

Definition fs_access (path : jsstring) : M unit :=
  emit (Access path) >>
  host_call (ReqAccess path) >>
  w <- get_world;;
  match files w !! path with
  | Some _ => ret tt
  | None => throw (ENOENT path)
  end.

Definition fs_unlink (path : jsstring) : M unit :=
  emit (Unlink path) >>
  host_call (ReqUnlink path) >>
  w <- get_world;;
  match files w !! path with
  | Some _ => set_files (delete path (files w))
  | None => throw (ENOENT path)
  end.

(** The focus after a call on the workspace. *)
Definition refocus (c : call) : M unit :=
  w <- get_world;;
  set_active (focused h c (activeTextEditor w)).

(** [atom.workspace.open(path, {split})]: the editor showing [path], or
    [undefined].  The workspace places the item and gives it the focus. *)
Definition workspace_open (path : jsstring) (split_option : option jsstring)
  : M (option jsstring) :=
  emit (Open path split_option) >>
  host_call (ReqOpen path) >>
  if opens_nothing h path then ret None
  else
    w <- get_world;;
    set_tabs (placed h path split_option (tabs w)) >>
    refocus (Open path split_option) >>
    ret (Some path).

(** [textEditor.destroy()] on an editor showing [path]. *)
Definition destroy (path : jsstring) : M unit :=
  emit (Destroy path) >>
  w <- get_world;;
  set_tabs (remove_first (Some path) (tabs w)) >>
  refocus (Destroy path).

(** [activate()] on a pane or on a pane container. *)
Definition activate (c : call) : M unit :=
  emit c >> refocus c.

Definition addError (message : jsstring) : M unit := emit (Notify Error_ message).
Definition addWarning (message : jsstring) : M unit := emit (Notify Warning_ message).
Definition addSuccess (message : jsstring) : M unit := emit (Notify Success_ message).

Definition console_error (label : jsstring) (err : Error) : M unit :=
  emit (ConsoleError label err).

(** *** The methods of the package *)

(** [debug(...args)]; the trace keeps the first argument of the log call. *)
Definition debug (label : jsstring) : M unit :=
  when (debugMode (config h)) (emit (ConsoleInfo label)).

(** [getFileType(ext)]: with an extension, the name of the first grammar
    that declares it, if any; without one (or with the empty string), the
    name of the active editor's grammar, and reading it throws when no
    editor is active. *)
Definition getFileType (ext : option jsstring) : M (option jsstring) :=
  match ext with
  | Some (c :: cs) =>
      ret (grammar_name
             <$> List.find
                   (fun grammar =>
                      existsb (fun fileType => str_eq (c :: cs) (lit "." ++ fileType))
                        (fileTypes grammar))
                   (grammars h))
  | _ =>
      editor <- getActiveTextEditor;;
      match editor with
      | Some e => ret (Some (grammar_name (getGrammar e)))
      | None => throw (ReadOfUndefined (lit "getGrammar"))
      end
  end.

Definition getCommand (fileType : option jsstring) : option jsstring :=
  match fileType with
  | Some t =>
      if str_eq t (lit "C") then Some (cCompiler (config h))
      else if str_eq t (lit "C++") then Some (cppCompiler (config h))
      else None
  | None => None
  end.

(** [buffer.file] of the active editor; reading [buffer] of [undefined]
    throws. *)
Definition getFilePath : M (option jsstring) :=
  editor <- getActiveTextEditor;;
  match editor with
  | Some e => ret (buffer_file e)
  | None => throw (ReadOfUndefined (lit "buffer"))
  end.

(** The options string [getArgs] reads: [cppCompilerOptions] when
    [fileType === "C++"], [cCompilerOptions] otherwise. *)
Definition compilerOptions (fileType : option jsstring) : jsstring :=
  if bool_decide (fileType = Some (lit "C++")) then cppCompilerOptions (config h)
  else cCompilerOptions (config h).

Definition getArgs (files : list jsstring) (output : jsstring)
    (fileType : option jsstring) (extraArgs : option (list jsstring))
  : M (list jsstring) :=
  let extraArgs := match extraArgs with Some a => a | None => [] end in
  let args :=
    extraArgs ++ files ++ [lit "-o"; output]
      ++ List.filter Boolean (split SPACE (compilerOptions fileType)) in
  debug (lit "compiler args") >>
  ret args.

Definition getCompiledPath (dir base : jsstring) : jsstring :=
  if compileToTmpDirectory (config h) then path_join h (tmpdir h) base
  else path_join h dir base.

(** The [switch (terminal)] of [runProgram]: the terminal's command and the
    arguments that precede the program. *)
Definition linuxTerminalCommand (terminal : option jsstring) (gdb : bool)
  : jsstring * list jsstring :=
  let chosen t := bool_decide (terminal = Some (lit t)) in
  if chosen "GNOME Terminal" then (lit "gnome-terminal", [lit "--command"])
  else if chosen "Konsole" then
    (lit "konsole", (if gdb then [] else [lit "--hold"]) ++ [lit "-e"])
  else if chosen "xfce4-terminal" then
    (lit "xfce4-terminal", (if gdb then [] else [lit "--hold"]) ++ [lit "--command"])
  else if chosen "pantheon-terminal" then (lit "pantheon-terminal", [lit "-e"])
  else if chosen "URxvt" then
    (lit "urxvt", (if gdb then [] else [lit "-hold"]) ++ [lit "-e"])
  else if chosen "MATE Terminal" then (lit "mate-terminal", [lit "--command"])
  else (lit "xterm", (if gdb then [] else [lit "-hold"]) ++ [lit "-e"]).

(** The template literal of the Windows branch of [runProgram]. *)
Definition windowsCommand (name file : jsstring) (gdb : bool) : jsstring :=
  lit "start " ++ DQUOTE ++ name ++ DQUOTE ++ lit " cmd /C " ++ DQUOTE
    ++ (if gdb then lit "gdb" else lit "")
    ++ lit " " ++ file ++ lit " "
    ++ (if gdb then lit "" else lit "& echo. & pause").

Definition runProgram (info : PathInfo) (gdb : bool) : M unit :=
  let file := getCompiledPath (dir info) (name info) in
  if str_eq (platform h) (lit "linux") then
    let terminal := linuxTerminal (config h) in
    let '(terminalCommand, args) := linuxTerminalCommand terminal gdb in
    debug (lit "command") >>
    spawn (Some terminalCommand)
      (args ++ (if gdb then [lit "gdb"] else []) ++ [file]) (dir info)
  else if str_eq (platform h) (lit "win32") then
    let command := windowsCommand (name info) file gdb in
    debug (lit "command") >>
    exec command (dir info)
  else if str_eq (platform h) (lit "darwin") then
    spawn (Some (lit "open")) [file] (dir info)
  else ret tt.

(** The [data] handler of [child.stderr], once per chunk. *)
Fixpoint on_data (chunks : list (list Z)) (stderr : jsstring) : M jsstring :=
  match chunks with
  | [] => ret stderr
  | data :: rest =>
      let stderr := stderr ++ Buffer_toString data in
      debug (lit "stderr") >>
      on_data rest stderr
  end.

(** [if (code)]: a number other than zero. *)
Definition truthy_code (code : option Z) : bool :=
  match code with
  | Some c => negb (c =? 0)
  | None => false
  end.

(** The path of the diagnostics file of a source directory. *)
Definition errorPath (info : PathInfo) : jsstring :=
  path_join h (dir info) (lit "compiling_error.txt").

(** The [forEach] over [atom.workspace.getTextEditors()]. *)
Fixpoint close_error_tabs (target : jsstring) (editors : list (option jsstring))
  : M unit :=
  match editors with
  | [] => ret tt
  | textEditor :: rest =>
      (if bool_decide (textEditor = Some target) then destroy target else ret tt) >>
      close_error_tabs target rest
  end.

(** The [close] handler of the child. *)
Definition on_close (code : option Z) (stderr : jsstring) (info : PathInfo)
    (gdb : bool) : M settled :=
  debug (lit "exit code") >>
  if truthy_code code then
    when (showErrorNotifications (config h))
      (addError (replace_newlines (lit "<br/>") stderr)) >>
    when (addCompilingErr (config h))
      (try_catch
         (fs_writeFile (errorPath info) stderr >>
          debug (lit "compiling_error.txt has been written successfully.") >>
          errorFile <- workspace_open (errorPath info)
                         (Some (splitDirection (config h)));;
          match errorFile with
          | Some item =>
              emit (SetSoftTabs item false) >>
              emit (SetSoftWrapped item true) >>
              emit (SetReadOnly item true)
          | None => ret tt
          end >>
          match errorFile with
          | Some _ => activate ActivateContainer
          | None => throw (ReadOfUndefined (lit "activate"))
          end >>
          activate ActivatePane)
         (fun err => console_error (lit "Error writing compiling_error.txt:") err)) >>
    ret Pending
  else
    when (Boolean stderr && showWarnings (config h))
      (addWarning (replace_newlines (lit "<br/>") stderr)) >>
    (if runAfterCompile (config h) then unawaited (runProgram info gdb)
     else addSuccess (lit "Compilation Successful")) >>
    when (closeErrorTabOnSuccess (config h))
      (try_catch
         (w <- get_world;; close_error_tabs (errorPath info) (tabs w))
         (fun err => debug (lit "Error closing compiling_error.txt:"))) >>
    try_catch
      (fs_access (errorPath info) >>
       fs_unlink (errorPath info) >>
       debug (lit "compiling_error.txt has been deleted successfully."))
      (fun err => debug (lit "Error deleting compiling_error.txt:")) >>
    unawaited (workspace_open (path_join h (dir info) (base info)) None) >>
    activate ActivatePane >>
    ret Resolved.

(** [compile]: save the active editor, spawn the compiler, collect its
    [stderr], handle its [close].  An exception before the handlers are
    installed rejects the promise; one inside the [close] handler would
    leave it pending. *)
Definition compile (command : option jsstring) (info : PathInfo)
    (args : list jsstring) (gdb : bool) (child : Child) : M settled :=
  editor <- getActiveTextEditor;;
  match editor with
  | Some _ => editor_save
  | None => ret tt
  end >>
  spawn command args (dir info) >>
  stderr <- on_data (stderr_chunks child) (lit "");;
  try_catch (on_close (exit_code child) stderr info gdb) (fun _ => ret Pending).

Definition compileFile (fileType : option jsstring) (gdb : bool) (child : Child)
  : M unit :=
  file <- getFilePath;;
  match file with
  | Some filePath =>
      let info := path_parse h filePath in
      try_catch
        (args <- getArgs [filePath]
                   (getCompiledPath (dir info) (name info)) fileType
                   (if gdb then Some [lit "-g"] else None);;
         compile (getCommand fileType) info args gdb child >>
         ret tt)
        (fun error =>
           addError (lit "<strong>Error:</strong><br/>" ++ error_message h error))
  | None =>
      addError (lit "<strong>File not found.</strong><br/>Save before compiling.")
  end.

(** [treeCompile(e, gdb)]: [files] are the paths of the files selected in
    the tree view and [target] the path of the entry the command was invoked
    on, both read from the page. *)
Definition treeCompile (files : list jsstring) (target : jsstring) (gdb : bool)
    (child : Child) : M unit :=
  let info := path_parse h target in
  fileType <- getFileType (Some (ext info));;
  try_catch
    (args <- getArgs files
               (getCompiledPath (dir info) (name info)) fileType
               (if gdb then Some [lit "-g"] else None);;
     compile (getCommand fileType) info args gdb child >>
     ret tt)
    (fun error =>
       addError (lit "<strong>Error:</strong><br/>" ++ error_message h error)).

(** The commands [activate] registers on text editors.  The handler
    evaluates [getFileType()] itself and drops the promise of
    [compileFile]. *)
Definition command_compile (child : Child) : M unit :=
  fileType <- getFileType None;;
  unawaited (compileFile fileType false child).

Definition command_gdb (child : Child) : M unit :=
  fileType <- getFileType None;;
  unawaited (compileFile fileType true child).

(** The commands registered on the files of the tree view. *)
Definition command_tree_compile (files : list jsstring) (target : jsstring)
    (child : Child) : M unit :=
  unawaited (treeCompile files target false child).

Definition command_tree_gdb (files : list jsstring) (target : jsstring)
    (child : Child) : M unit :=
  unawaited (treeCompile files target true child).

End Package.

(** ** The specification's reading of the argument vectors *)

(** White space as ECMAScript defines it (the class [\s]). *)
Definition is_whitespace (c : Z) : bool :=
  bool_decide (c ∈ [9; 10; 11; 12; 13; 32; 0xA0; 0x1680; 0x2028; 0x2029;
                    0x202F; 0x205F; 0x3000; 0xFEFF])
  || ((0x2000 <=? c) && (c <=? 0x200A)).

(** The pieces of a string between the code units that satisfy [p]. *)
Fixpoint split_where (p : Z -> bool) (s : jsstring) : list jsstring :=
  match s with
  | [] => [[]]
  | c :: s' =>
      if p c then [] :: split_where p s'
      else match split_where p s' with
           | [] => [[c]]
           | piece :: pieces => (c :: piece) :: pieces
           end
  end.

(** The compiler arguments as the specification words them: the debug flag
    when requested, the sources, [-o] and the output, then the extra flags
    split on white space, empty tokens discarded. *)
Definition spec_compiler_args (attachDebugger : bool) (sources : list jsstring)
    (output : jsstring) (extraFlags : jsstring) : list jsstring :=
  (if attachDebugger then [lit "-g"] else [])
    ++ sources ++ [lit "-o"; output]
    ++ List.filter Boolean (split_where is_whitespace extraFlags).

(** The terminal arguments as the specification words them: the terminal's
    argument prefix, a hold-open flag unless debugging, [gdb] when debugging,
    the compiled path. *)
Definition spec_terminal_args (argsPrefix : list jsstring) (holdFlag : jsstring)
    (attachDebugger : bool) (compiledPath : jsstring) : list jsstring :=
  argsPrefix
    ++ (if attachDebugger then [] else [holdFlag])
    ++ (if attachDebugger then [lit "gdb"] else [])
    ++ [compiledPath].

(** The table behind the [switch] of [runProgram], one row per terminal:
    its command, the switch that introduces the program to run, and its
    hold-open flag when it has one. *)
Record TerminalSpec := {
  command : jsstring;
  argsPrefix : list jsstring;
  holdFlag : option jsstring
}.

Definition terminalSpecs : list (jsstring * TerminalSpec) :=
  [ (lit "GNOME Terminal",
     {| command := lit "gnome-terminal"; argsPrefix := [lit "--command"]; holdFlag := None |});
    (lit "Konsole",
     {| command := lit "konsole"; argsPrefix := [lit "-e"]; holdFlag := Some (lit "--hold") |});
    (lit "xfce4-terminal",
     {| command := lit "xfce4-terminal"; argsPrefix := [lit "--command"]; holdFlag := Some (lit "--hold") |});
    (lit "pantheon-terminal",
     {| command := lit "pantheon-terminal"; argsPrefix := [lit "-e"]; holdFlag := None |});
    (lit "URxvt",
     {| command := lit "urxvt"; argsPrefix := [lit "-e"]; holdFlag := Some (lit "-hold") |});
    (lit "MATE Terminal",
     {| command := lit "mate-terminal"; argsPrefix := [lit "--command"]; holdFlag := None |}) ].

Definition defaultTerminal : TerminalSpec :=
  {| command := lit "xterm"; argsPrefix := [lit "-e"]; holdFlag := Some (lit "-hold") |}.

(** The row of a configured choice; the default when the choice is unset or
    not in the table. *)
Definition terminalSpec (choice : option jsstring) : TerminalSpec :=
  match choice with
  | Some t =>
      match List.find (fun row => str_eq (fst row) t) terminalSpecs with
      | Some row => snd row
      | None => defaultTerminal
      end
  | None => defaultTerminal
  end.

(** The arguments a row gives: the hold flag first, and only when the row
    has one and no debugger is attached. *)
Definition terminal_args (spec : TerminalSpec) (gdb : bool) (file : jsstring)
  : list jsstring :=
  (if gdb then [] else match holdFlag spec with Some f => [f] | None => [] end)
    ++ argsPrefix spec
    ++ (if gdb then [lit "gdb"] else [])
    ++ [file].

(** ** Calls added to a trace, and worlds that differ by them *)

Definition with_calls (w : World) (cs : list call) : World :=
  {| files := files w; tabs := tabs w; activeTextEditor := activeTextEditor w;
     trace := trace w ++ cs |}.

Definition with_files (w : World) (f : gmap jsstring (list Z)) : World :=
  {| files := f; tabs := tabs w; activeTextEditor := activeTextEditor w;
     trace := trace w |}.

Definition with_tabs (w : World) (t : list (option jsstring)) : World :=
  {| files := files w; tabs := t; activeTextEditor := activeTextEditor w;
     trace := trace w |}.

Definition with_active (w : World) (a : option TextEditor) : World :=
  {| files := files w; tabs := tabs w; activeTextEditor := a;
     trace := trace w |}.

(** The log line [debug] writes, if any. *)
Definition logged (h : Host) (label : jsstring) : list call :=
  if debugMode (config h) then [ConsoleInfo label] else [].

Definition is_notification (c : call) : bool :=
  match c with
  | Notify _ _ => true
  | _ => false
  end.

Definition is_process (c : call) : bool :=
  match c with
  | Spawn _ _ _ | Exec _ _ => true
  | _ => false
  end.

Definition is_write (c : call) : bool :=
  match c with
  | WriteFile _ _ => true
  | _ => false
  end.

(** Text that is well-formed UTF-8: the encoding of scalar values. *)
Definition utf8_encode (text : list Z) : list Z :=
  List.flat_map utf8_encode_cp text.

Definition well_formed_utf8 (bytes : list Z) : Prop :=
  exists text, Forall scalar text /\ bytes = utf8_encode text.

(** ** Concrete hosts and worlds, for examples *)

Definition demo_config : Config :=
  {| addCompilingErr := true; splitDirection := lit "down"; debugMode := false;
     cCompilerOptions := lit " -O2  -Wall "; cppCompilerOptions := lit "-std=c++17";
     runAfterCompile := true; showWarnings := true;
     cCompiler := lit "gcc"; cppCompiler := lit "g++";
     compileToTmpDirectory := true; closeErrorTabOnSuccess := true;
     showErrorNotifications := false; linuxTerminal := None |}.

Definition demo_info : PathInfo :=
  {| dir := lit "/home/u"; base := lit "main.c"; name := lit "main"; ext := lit ".c" |}.

Definition C_grammar : Grammar :=
  {| grammar_name := lit "C"; fileTypes := [lit "c"; lit "h"] |}.

Definition Cpp_grammar : Grammar :=
  {| grammar_name := lit "C++"; fileTypes := [lit "cpp"; lit "cc"; lit "hpp"] |}.

(** [path.parse] and [path.join] for the examples, on paths already in
    normal form: the directory ends at the last slash, the extension starts
    at the last dot of the base name unless that dot is its first
    character. *)
Definition demo_parse (p : jsstring) : PathInfo :=
  let segments := split 47 p in
  let base := List.last segments [] in
  let parts := split 46 base in
  let stem := join 46 (List.removelast parts) in
  let dotted := negb (Nat.eqb (length parts) 1) && Boolean stem in
  {| dir := join 47 (List.removelast segments);
     base := base;
     name := if dotted then stem else base;
     ext := if dotted then 46 :: List.last parts [] else [] |}.

Definition demo_join (a b : jsstring) : jsstring := a ++ lit "/" ++ b.

(** A workspace in which [open] finds the editor of a path wherever it is
    and adds one when there is none, and in which the focus stays with the
    editor the command came from. *)
Definition demo_placed (path : jsstring) (split_option : option jsstring)
    (tabs : list (option jsstring)) : list (option jsstring) :=
  if bool_decide (Some path ∈ tabs) then tabs else tabs ++ [Some path].

Definition demo_focused (c : call) (a : option TextEditor) : option TextEditor := a.

Definition demo_host (os : string) (c : Config) : Host :=
  {| platform := lit os; tmpdir := lit "/tmp";
     path_join := demo_join;
     path_parse := demo_parse;
     config := c;
     grammars := [C_grammar; Cpp_grammar];
     error_message := fun _ => lit "failed";
     fault := fun _ => None;
     opens_nothing := fun _ => false;
     placed := demo_placed;
     focused := demo_focused |}.

Definition demo_editor : TextEditor :=
  {| buffer_file := Some (lit "/home/u/main.c"); getGrammar := C_grammar |}.

Definition demo_world : World :=
  {| files := ∅; tabs := [Some (lit "/home/u/main.c")];
     activeTextEditor := Some demo_editor; trace := [] |}.

(** A workspace with no active text editor (a settings tab has the focus). *)
Definition no_editor_world : World :=
  {| files := ∅; tabs := []; activeTextEditor := None; trace := [] |}.

Definition with_cCompilerOptions (options : jsstring) (c : Config) : Config :=
  {| addCompilingErr := addCompilingErr c; splitDirection := splitDirection c;
     debugMode := debugMode c;
     cCompilerOptions := options; cppCompilerOptions := cppCompilerOptions c;
     runAfterCompile := runAfterCompile c; showWarnings := showWarnings c;
     cCompiler := cCompiler c; cppCompiler := cppCompiler c;
     compileToTmpDirectory := compileToTmpDirectory c;
     closeErrorTabOnSuccess := closeErrorTabOnSuccess c;
     showErrorNotifications := showErrorNotifications c;
     linuxTerminal := linuxTerminal c |}.

Definition with_linuxTerminal (terminal : option jsstring) (c : Config) : Config :=
  {| addCompilingErr := addCompilingErr c; splitDirection := splitDirection c;
     debugMode := debugMode c;
     cCompilerOptions := cCompilerOptions c; cppCompilerOptions := cppCompilerOptions c;
     runAfterCompile := runAfterCompile c; showWarnings := showWarnings c;
     cCompiler := cCompiler c; cppCompiler := cppCompiler c;
     compileToTmpDirectory := compileToTmpDirectory c;
     closeErrorTabOnSuccess := closeErrorTabOnSuccess c;
     showErrorNotifications := showErrorNotifications c;
     linuxTerminal := terminal |}.

(** Two flags separated by a tab, as a user can write them in the settings
    file. *)
Definition tab_separated_flags : jsstring := lit "-O2" ++ [9] ++ lit "-Wall".

(** The file type of a language and the options setting that goes with it. *)
Definition languageType (cpp : bool) : option jsstring :=
  Some (lit (if cpp then "C++" else "C")).

Definition languageOptions (h : Host) (cpp : bool) : jsstring :=
  if cpp then cppCompilerOptions (config h) else cCompilerOptions (config h).

Definition tab_host : Host :=
  demo_host "linux" (with_cCompilerOptions tab_separated_flags demo_config).

Definition gnome_host : Host :=
  demo_host "linux" (with_linuxTerminal (Some (lit "GNOME Terminal")) demo_config).

Definition alacritty_host : Host :=
  demo_host "linux" (with_linuxTerminal (Some (lit "Alacritty")) demo_config).

(** The calls [runProgram] makes. *)
Definition launch_calls (h : Host) (info : PathInfo) (gdb : bool) : list call :=
  trace (snd (runProgram h info gdb no_editor_world)).

(** How many double quotes a string holds. *)
Definition count_quotes (s : jsstring) : nat :=
  length (List.filter (fun c => c =? 34) s).

(** ** The calls of a compile, step by step *)

(** [editor.save()], when there is an active editor. *)
Definition saved (w : World) : list call :=
  match activeTextEditor w with
  | Some _ => [Save]
  | None => []
  end.

(** The string the [data] handler has accumulated when the child closes. *)
Definition stderr_text (child : Child) : jsstring :=
  List.concat (List.map Buffer_toString (stderr_chunks child)).

(** The log lines of the [data] handler, one per chunk. *)
Definition data_logs (h : Host) (child : Child) : list call :=
  List.flat_map (fun _ => logged h (lit "stderr")) (stderr_chunks child).

(** The calls up to the [close] event of a compiler that started. *)
Definition started_calls (h : Host) (command : jsstring) (info : PathInfo)
    (args : list jsstring) (child : Child) (w : World) : list call :=
  saved w ++ [Spawn (Some command) args (dir info)] ++ data_logs h child.

Definition notifications (cs : list call) : list call :=
  List.filter is_notification cs.

(** The notification of a failed compile, when the setting asks for it. *)
Definition error_notification (h : Host) (stderr : jsstring) : list call :=
  if showErrorNotifications (config h)
  then [Notify Error_ (replace_newlines (lit "<br/>") stderr)]
  else [].

(** The warning of a successful compile that wrote to [stderr]. *)
Definition warning_notification (h : Host) (stderr : jsstring) : list call :=
  if Boolean stderr && showWarnings (config h)
  then [Notify Warning_ (replace_newlines (lit "<br/>") stderr)]
  else [].

(** How many open tabs show a path. *)
Definition tabs_showing (path : jsstring) (tabs : list (option jsstring)) : nat :=
  length (List.filter (fun t => bool_decide (t = Some path)) tabs).

(** Closing the tabs of the diagnostics file: one [destroy] per tab. *)
Definition closing_calls (h : Host) (info : PathInfo)
    (tabs : list (option jsstring)) : list call :=
  if closeErrorTabOnSuccess (config h)
  then repeat (Destroy (errorPath h info)) (tabs_showing (errorPath h info) tabs)
  else [].

Definition tabs_after_closing (h : Host) (info : PathInfo)
    (tabs : list (option jsstring)) : list (option jsstring) :=
  if closeErrorTabOnSuccess (config h)
  then List.filter (fun t => negb (bool_decide (t = Some (errorPath h info)))) tabs
  else tabs.

(** Whether the deletion goes through: the host lets [access] and [unlink]
    pass and the file is there. *)
Definition deletes (h : Host) (info : PathInfo) (files : gmap jsstring (list Z))
  : bool :=
  match fault h (ReqAccess (errorPath h info)), files !! errorPath h info,
        fault h (ReqUnlink (errorPath h info)) with
  | None, Some _, None => true
  | _, _, _ => false
  end.

(** The calls of the deletion: [access], then [unlink] if [access] found the
    file, then one of the two log lines. *)
Definition cleanup_calls (h : Host) (info : PathInfo)
    (files : gmap jsstring (list Z)) : list call :=
  Access (errorPath h info)
  :: match fault h (ReqAccess (errorPath h info)), files !! errorPath h info with
     | None, Some _ =>
         Unlink (errorPath h info)
         :: logged h (if deletes h info files
                      then lit "compiling_error.txt has been deleted successfully."
                      else lit "Error deleting compiling_error.txt:")
     | _, _ => logged h (lit "Error deleting compiling_error.txt:")
     end.

Definition files_after_cleanup (h : Host) (info : PathInfo)
    (files : gmap jsstring (list Z)) : gmap jsstring (list Z) :=
  if deletes h info files then delete (errorPath h info) files else files.

(** What [atom.workspace.open] resolves to, and the editors and the focus it
    leaves: those the workspace decides on, when the call went through and
    gave an item. *)
Definition open_result (h : Host) (path : jsstring) : result (option jsstring) :=
  match fault h (ReqOpen path) with
  | Some e => Exn e
  | None => if opens_nothing h path then Val None else Val (Some path)
  end.

Definition tabs_after_open (h : Host) (path : jsstring)
    (split_option : option jsstring) (tabs : list (option jsstring))
  : list (option jsstring) :=
  match fault h (ReqOpen path) with
  | Some _ => tabs
  | None =>
      if opens_nothing h path then tabs
      else placed h path split_option tabs
  end.

Definition active_after_open (h : Host) (path : jsstring)
    (split_option : option jsstring) (a : option TextEditor)
  : option TextEditor :=
  match fault h (ReqOpen path) with
  | Some _ => a
  | None =>
      if opens_nothing h path then a
      else focused h (Open path split_option) a
  end.

(** The focus after the tabs of the diagnostics file are closed. *)
Definition active_after_closing (h : Host) (info : PathInfo)
    (tabs : list (option jsstring)) (a : option TextEditor)
  : option TextEditor :=
  if closeErrorTabOnSuccess (config h)
  then Nat.iter (tabs_showing (errorPath h info) tabs)
         (focused h (Destroy (errorPath h info))) a
  else a.

(** The calls of the [close] handler after exit code zero. *)
Definition success_calls (h : Host) (stderr : jsstring) (info : PathInfo)
    (gdb : bool) (w : World) : list call :=
  logged h (lit "exit code")
    ++ warning_notification h stderr
    ++ (if runAfterCompile (config h) then launch_calls h info gdb
        else [Notify Success_ (lit "Compilation Successful")])
    ++ closing_calls h info (tabs w)
    ++ cleanup_calls h info (files w)
    ++ [Open (path_join h (dir info) (base info)) None; ActivatePane].

Definition tabs_after_success (h : Host) (info : PathInfo)
    (tabs : list (option jsstring)) : list (option jsstring) :=
  tabs_after_open h (path_join h (dir info) (base info)) None
    (tabs_after_closing h info tabs).

Definition active_after_success (h : Host) (info : PathInfo)
    (tabs : list (option jsstring)) (a : option TextEditor)
  : option TextEditor :=
  focused h ActivatePane
    (active_after_open h (path_join h (dir info) (base info)) None
       (active_after_closing h info tabs a)).

(** The calls that write and show the diagnostics file, and those of the
    [close] handler after a non-zero exit code. *)
Definition artifact_calls (h : Host) (info : PathInfo) (stderr : jsstring)
  : list call :=
  WriteFile (errorPath h info) (utf8_of_string stderr)
  :: match fault h (ReqWriteFile (errorPath h info)) with
     | Some e => [ConsoleError (lit "Error writing compiling_error.txt:") e]
     | None =>
         logged h (lit "compiling_error.txt has been written successfully.")
         ++ Open (errorPath h info) (Some (splitDirection (config h)))
         :: match open_result h (errorPath h info) with
            | Exn e => [ConsoleError (lit "Error writing compiling_error.txt:") e]
            | Val None =>
                [ConsoleError (lit "Error writing compiling_error.txt:")
                   (ReadOfUndefined (lit "activate"))]
            | Val (Some item) =>
                [SetSoftTabs item false; SetSoftWrapped item true;
                 SetReadOnly item true; ActivateContainer; ActivatePane]
            end
     end.

Definition failure_calls (h : Host) (stderr : jsstring) (info : PathInfo)
  : list call :=
  logged h (lit "exit code")
    ++ error_notification h stderr
    ++ (if addCompilingErr (config h) then artifact_calls h info stderr else []).

(** Whether the diagnostics file gets written. *)
Definition writes (h : Host) (info : PathInfo) : bool :=
  addCompilingErr (config h)
  && match fault h (ReqWriteFile (errorPath h info)) with
     | None => true
     | Some _ => false
     end.

Definition files_after_failure (h : Host) (stderr : jsstring) (info : PathInfo)
    (files : gmap jsstring (list Z)) : gmap jsstring (list Z) :=
  if writes h info then <[errorPath h info := utf8_of_string stderr]> files
  else files.

Definition tabs_after_failure (h : Host) (info : PathInfo)
    (tabs : list (option jsstring)) : list (option jsstring) :=
  if writes h info
  then tabs_after_open h (errorPath h info) (Some (splitDirection (config h))) tabs
  else tabs.

Definition active_after_failure (h : Host) (info : PathInfo)
    (a : option TextEditor) : option TextEditor :=
  if writes h info then
    match open_result h (errorPath h info) with
    | Val (Some _) =>
        focused h ActivatePane
          (focused h ActivateContainer
             (focused h (Open (errorPath h info) (Some (splitDirection (config h)))) a))
    | _ => a
    end
  else a.

(** Sorting the calls of a trace. *)
Definition is_log (c : call) : bool :=
  match c with
  | ConsoleInfo _ | ConsoleError _ _ => true
  | _ => false
  end.

Definition is_deletion (c : call) : bool :=
  match c with
  | Access _ | Unlink _ => true
  | _ => false
  end.

Definition is_success (c : call) : bool :=
  match c with
  | Notify Success_ _ => true
  | _ => false
  end.

(** The calls of a successful compile before and after the launch. *)
Definition before_launch (h : Host) (command : jsstring) (info : PathInfo)
    (args : list jsstring) (child : Child) (w : World) : list call :=
  started_calls h command info args child w
    ++ logged h (lit "exit code")
    ++ warning_notification h (stderr_text child).

Definition after_launch (h : Host) (info : PathInfo) (w : World) : list call :=
  closing_calls h info (tabs w)
    ++ cleanup_calls h info (files w)
    ++ [Open (path_join h (dir info) (base info)) None; ActivatePane].


(** ** Settings *)

(** The defaults the [config] schema declares. *)
Definition default_config : Config :=
  {| addCompilingErr := true;
     splitDirection := lit "down";
     debugMode := false;
     cCompilerOptions := lit "";
     cppCompilerOptions := lit "";
     runAfterCompile := true;
     showWarnings := true;
     cCompiler := lit "gcc";
     cppCompiler := lit "g++";
     compileToTmpDirectory := true;
     closeErrorTabOnSuccess := true;
     showErrorNotifications := false;
     linuxTerminal := None |}.

Definition with_debugMode (b : bool) (c : Config) : Config :=
  {| addCompilingErr := addCompilingErr c; splitDirection := splitDirection c;
     debugMode := b;
     cCompilerOptions := cCompilerOptions c; cppCompilerOptions := cppCompilerOptions c;
     runAfterCompile := runAfterCompile c; showWarnings := showWarnings c;
     cCompiler := cCompiler c; cppCompiler := cppCompiler c;
     compileToTmpDirectory := compileToTmpDirectory c;
     closeErrorTabOnSuccess := closeErrorTabOnSuccess c;
     showErrorNotifications := showErrorNotifications c;
     linuxTerminal := linuxTerminal c |}.

Definition with_config (c : Config) (h : Host) : Host :=
  {| platform := platform h; tmpdir := tmpdir h; path_join := path_join h;
     path_parse := path_parse h; config := c; grammars := grammars h;
     error_message := error_message h; fault := fault h;
     opens_nothing := opens_nothing h;
     placed := placed h; focused := focused h |}.

(** The same host with the debug setting switched. *)
Definition debugging (b : bool) (h : Host) : Host :=
  with_config (with_debugMode b (config h)) h.

(** A trace without its [console.info] lines. *)
Definition is_console_info (c : call) : bool :=
  match c with
  | ConsoleInfo _ => true
  | _ => false
  end.

Definition without_logs (cs : list call) : list call :=
  List.filter (fun c => negb (is_console_info c)) cs.

(** Two worlds that differ at most in the [console.info] lines of their
    traces, and two computations that keep them so with the same result. *)
Definition same_but_logs (w1 w2 : World) : Prop :=
  files w1 = files w2
  /\ tabs w1 = tabs w2
  /\ activeTextEditor w1 = activeTextEditor w2
  /\ without_logs (trace w1) = without_logs (trace w2).

Definition agree {A} (m1 m2 : M A) : Prop :=
  forall w1 w2,
    same_but_logs w1 w2 ->
    fst (m1 w1) = fst (m2 w2) /\ same_but_logs (snd (m1 w1)) (snd (m2 w2)).

(** ** The entry points: arguments, hosts and file types *)

(** The arguments [compileFile] and [treeCompile] pass to the compiler. *)
Definition compiler_args (h : Host) (sources : list jsstring) (info : PathInfo)
    (fileType : option jsstring) (gdb : bool) : list jsstring :=
  (if gdb then [lit "-g"] else [])
    ++ sources
    ++ [lit "-o"; getCompiledPath h (dir info) (name info)]
    ++ List.filter Boolean (split SPACE (compilerOptions h fileType)).

(** The settings with the two ways of showing a failure switched. *)
Definition with_error_settings (notify write : bool) (c : Config) : Config :=
  {| addCompilingErr := write; splitDirection := splitDirection c;
     debugMode := debugMode c;
     cCompilerOptions := cCompilerOptions c; cppCompilerOptions := cppCompilerOptions c;
     runAfterCompile := runAfterCompile c; showWarnings := showWarnings c;
     cCompiler := cCompiler c; cppCompiler := cppCompiler c;
     compileToTmpDirectory := compileToTmpDirectory c;
     closeErrorTabOnSuccess := closeErrorTabOnSuccess c;
     showErrorNotifications := notify;
     linuxTerminal := linuxTerminal c |}.

(** Whether a compile gets to run the program: the compiler was started, it
    ended with success, and the setting asks for the run. *)
Definition runs_program (h : Host) (command : option jsstring) (child : Child)
  : bool :=
  match command with
  | Some (_ :: _) =>
      negb (truthy_code (exit_code child)) && runAfterCompile (config h)
  | _ => false
  end.

(** A grammar declares an extension (with its dot). *)
Definition declares (g : Grammar) (ext : jsstring) : Prop :=
  exists fileType, fileType ∈ fileTypes g /\ ext = lit "." ++ fileType.

(** A host on which saving the editor fails. *)
Definition failing_save_host : Host :=
  {| platform := lit "linux"; tmpdir := lit "/tmp";
     path_join := demo_join; path_parse := demo_parse;
     config := demo_config; grammars := [C_grammar; Cpp_grammar];
     error_message := fun e => match e with HostError m => m | _ => lit "failed" end;
     fault := fun r => match r with
                       | ReqSave => Some (HostError (lit "EACCES: permission denied"))
                       | _ => None
                       end;
     opens_nothing := fun _ => false;
     placed := demo_placed;
     focused := demo_focused |}.


(** The source of a run of [compileFile]: the parsed path of the active
    editor's file, when there is one. *)
Definition active_info (h : Host) (w : World) : PathInfo :=
  match activeTextEditor w with
  | Some e =>
      match buffer_file e with
      | Some filePath => path_parse h filePath
      | None => path_parse h []
      end
  | None => path_parse h []
  end.

(** A call that starts [program] in [cwd]: a [spawn] whose last argument it
    is, or an [exec] whose command line holds it between two spaces. *)
Definition launches (program cwd : jsstring) (c : call) : Prop :=
  match c with
  | Spawn _ args d => d = cwd /\ exists before, args = before ++ [program]
  | Exec commandLine d =>
      d = cwd
      /\ exists before after,
           commandLine = before ++ lit " " ++ program ++ lit " " ++ after
  | _ => False
  end.

(** ** What a compile is allowed to do *)

(** The calls a compile of [info] can make: processes in the source
    directory; file-system calls on the diagnostics file alone, a write
    only when the setting asks for the file; a tab closed only if it shows
    that file and close-on-success is set; [open] on that file or on the
    source; log lines only in debug mode. *)
Definition allowed (h : Host) (info : PathInfo) (c : call) : Prop :=
  match c with
  | Save | Notify _ _ | ConsoleError _ _ | ActivateContainer | ActivatePane => True
  | ConsoleInfo _ => debugMode (config h) = true
  | Spawn _ _ cwd | Exec _ cwd => cwd = dir info
  | WriteFile path _ =>
      path = errorPath h info /\ addCompilingErr (config h) = true
  | Destroy path =>
      path = errorPath h info /\ closeErrorTabOnSuccess (config h) = true
  | Access path | Unlink path
  | SetSoftTabs path _ | SetSoftWrapped path _ | SetReadOnly path _ =>
      path = errorPath h info
  | Open path _ =>
      path = errorPath h info \/ path = path_join h (dir info) (base info)
  end.

(** A later world of a compile of [info]: the trace has grown, by allowed
    calls. *)
Definition evolves (h : Host) (info : PathInfo) (w w' : World) : Prop :=
  exists cs, trace w' = trace w ++ cs /\ Forall (allowed h info) cs.

(** A method keeps a relation when every run relates the world it starts in
    to the world it leaves. *)
Definition keeps (R : World -> World -> Prop) {A} (m : M A) : Prop :=
  forall w, R w (snd (m w)).

(** * Properties *)

Example split_examples :
  split SPACE (lit "") = [lit ""] /\
  split SPACE (lit " a  b ") = [lit ""; lit "a"; lit ""; lit "b"; lit ""] /\
  join SPACE (split SPACE (lit " a  b ")) = lit " a  b " /\
  Buffer_toString [0xE2; 0x80; 0x98; 0x78; 0xF0; 0x9F; 0x98; 0x80] = [0x2018; 0x78; 0xD83D; 0xDE00] /\
  utf8_of_string [0x2018; 0x78; 0xD83D; 0xDE00] = [0xE2; 0x80; 0x98; 0x78; 0xF0; 0x9F; 0x98; 0x80] /\
  Buffer_toString [0xFF] = [0xFFFD] /\
  Buffer_toString [0xE2; 0x80] = [0xFFFD] /\
  str_eq (lit "C++") (lit "C++") = true.
Proof. vm_compute. repeat split. Qed.

(** ** Strings *)

Lemma split_not_nil (sep : Z) (s : jsstring) : split sep s <> [].
Proof.
  destruct s as [|c s]; simpl; [discriminate|].
  destruct (c =? sep); [discriminate|].
  destruct (split sep s); discriminate.
Qed.

Lemma join_cons (sep : Z) (piece : jsstring) (rest : list jsstring) :
  rest <> [] -> join sep (piece :: rest) = piece ++ sep :: join sep rest.
Proof. destruct rest; [congruence | reflexivity]. Qed.

(** [split] then [join] gives the string back. *)
Lemma join_split (sep : Z) (s : jsstring) : join sep (split sep s) = s.
Proof.
  induction s as [|c s IH]; simpl; [reflexivity|].
  destruct (Z.eqb_spec c sep) as [->|Hne].
  - rewrite join_cons by apply split_not_nil. simpl. now rewrite IH.
  - pose proof (split_not_nil sep s) as Hnil.
    destruct (split sep s) as [|piece pieces]; [congruence|].
    destruct pieces as [|p2 pieces].
    + simpl in *. now rewrite IH.
    + rewrite join_cons by discriminate.
      rewrite join_cons in IH by discriminate.
      rewrite <- IH. reflexivity.
Qed.

(** No piece of [split] contains the separator. *)
Lemma split_sep_free (sep : Z) (s : jsstring) :
  Forall (fun piece : jsstring => sep ∉ piece) (split sep s).
Proof.
  induction s as [|c s IH]; simpl.
  - constructor; [apply not_elem_of_nil | constructor].
  - destruct (Z.eqb_spec c sep) as [->|Hne].
    + constructor; [apply not_elem_of_nil | exact IH].
    + destruct (split sep s) as [|piece pieces].
      * constructor; [|constructor].
        rewrite list_elem_of_singleton. congruence.
      * inversion IH as [|? ? Hp Hps]; subst.
        constructor; [|exact Hps].
        rewrite elem_of_cons. intros [H|H]; [congruence | contradiction].
Qed.

(** [join] then [split] gives the pieces back: [split] is the only way to
    cut a string into separator-free pieces. *)
Lemma split_join (sep : Z) (pieces : list jsstring) :
  pieces <> [] ->
  Forall (fun piece : jsstring => sep ∉ piece) pieces ->
  split sep (join sep pieces) = pieces.
Proof.
  induction pieces as [|piece rest IH]; [congruence|].
  intros _ Hfree. inversion Hfree as [|? ? Hp Hrest]; subst.
  destruct rest as [|p2 rest].
  - simpl. clear IH Hfree Hrest.
    induction piece as [|c piece IHp]; simpl; [reflexivity|].
    rewrite not_elem_of_cons in Hp. destruct Hp as [Hc Hp].
    destruct (Z.eqb_spec c sep); [congruence|].
    now rewrite IHp.
  - rewrite join_cons by discriminate.
    specialize (IH ltac:(discriminate) Hrest).
    clear Hfree Hrest.
    generalize dependent (join sep (p2 :: rest)). intros tail IH.
    induction piece as [|c piece IHp]; simpl.
    + rewrite Z.eqb_refl. now rewrite IH.
    + rewrite not_elem_of_cons in Hp. destruct Hp as [Hc Hp].
      destruct (Z.eqb_spec c sep); [congruence|].
      now rewrite (IHp Hp).
Qed.

Lemma filter_Boolean_nonempty (l : list jsstring) :
  Forall (fun t : jsstring => t <> []) (List.filter Boolean l).
Proof.
  apply List.Forall_forall. intros t Ht.
  apply List.filter_In in Ht. destruct Ht as [_ Ht].
  destruct t; [discriminate | discriminate].
Qed.

Lemma Forall_filter_keeps {A} (P : A -> Prop) (f : A -> bool) (l : list A) :
  Forall P l -> Forall P (List.filter f l).
Proof.
  intros H. apply List.Forall_forall. intros x Hx.
  apply List.filter_In in Hx. destruct Hx as [Hx _].
  rewrite List.Forall_forall in H. now apply H.
Qed.

(** ** Worlds and traces *)

Lemma with_calls_nil (w : World) : with_calls w [] = w.
Proof. destruct w. unfold with_calls. simpl. now rewrite app_nil_r. Qed.

Lemma with_calls_app (w : World) (a b : list call) :
  with_calls (with_calls w a) b = with_calls w (a ++ b).
Proof. unfold with_calls. simpl. now rewrite app_assoc. Qed.

Lemma emit_spec (c : call) (w : World) : emit c w = (Val tt, with_calls w [c]).
Proof. reflexivity. Qed.

Lemma debug_spec (h : Host) (label : jsstring) (w : World) :
  debug h label w = (Val tt, with_calls w (logged h label)).
Proof.
  unfold debug, logged, when. destruct (debugMode (config h)).
  - reflexivity.
  - now rewrite with_calls_nil.
Qed.

Lemma bind_val {A B} (m : M A) (k : A -> M B) (w w' : World) (a : A) :
  m w = (Val a, w') -> bind m k w = k a w'.
Proof. intros H. unfold bind. now rewrite H. Qed.

Lemma bind_exn {A B} (m : M A) (k : A -> M B) (w w' : World) (e : Error) :
  m w = (Exn e, w') -> bind m k w = (Exn e, w').
Proof. intros H. unfold bind. now rewrite H. Qed.

(** ** The compiler's argument vector (C1) *)

Lemma compilerOptions_language (h : Host) (cpp : bool) :
  compilerOptions h (languageType cpp) = languageOptions h cpp.
Proof. unfold compilerOptions, languageType, languageOptions. destruct cpp; reflexivity. Qed.

(** C1, as the code has it.  For either language, any sources, output and
    world, [getArgs] returns [-g] (exactly when the debugger was asked for),
    the sources in order, [-o], the output, and then the flags; the flags
    are the non-empty pieces of the language's options string, where the
    pieces are what lies between one space (U+0020) and the next: joined
    by single spaces they give the options string back, and none contains
    a space.  No flag is empty.  Only the debug log is added to the trace. *)
Theorem getArgs_vector (h : Host) (cpp gdb : bool) (sources : list jsstring)
    (output : jsstring) (w : World) :
  exists pieces flags : list jsstring,
    getArgs h sources output (languageType cpp)
      (if gdb then Some [lit "-g"] else None) w
    = (Val ((if gdb then [lit "-g"] else [])
              ++ sources ++ [lit "-o"; output] ++ flags),
       with_calls w (logged h (lit "compiler args")))
    /\ join SPACE pieces = languageOptions h cpp
    /\ Forall (fun piece : jsstring => SPACE ∉ piece) pieces
    /\ flags = List.filter Boolean pieces
    /\ Forall (fun flag : jsstring => flag <> [] /\ SPACE ∉ flag) flags.
Proof.
  exists (split SPACE (languageOptions h cpp)),
         (List.filter Boolean (split SPACE (languageOptions h cpp))).
  split; [|split; [|split; [|split]]].
  - unfold getArgs. erewrite bind_val by apply debug_spec.
    unfold ret. rewrite compilerOptions_language.
    destruct gdb; reflexivity.
  - apply join_split.
  - apply split_sep_free.
  - reflexivity.
  - apply Forall_and; split.
    + apply filter_Boolean_nonempty.
    + apply Forall_filter_keeps, split_sep_free.
Qed.

(** C1 as stated fails: with the options [-O2<TAB>-Wall] the code passes one
    argument that contains the tab, where splitting on white space gives
    two. *)
Lemma getArgs_whitespace_counterexample :
  fst (getArgs tab_host [lit "/home/u/main.c"] (lit "/tmp/main") (languageType false)
         None demo_world)
  = Val [lit "/home/u/main.c"; lit "-o"; lit "/tmp/main"; tab_separated_flags]
  /\ spec_compiler_args false [lit "/home/u/main.c"] (lit "/tmp/main")
       (languageOptions tab_host false)
     = [lit "/home/u/main.c"; lit "-o"; lit "/tmp/main"; lit "-O2"; lit "-Wall"]
  /\ fst (getArgs tab_host [lit "/home/u/main.c"] (lit "/tmp/main")
            (languageType false) None demo_world)
     <> Val (spec_compiler_args false [lit "/home/u/main.c"] (lit "/tmp/main")
               (languageOptions tab_host false)).
Proof.
  split; [|split].
  - vm_compute. reflexivity.
  - vm_compute. reflexivity.
  - vm_compute. discriminate.
Qed.

(** ** Launching the program (C2, C7, C8, C9) *)

Lemma spawn_started (c : Z) (cs : jsstring) (args : list jsstring)
    (cwd : jsstring) (w : World) :
  spawn (Some (c :: cs)) args cwd w
  = (Val tt, with_calls w [Spawn (Some (c :: cs)) args cwd]).
Proof. reflexivity. Qed.

(** The [switch] of [runProgram] reads the table [terminalSpecs]. *)
Lemma linuxTerminalCommand_table (terminal : option jsstring) (gdb : bool) :
  linuxTerminalCommand terminal gdb
  = (command (terminalSpec terminal),
     (if gdb then []
      else match holdFlag (terminalSpec terminal) with
           | Some f => [f]
           | None => []
           end) ++ argsPrefix (terminalSpec terminal)).
Proof.
  unfold linuxTerminalCommand.
  repeat case_bool_decide; subst; try (destruct gdb; reflexivity).
  destruct terminal as [t|]; [|destruct gdb; reflexivity].
  unfold terminalSpec. simpl. unfold str_eq.
  repeat (rewrite bool_decide_eq_false_2 by congruence).
  destruct gdb; reflexivity.
Qed.

(** A choice outside the table, or none, selects [xterm]. *)
Lemma terminalSpec_fallback (terminal : option jsstring) :
  (forall t, terminal = Some t -> t ∉ (fst <$> terminalSpecs)) ->
  terminalSpec terminal = defaultTerminal.
Proof.
  intros Hout. destruct terminal as [t|]; [|reflexivity].
  specialize (Hout t eq_refl).
  unfold terminalSpec. simpl. unfold str_eq.
  simpl in Hout. rewrite !not_elem_of_cons in Hout.
  repeat (rewrite bool_decide_eq_false_2 by (intros E; subst; intuition congruence)).
  reflexivity.
Qed.

Lemma runProgram_linux (h : Host) (info : PathInfo) (gdb : bool) (w : World) :
  platform h = lit "linux" ->
  runProgram h info gdb w
  = (Val tt,
     with_calls w
       (logged h (lit "command")
        ++ [Spawn (Some (command (terminalSpec (linuxTerminal (config h)))))
              (terminal_args (terminalSpec (linuxTerminal (config h))) gdb
                 (getCompiledPath h (dir info) (name info)))
              (dir info)])).
Proof.
  intros Hp. unfold runProgram. rewrite Hp. simpl.
  rewrite linuxTerminalCommand_table.
  erewrite bind_val by apply debug_spec.
  assert (Hc : exists c cs, command (terminalSpec (linuxTerminal (config h))) = c :: cs).
  { destruct (linuxTerminal (config h)) as [t|]; [|eexists _, _; reflexivity].
    unfold terminalSpec. simpl.
    repeat (destruct (str_eq _ t); [eexists _, _; reflexivity|]).
    eexists _, _; reflexivity. }
  destruct Hc as (c & cs & Hc). rewrite Hc, spawn_started, with_calls_app.
  unfold terminal_args. now rewrite <- !app_assoc.
Qed.

Example terminal_args_table :
  List.map (fun t => (terminal_args (terminalSpec (Some (lit t))) false (lit "a.out"),
                      terminal_args (terminalSpec (Some (lit t))) true (lit "a.out")))
    ["GNOME Terminal"; "Konsole"; "xfce4-terminal"; "pantheon-terminal";
     "URxvt"; "MATE Terminal"; "kitty"]%string
  = [ ([lit "--command"; lit "a.out"], [lit "--command"; lit "gdb"; lit "a.out"]);
      ([lit "--hold"; lit "-e"; lit "a.out"], [lit "-e"; lit "gdb"; lit "a.out"]);
      ([lit "--hold"; lit "--command"; lit "a.out"], [lit "--command"; lit "gdb"; lit "a.out"]);
      ([lit "-e"; lit "a.out"], [lit "-e"; lit "gdb"; lit "a.out"]);
      ([lit "-hold"; lit "-e"; lit "a.out"], [lit "-e"; lit "gdb"; lit "a.out"]);
      ([lit "--command"; lit "a.out"], [lit "--command"; lit "gdb"; lit "a.out"]);
      ([lit "-hold"; lit "-e"; lit "a.out"], [lit "-e"; lit "gdb"; lit "a.out"]) ].
Proof. vm_compute. reflexivity. Qed.

(** C2, as the code has it.  On Linux, for every terminal choice and either
    value of [gdb], [runProgram] spawns the command of the choice's row with:
    the row's hold-open flag, only when the row has one (Konsole,
    xfce4-terminal, URxvt and the default xterm do; GNOME Terminal,
    pantheon-terminal and MATE Terminal do not) and only when [gdb] is not
    set; then the row's argument prefix; then [gdb] exactly when [gdb] is
    set; then the compiled path.  The working directory is the source
    directory.  A choice that is unset or not in the table takes the row of
    xterm. *)
Theorem runProgram_linux_arguments (h : Host) (info : PathInfo) (gdb : bool)
    (w : World) :
  platform h = lit "linux" ->
  runProgram h info gdb w
  = (Val tt,
     with_calls w
       (logged h (lit "command")
        ++ [Spawn (Some (command (terminalSpec (linuxTerminal (config h)))))
              (terminal_args (terminalSpec (linuxTerminal (config h))) gdb
                 (getCompiledPath h (dir info) (name info)))
              (dir info)]))
  /\ ((forall t, linuxTerminal (config h) = Some t -> t ∉ (fst <$> terminalSpecs)) ->
      terminalSpec (linuxTerminal (config h)) = defaultTerminal).
Proof.
  intros Hp. split.
  - now apply runProgram_linux.
  - apply terminalSpec_fallback.
Qed.

Lemma runProgram_linux_arguments_witness :
  platform alacritty_host = lit "linux"
  /\ runProgram alacritty_host demo_info false demo_world
     = (Val tt,
        with_calls demo_world
          [Spawn (Some (lit "xterm")) [lit "-hold"; lit "-e"; lit "/tmp/main"]
             (lit "/home/u")]).
Proof.
  split; [reflexivity|].
  destruct (runProgram_linux_arguments alacritty_host demo_info false demo_world
              eq_refl) as [Hrun Hdefault].
  rewrite Hrun, Hdefault.
  - reflexivity.
  - intros t Ht. injection Ht as <-.
    apply (bool_decide_unpack _). vm_compute. exact I.
Defined.

(** C2 as stated fails: with GNOME Terminal the launcher passes two
    arguments without the debugger and three with it, so no prefix and hold
    flag make both lists (in any order) what the claim says. *)
Lemma gnome_terminal_hold_counterexample :
  trace (snd (runProgram gnome_host demo_info false no_editor_world))
  = [Spawn (Some (lit "gnome-terminal")) [lit "--command"; lit "/tmp/main"]
       (lit "/home/u")]
  /\ trace (snd (runProgram gnome_host demo_info true no_editor_world))
     = [Spawn (Some (lit "gnome-terminal"))
          [lit "--command"; lit "gdb"; lit "/tmp/main"] (lit "/home/u")]
  /\ ~ (exists (prefix : list jsstring) (hold : jsstring),
          [lit "--command"; lit "/tmp/main"]
            ≡ₚ spec_terminal_args prefix hold false (lit "/tmp/main")
          /\ [lit "--command"; lit "gdb"; lit "/tmp/main"]
               ≡ₚ spec_terminal_args prefix hold true (lit "/tmp/main")).
Proof.
  split; [vm_compute; reflexivity|].
  split; [vm_compute; reflexivity|].
  intros (prefix & hold & Hoff & Hon).
  apply Permutation_length in Hoff, Hon.
  unfold spec_terminal_args in *. rewrite !length_app in *. simpl in *. lia.
Qed.

Lemma runProgram_windows (h : Host) (info : PathInfo) (gdb : bool) (w : World) :
  platform h = lit "win32" ->
  runProgram h info gdb w
  = (Val tt,
     with_calls w
       (logged h (lit "command")
        ++ [Exec (windowsCommand (name info)
                    (getCompiledPath h (dir info) (name info)) gdb)
              (dir info)])).
Proof.
  intros Hp. unfold runProgram. rewrite Hp.
  change (str_eq (lit "win32") (lit "linux")) with false.
  change (str_eq (lit "win32") (lit "win32")) with true.
  cbv iota.
  erewrite bind_val by apply debug_spec.
  unfold exec. now rewrite emit_spec, with_calls_app.
Qed.

Lemma runProgram_darwin (h : Host) (info : PathInfo) (gdb : bool) (w : World) :
  platform h = lit "darwin" ->
  runProgram h info gdb w
  = (Val tt,
     with_calls w
       [Spawn (Some (lit "open")) [getCompiledPath h (dir info) (name info)]
          (dir info)]).
Proof.
  intros Hp. unfold runProgram. rewrite Hp.
  change (str_eq (lit "darwin") (lit "linux")) with false.
  change (str_eq (lit "darwin") (lit "win32")) with false.
  change (str_eq (lit "darwin") (lit "darwin")) with true.
  cbv iota. reflexivity.
Qed.

(** C7.  On Windows, for either value of [gdb], [runProgram] makes one call,
    to [child_process.exec] (and none to [spawn]), in the source directory,
    with the command line: [start], the name of the binary in double quotes
    as the title of the new console, [cmd /C], an opening double quote,
    [gdb] exactly when [gdb] is set, the compiled path between two spaces,
    and [& echo. & pause] exactly when [gdb] is not set. *)
Theorem runProgram_windows_command (h : Host) (info : PathInfo) (gdb : bool)
    (w : World) :
  platform h = lit "win32" ->
  exists commandLine : jsstring,
    runProgram h info gdb w
    = (Val tt,
       with_calls w (logged h (lit "command") ++ [Exec commandLine (dir info)]))
    /\ commandLine
       = (lit "start " ++ DQUOTE ++ name info ++ DQUOTE)
           ++ lit " cmd /C " ++ DQUOTE
           ++ (if gdb then lit "gdb" else [])
           ++ lit " " ++ getCompiledPath h (dir info) (name info) ++ lit " "
           ++ (if gdb then [] else lit "& echo. & pause")
    /\ Forall (fun c => forall cmd args cwd, c <> Spawn cmd args cwd)
         (logged h (lit "command") ++ [Exec commandLine (dir info)]).
Proof.
  intros Hp. eexists. split; [now apply runProgram_windows|]. split.
  - unfold windowsCommand. rewrite <- !app_assoc. destruct gdb; reflexivity.
  - apply Forall_app. split.
    + unfold logged. destruct (debugMode (config h)); repeat constructor; discriminate.
    + repeat constructor; discriminate.
Qed.

Lemma runProgram_windows_command_witness :
  platform (demo_host "win32" demo_config) = lit "win32"
  /\ exists commandLine : jsstring,
       runProgram (demo_host "win32" demo_config) demo_info false demo_world
       = (Val tt, with_calls demo_world [Exec commandLine (lit "/home/u")])
       /\ commandLine
          = lit "start " ++ DQUOTE ++ lit "main" ++ DQUOTE ++ lit " cmd /C "
              ++ DQUOTE ++ lit " /tmp/main & echo. & pause".
Proof.
  split; [reflexivity|].
  destruct (runProgram_windows_command (demo_host "win32" demo_config) demo_info
              false demo_world eq_refl) as (commandLine & Hrun & Hcmd & _).
  exists commandLine. split; [exact Hrun | rewrite Hcmd; reflexivity].
Defined.

Lemma count_quotes_app (a b : jsstring) :
  count_quotes (a ++ b) = (count_quotes a + count_quotes b)%nat.
Proof. unfold count_quotes. now rewrite List.filter_app, length_app. Qed.

Lemma count_quotes_free (s : jsstring) : 34 ∉ s -> count_quotes s = 0%nat.
Proof.
  unfold count_quotes. induction s as [|c s IH]; intros Hs; [reflexivity|].
  rewrite not_elem_of_cons in Hs. destruct Hs as [Hc Hs]. simpl.
  destruct (Z.eqb_spec c 34); [congruence|]. now apply IH.
Qed.

(** C8.  On Windows, when neither the name of the binary nor the compiled
    path holds a double quote, the command line handed to [exec] holds
    exactly three: the two around the title and the one opened after
    [cmd /C], which nothing closes, since no quote follows it. *)
Theorem windows_command_three_quotes (h : Host) (info : PathInfo) (gdb : bool)
    (w : World) :
  platform h = lit "win32" ->
  34 ∉ name info ->
  34 ∉ getCompiledPath h (dir info) (name info) ->
  exists commandLine rest : jsstring,
    runProgram h info gdb w
    = (Val tt,
       with_calls w (logged h (lit "command") ++ [Exec commandLine (dir info)]))
    /\ count_quotes commandLine = 3%nat
    /\ commandLine
       = lit "start " ++ DQUOTE ++ name info ++ DQUOTE ++ lit " cmd /C "
           ++ DQUOTE ++ rest
    /\ count_quotes rest = 0%nat.
Proof.
  intros Hp Hname Hfile. eexists _, _.
  split; [now apply runProgram_windows|].
  unfold windowsCommand. split; [|split; [reflexivity|]].
  - rewrite !count_quotes_app.
    rewrite (count_quotes_free _ Hname), (count_quotes_free _ Hfile).
    destruct gdb; reflexivity.
  - rewrite !count_quotes_app, (count_quotes_free _ Hfile).
    destruct gdb; reflexivity.
Qed.

Lemma windows_command_three_quotes_witness :
  platform (demo_host "win32" demo_config) = lit "win32"
  /\ (34 ∉ name demo_info)
  /\ (34 ∉ getCompiledPath (demo_host "win32" demo_config) (dir demo_info)
             (name demo_info))
  /\ exists commandLine : jsstring,
       runProgram (demo_host "win32" demo_config) demo_info true demo_world
       = (Val tt, with_calls demo_world [Exec commandLine (lit "/home/u")])
       /\ count_quotes commandLine = 3%nat.
Proof.
  assert (Hname : 34 ∉ name demo_info)
    by (apply (bool_decide_unpack _); vm_compute; exact I).
  assert (Hfile : 34 ∉ getCompiledPath (demo_host "win32" demo_config)
                          (dir demo_info) (name demo_info))
    by (apply (bool_decide_unpack _); vm_compute; exact I).
  split; [reflexivity|]. split; [exact Hname|]. split; [exact Hfile|].
  destruct (windows_command_three_quotes (demo_host "win32" demo_config)
              demo_info true demo_world eq_refl Hname Hfile)
    as (commandLine & rest & Hrun & Hcount & _).
  exists commandLine. split; [exact Hrun | exact Hcount].
Defined.

(** C9.  On macOS, for either value of [gdb], [runProgram] makes one call:
    [spawn("open", [file])] in the source directory, where [file] is the
    compiled path; so the call is the same with and without the debugger. *)
Theorem runProgram_darwin_ignores_gdb (h : Host) (info : PathInfo) (gdb : bool)
    (w : World) :
  platform h = lit "darwin" ->
  runProgram h info gdb w
  = (Val tt,
     with_calls w
       [Spawn (Some (lit "open")) [getCompiledPath h (dir info) (name info)]
          (dir info)])
  /\ runProgram h info true w = runProgram h info false w.
Proof.
  intros Hp. split.
  - now apply runProgram_darwin.
  - now rewrite !runProgram_darwin.
Qed.

Lemma runProgram_darwin_ignores_gdb_witness :
  platform (demo_host "darwin" demo_config) = lit "darwin"
  /\ runProgram (demo_host "darwin" demo_config) demo_info true demo_world
     = (Val tt,
        with_calls demo_world
          [Spawn (Some (lit "open")) [lit "/tmp/main"] (lit "/home/u")]).
Proof.
  split; [reflexivity|].
  exact (proj1 (runProgram_darwin_ignores_gdb (demo_host "darwin" demo_config)
                  demo_info true demo_world eq_refl)).
Defined.

(** ** UTF-8: what reaches the diagnostics file *)

Ltac Zify.zify_post_hook ::= Z.to_euclidean_division_equations.

Ltac decide_comparisons :=
  repeat match goal with
  | |- context [?a <=? ?b] =>
      first [ rewrite (proj2 (Z.leb_le a b)) by lia
            | rewrite (proj2 (Z.leb_gt a b)) by lia ]
  | |- context [?a <? ?b] =>
      first [ rewrite (proj2 (Z.ltb_lt a b)) by lia
            | rewrite (proj2 (Z.ltb_ge a b)) by lia ]
  | |- context [?a =? ?b] =>
      first [ rewrite (proj2 (Z.eqb_eq a b)) by lia
            | rewrite (proj2 (Z.eqb_neq a b)) by lia ]
  end.

Ltac decoder_step :=
  cbn [utf8_decode_from app];
  unfold decode_byte, decode_lead;
  cbn [needed code_point lower upper decoder_init];
  decide_comparisons;
  cbn [andb needed code_point lower upper decoder_init app].

(** The decoder reads the encoding of a scalar value back, whatever
    follows. *)
Lemma decode_encode_cp (c : Z) (bytes : list Z) :
  scalar c ->
  utf8_decode_from decoder_init (utf8_encode_cp c ++ bytes)
  = c :: utf8_decode_from decoder_init bytes.
Proof.
  intros Hc. unfold scalar in Hc. unfold utf8_encode_cp.
  destruct (Z.ltb_spec c 0x80);
    [|destruct (Z.ltb_spec c 0x800); [|destruct (Z.ltb_spec c 0x10000)]].
  - decoder_step. reflexivity.
  - do 2 decoder_step. f_equal. lia.
  - decoder_step.
    destruct (Z.eqb_spec (0xE0 + c / 4096) 0xE0);
      destruct (Z.eqb_spec (0xE0 + c / 4096) 0xED);
      do 2 decoder_step; f_equal; lia.
  - decoder_step.
    destruct (Z.eqb_spec (0xF0 + c / 262144) 0xF0);
      destruct (Z.eqb_spec (0xF0 + c / 262144) 0xF4);
      do 3 decoder_step; f_equal; lia.
Qed.

Lemma decode_encode (text : list Z) :
  Forall scalar text ->
  utf8_decode_from decoder_init (utf8_encode text) = text.
Proof.
  induction 1 as [|c text Hc _ IH]; [reflexivity|].
  unfold utf8_encode in *. cbn [List.flat_map].
  now rewrite decode_encode_cp, IH.
Qed.

(** A string written out: each scalar value's code units become its UTF-8
    bytes. *)
Lemma utf8_of_string_units (c : Z) (s : jsstring) :
  scalar c ->
  utf8_of_string (utf16_units c ++ s) = utf8_encode_cp c ++ utf8_of_string s.
Proof.
  intros Hc. unfold scalar in Hc. unfold utf16_units.
  destruct (Z.ltb_spec c 0x10000).
  - cbn [app utf8_of_string]. unfold is_high_surrogate, is_low_surrogate.
    destruct Hc; decide_comparisons; reflexivity.
  - cbn [app utf8_of_string]. unfold is_high_surrogate, is_low_surrogate.
    decide_comparisons. cbn [andb].
    do 2 f_equal. lia.
Qed.

Lemma utf8_of_string_text (text : list Z) :
  Forall scalar text ->
  utf8_of_string (List.flat_map utf16_units text) = utf8_encode text.
Proof.
  induction 1 as [|c text Hc _ IH]; [reflexivity|].
  unfold utf8_encode in *. cbn [List.flat_map].
  now rewrite utf8_of_string_units, IH.
Qed.

Lemma utf8_encode_app (a b : list Z) :
  utf8_encode (a ++ b) = utf8_encode a ++ utf8_encode b.
Proof. unfold utf8_encode. apply List.flat_map_app. Qed.

(** Chunks that are each well-formed UTF-8 are the encoding of one text,
    and decoding them one by one gives that text. *)
Lemma chunks_text (chunks : list (list Z)) :
  Forall well_formed_utf8 chunks ->
  exists text,
    Forall scalar text
    /\ List.concat chunks = utf8_encode text
    /\ List.concat (List.map Buffer_toString chunks) = List.flat_map utf16_units text.
Proof.
  induction 1 as [|chunk chunks (t & Ht & ->) _ (text & Htext & Hbytes & Hunits)].
  - exists []. repeat split. constructor.
  - exists (t ++ text). split; [now apply Forall_app|]. split.
    + cbn [List.concat]. now rewrite utf8_encode_app, Hbytes.
    + cbn [List.map List.concat]. rewrite Hunits. unfold Buffer_toString.
      now rewrite decode_encode, List.flat_map_app.
Qed.

(** So the string accumulated from well-formed chunks is written back as
    exactly their bytes. *)
Lemma utf8_of_string_chunks (chunks : list (list Z)) :
  Forall well_formed_utf8 chunks ->
  utf8_of_string (List.concat (List.map Buffer_toString chunks))
  = List.concat chunks.
Proof.
  intros H. destruct (chunks_text chunks H) as (text & Htext & Hbytes & Hunits).
  now rewrite Hunits, Hbytes, utf8_of_string_text.
Qed.

(** ** Running a compile *)

Lemma try_catch_val {A} (m : M A) (handler : Error -> M A) (w w' : World) (a : A) :
  m w = (Val a, w') -> try_catch m handler w = (Val a, w').
Proof. intros H. unfold try_catch. now rewrite H. Qed.

Lemma try_catch_exn {A} (m : M A) (handler : Error -> M A) (w w' : World) (e : Error) :
  m w = (Exn e, w') -> try_catch m handler w = handler e w'.
Proof. intros H. unfold try_catch. now rewrite H. Qed.

Ltac world_eq :=
  repeat match goal with w : World |- _ => destruct w end;
  unfold with_calls, with_files, with_tabs, with_active;
  cbn [files tabs activeTextEditor trace];
  rewrite <- ?app_assoc, ?app_nil_r; cbn [app]; try reflexivity.

Lemma with_tabs_same (w : World) : with_tabs w (tabs w) = w.
Proof. now destruct w. Qed.

Lemma with_files_same (w : World) : with_files w (files w) = w.
Proof. now destruct w. Qed.

Lemma with_active_same (w : World) : with_active w (activeTextEditor w) = w.
Proof. now destruct w. Qed.

Lemma files_with_calls w cs : files (with_calls w cs) = files w.
Proof. reflexivity. Qed.
Lemma tabs_with_calls w cs : tabs (with_calls w cs) = tabs w.
Proof. reflexivity. Qed.
Lemma files_with_tabs w t : files (with_tabs w t) = files w.
Proof. reflexivity. Qed.
Lemma tabs_with_tabs w t : tabs (with_tabs w t) = t.
Proof. reflexivity. Qed.
Lemma files_with_files w f : files (with_files w f) = f.
Proof. reflexivity. Qed.
Lemma tabs_with_files w f : tabs (with_files w f) = tabs w.
Proof. reflexivity. Qed.
Lemma trace_with_calls w cs : trace (with_calls w cs) = trace w ++ cs.
Proof. reflexivity. Qed.
Lemma trace_with_tabs w t : trace (with_tabs w t) = trace w.
Proof. reflexivity. Qed.
Lemma trace_with_files w f : trace (with_files w f) = trace w.
Proof. reflexivity. Qed.
Lemma with_files_with_calls w cs f :
  with_files (with_calls w cs) f = with_calls (with_files w f) cs.
Proof. reflexivity. Qed.
Lemma with_tabs_with_calls w cs t :
  with_tabs (with_calls w cs) t = with_calls (with_tabs w t) cs.
Proof. reflexivity. Qed.
Lemma with_files_with_tabs w t f :
  with_files (with_tabs w t) f = with_tabs (with_files w f) t.
Proof. reflexivity. Qed.
Lemma with_tabs_twice w t t' : with_tabs (with_tabs w t) t' = with_tabs w t'.
Proof. reflexivity. Qed.
Lemma with_files_twice w f f' : with_files (with_files w f) f' = with_files w f'.
Proof. reflexivity. Qed.

Lemma files_with_active w a : files (with_active w a) = files w.
Proof. reflexivity. Qed.
Lemma tabs_with_active w a : tabs (with_active w a) = tabs w.
Proof. reflexivity. Qed.
Lemma trace_with_active w a : trace (with_active w a) = trace w.
Proof. reflexivity. Qed.
Lemma active_with_calls w cs : activeTextEditor (with_calls w cs) = activeTextEditor w.
Proof. reflexivity. Qed.
Lemma active_with_tabs w t : activeTextEditor (with_tabs w t) = activeTextEditor w.
Proof. reflexivity. Qed.
Lemma active_with_files w f : activeTextEditor (with_files w f) = activeTextEditor w.
Proof. reflexivity. Qed.
Lemma active_with_active w a : activeTextEditor (with_active w a) = a.
Proof. reflexivity. Qed.
Lemma with_active_with_calls w cs a :
  with_active (with_calls w cs) a = with_calls (with_active w a) cs.
Proof. reflexivity. Qed.
Lemma with_files_with_active w a f :
  with_files (with_active w a) f = with_active (with_files w f) a.
Proof. reflexivity. Qed.
Lemma with_tabs_with_active w a t :
  with_tabs (with_active w a) t = with_active (with_tabs w t) a.
Proof. reflexivity. Qed.
Lemma with_active_twice w a a' : with_active (with_active w a) a' = with_active w a'.
Proof. reflexivity. Qed.

Create Rewrite HintDb world.
Hint Rewrite files_with_calls tabs_with_calls files_with_tabs tabs_with_tabs
  files_with_files tabs_with_files trace_with_calls trace_with_tabs
  trace_with_files with_files_with_calls with_tabs_with_calls
  with_files_with_tabs with_tabs_twice with_files_twice with_calls_app
  with_calls_nil with_files_same with_tabs_same
  files_with_active tabs_with_active trace_with_active active_with_calls
  active_with_tabs active_with_files active_with_active with_active_with_calls
  with_files_with_active with_tabs_with_active with_active_twice
  with_active_same : world.


Lemma runProgram_appends (h : Host) (info : PathInfo) (gdb : bool) (w : World) :
  runProgram h info gdb w = (Val tt, with_calls w (launch_calls h info gdb)).
Proof.
  unfold launch_calls.
  destruct (str_eq (platform h) (lit "linux")) eqn:Hlinux;
    [|destruct (str_eq (platform h) (lit "win32")) eqn:Hwin;
      [|destruct (str_eq (platform h) (lit "darwin")) eqn:Hmac]].
  - apply bool_decide_eq_true_1 in Hlinux. now rewrite !runProgram_linux.
  - apply bool_decide_eq_true_1 in Hwin. now rewrite !runProgram_windows.
  - apply bool_decide_eq_true_1 in Hmac. now rewrite !runProgram_darwin.
  - unfold runProgram. rewrite Hlinux, Hwin, Hmac. unfold ret. simpl.
    now rewrite with_calls_nil.
Qed.

Lemma on_data_spec (h : Host) (chunks : list (list Z)) (stderr : jsstring) (w : World) :
  on_data h chunks stderr w
  = (Val (stderr ++ List.concat (List.map Buffer_toString chunks)),
     with_calls w (List.flat_map (fun _ => logged h (lit "stderr")) chunks)).
Proof.
  revert stderr w. induction chunks as [|data rest IH]; intros stderr w.
  - simpl. unfold ret. now rewrite app_nil_r, with_calls_nil.
  - cbn [on_data]. erewrite bind_val by apply debug_spec.
    rewrite IH. cbn [List.map List.concat List.flat_map].
    now rewrite with_calls_app, app_assoc.
Qed.

Lemma editor_save_ok (h : Host) (w : World) :
  fault h ReqSave = None -> editor_save h w = (Val tt, with_calls w [Save]).
Proof.
  intros Hf. unfold editor_save. erewrite bind_val by apply emit_spec.
  unfold host_call. now rewrite Hf.
Qed.

Lemma compile_front (h : Host) (command : option jsstring) (info : PathInfo)
    (args : list jsstring) (gdb : bool) (child : Child) (w : World) :
  fault h ReqSave = None ->
  compile h command info args gdb child w
  = (spawn command args (dir info) >>
     stderr <- on_data h (stderr_chunks child) (lit "");;
     try_catch (on_close h (exit_code child) stderr info gdb) (fun _ => ret Pending))
      (with_calls w (saved w)).
Proof.
  intros Hf. unfold compile, saved.
  unfold getActiveTextEditor at 1. unfold bind at 1.
  destruct (activeTextEditor w) eqn:Ha.
  - erewrite bind_val by now apply editor_save_ok. reflexivity.
  - unfold bind at 1. unfold ret at 1. now rewrite with_calls_nil.
Qed.

Lemma compile_started (h : Host) (c : Z) (cs : jsstring) (info : PathInfo)
    (args : list jsstring) (gdb : bool) (child : Child) (w : World) :
  fault h ReqSave = None ->
  compile h (Some (c :: cs)) info args gdb child w
  = try_catch (on_close h (exit_code child) (stderr_text child) info gdb)
      (fun _ => ret Pending)
      (with_calls w (started_calls h (c :: cs) info args child w)).
Proof.
  intros Hf. rewrite compile_front by assumption.
  erewrite bind_val by apply spawn_started.
  erewrite bind_val by apply on_data_spec.
  unfold started_calls, data_logs, stderr_text. f_equal.
  now rewrite !with_calls_app.
Qed.

Lemma spawn_refused (args : list jsstring) (cwd : jsstring) (w : World) :
  spawn None args cwd w
  = (Exn InvalidFileArgument, with_calls w [Spawn None args cwd]).
Proof. reflexivity. Qed.

Lemma compile_no_command (h : Host) (info : PathInfo)
    (args : list jsstring) (gdb : bool) (child : Child) (w : World) :
  fault h ReqSave = None ->
  compile h None info args gdb child w
  = (Exn InvalidFileArgument, with_calls w (saved w ++ [Spawn None args (dir info)])).
Proof.
  intros Hf. rewrite compile_front by assumption.
  erewrite bind_exn by apply spawn_refused.
  now rewrite with_calls_app.
Qed.

(** *** The [close] handler after a failure *)

Lemma fs_writeFile_ok (h : Host) (path text : jsstring) (w : World) :
  fault h (ReqWriteFile path) = None ->
  fs_writeFile h path text w
  = (Val tt,
     with_calls (with_files w (<[path := utf8_of_string text]> (files w)))
       [WriteFile path (utf8_of_string text)]).
Proof.
  intros Hf. unfold fs_writeFile.
  erewrite bind_val by apply emit_spec.
  unfold host_call. rewrite Hf. reflexivity.
Qed.

Lemma fs_writeFile_fails (h : Host) (path text : jsstring) (w : World) (e : Error) :
  fault h (ReqWriteFile path) = Some e ->
  fs_writeFile h path text w
  = (Exn e, with_calls w [WriteFile path (utf8_of_string text)]).
Proof.
  intros Hf. unfold fs_writeFile.
  erewrite bind_val by apply emit_spec.
  unfold host_call. rewrite Hf. reflexivity.
Qed.

Lemma refocus_spec (h : Host) (c : call) (w : World) :
  refocus h c w = (Val tt, with_active w (focused h c (activeTextEditor w))).
Proof. reflexivity. Qed.

Lemma activate_spec (h : Host) (c : call) (w : World) :
  activate h c w
  = (Val tt, with_calls (with_active w (focused h c (activeTextEditor w))) [c]).
Proof. reflexivity. Qed.

Lemma destroy_spec (h : Host) (path : jsstring) (w : World) :
  destroy h path w
  = (Val tt,
     with_calls
       (with_active (with_tabs w (remove_first (Some path) (tabs w)))
          (focused h (Destroy path) (activeTextEditor w)))
       [Destroy path]).
Proof. reflexivity. Qed.

Lemma workspace_open_spec (h : Host) (path : jsstring) (split_option : option jsstring)
    (w : World) :
  workspace_open h path split_option w
  = (open_result h path,
     with_calls
       (with_active
          (with_tabs w (tabs_after_open h path split_option (tabs w)))
          (active_after_open h path split_option (activeTextEditor w)))
       [Open path split_option]).
Proof.
  unfold workspace_open, open_result, tabs_after_open, active_after_open.
  erewrite bind_val by apply emit_spec.
  unfold host_call. destruct (fault h (ReqOpen path)) as [e|].
  - unfold bind, throw. f_equal; world_eq.
  - unfold bind at 1. unfold ret at 1.
    destruct (opens_nothing h path).
    + unfold ret. f_equal; world_eq.
    + reflexivity.
Qed.



Lemma emit3 (a b c : call) (w : World) :
  (emit a >> emit b >> emit c) w = (Val tt, with_calls w [a; b; c]).
Proof.
  erewrite bind_val by apply emit_spec.
  erewrite bind_val by apply emit_spec.
  rewrite emit_spec. now rewrite !with_calls_app.
Qed.

Lemma artifact_spec (h : Host) (info : PathInfo) (stderr : jsstring) (w : World) :
  try_catch
    (fs_writeFile h (errorPath h info) stderr >>
     debug h (lit "compiling_error.txt has been written successfully.") >>
     errorFile <- workspace_open h (errorPath h info)
                    (Some (splitDirection (config h)));;
     match errorFile with
     | Some item =>
         emit (SetSoftTabs item false) >>
         emit (SetSoftWrapped item true) >>
         emit (SetReadOnly item true)
     | None => ret tt
     end >>
     match errorFile with
     | Some _ => activate h ActivateContainer
     | None => throw (ReadOfUndefined (lit "activate"))
     end >>
     activate h ActivatePane)
    (fun err => console_error (lit "Error writing compiling_error.txt:") err) w
  = (Val tt,
     with_calls
       (with_active
          (with_tabs
             (with_files w
                (match fault h (ReqWriteFile (errorPath h info)) with
                 | None => <[errorPath h info := utf8_of_string stderr]> (files w)
                 | Some _ => files w
                 end))
             (match fault h (ReqWriteFile (errorPath h info)) with
              | None => tabs_after_open h (errorPath h info)
                          (Some (splitDirection (config h))) (tabs w)
              | Some _ => tabs w
              end))
          (match fault h (ReqWriteFile (errorPath h info)) with
           | None =>
               match open_result h (errorPath h info) with
               | Val (Some _) =>
                   focused h ActivatePane
                     (focused h ActivateContainer
                        (focused h
                           (Open (errorPath h info)
                              (Some (splitDirection (config h))))
                           (activeTextEditor w)))
               | _ => activeTextEditor w
               end
           | Some _ => activeTextEditor w
           end))
       (artifact_calls h info stderr)).
Proof.
  unfold artifact_calls. generalize (errorPath h info). intros p.
  destruct (fault h (ReqWriteFile p)) as [ew|] eqn:Hwrite.
  - erewrite try_catch_exn.
    2:{ erewrite bind_exn by (apply fs_writeFile_fails; eassumption). reflexivity. }
    unfold console_error. rewrite emit_spec.
    autorewrite with world. reflexivity.
  - unfold try_catch.
    erewrite bind_val by (apply fs_writeFile_ok; eassumption).
    erewrite bind_val by apply debug_spec.
    unfold bind at 1. rewrite workspace_open_spec.
    unfold open_result, active_after_open.
    destruct (fault h (ReqOpen p)) as [eo|]; [|destruct (opens_nothing h p)];
      cbv iota.
    + unfold console_error. rewrite emit_spec. autorewrite with world.
      rewrite <- ?app_assoc. reflexivity.
    + unfold bind at 1. unfold ret at 1. unfold bind at 1. unfold throw at 1.
      unfold console_error. rewrite emit_spec. autorewrite with world.
      rewrite <- ?app_assoc. reflexivity.
    + erewrite bind_val by apply emit3.
      erewrite bind_val by apply activate_spec.
      rewrite activate_spec. autorewrite with world.
      rewrite <- ?app_assoc. reflexivity.
Qed.

Lemma error_notification_spec (h : Host) (stderr : jsstring) (w : World) :
  when (showErrorNotifications (config h))
    (addError (replace_newlines (lit "<br/>") stderr)) w
  = (Val tt, with_calls w (error_notification h stderr)).
Proof.
  unfold when, error_notification.
  destruct (showErrorNotifications (config h)); [reflexivity|].
  unfold ret. now rewrite with_calls_nil.
Qed.

Lemma on_close_failure (h : Host) (code : option Z) (stderr : jsstring)
    (info : PathInfo) (gdb : bool) (w : World) :
  truthy_code code = true ->
  on_close h code stderr info gdb w
  = (Val Pending,
     with_calls
       (with_active
          (with_tabs (with_files w (files_after_failure h stderr info (files w)))
             (tabs_after_failure h info (tabs w)))
          (active_after_failure h info (activeTextEditor w)))
       (failure_calls h stderr info)).
Proof.
  intros Hcode. unfold on_close. rewrite Hcode.
  erewrite bind_val by apply debug_spec.
  erewrite bind_val by apply error_notification_spec.
  unfold failure_calls, files_after_failure, tabs_after_failure,
    active_after_failure, writes.
  destruct (addCompilingErr (config h)); cbn [when andb].
  - erewrite bind_val by apply artifact_spec.
    unfold ret. autorewrite with world.
    destruct (fault h (ReqWriteFile (errorPath h info)));
      rewrite <- ?app_assoc; reflexivity.
  - unfold bind, ret. autorewrite with world. rewrite ?app_nil_r. reflexivity.
Qed.

(** *** The [close] handler after a success *)

Lemma iter_remove_first_other (x y : option jsstring) (l : list (option jsstring))
    (n : nat) :
  x <> y ->
  Nat.iter n (remove_first x) (y :: l) = y :: Nat.iter n (remove_first x) l.
Proof.
  intros Hne. induction n as [|n IH]; [reflexivity|].
  rewrite !Nat.iter_succ, IH. cbn [remove_first].
  now rewrite bool_decide_eq_false_2.
Qed.

Lemma iter_remove_first_nil (x : option jsstring) (n : nat) :
  Nat.iter n (remove_first x) [] = [].
Proof. induction n as [|n IH]; [reflexivity|]. now rewrite Nat.iter_succ, IH. Qed.

(** Destroying as many tabs of a path as there are leaves none. *)
Lemma iter_remove_first_all (path : jsstring) (l : list (option jsstring)) (n : nat) :
  (tabs_showing path l <= n)%nat ->
  Nat.iter n (remove_first (Some path)) l
  = List.filter (fun t => negb (bool_decide (t = Some path))) l.
Proof.
  unfold tabs_showing. revert n. induction l as [|y l IH]; intros n Hn.
  - apply iter_remove_first_nil.
  - cbn [List.filter] in *. destruct (bool_decide (y = Some path)) eqn:Hy.
    + apply bool_decide_eq_true_1 in Hy. subst y. cbn [length negb] in *.
      destruct n as [|n]; [lia|].
      rewrite Nat.iter_succ_r. cbn [remove_first].
      rewrite bool_decide_eq_true_2 by reflexivity.
      apply IH. lia.
    + apply bool_decide_eq_false_1 in Hy. cbn [negb].
      rewrite iter_remove_first_other by congruence.
      f_equal. now apply IH.
Qed.

Lemma close_error_tabs_spec (h : Host) (path : jsstring)
    (editors : list (option jsstring)) (w : World) :
  close_error_tabs h path editors w
  = (Val tt,
     with_calls
       (with_active
          (with_tabs w
             (Nat.iter (tabs_showing path editors) (remove_first (Some path))
                (tabs w)))
          (Nat.iter (tabs_showing path editors) (focused h (Destroy path))
             (activeTextEditor w)))
       (repeat (Destroy path) (tabs_showing path editors))).
Proof.
  unfold tabs_showing. revert w.
  induction editors as [|textEditor rest IH]; intros w.
  - cbn. unfold ret. f_equal. world_eq.
  - cbn [close_error_tabs List.filter].
    destruct (bool_decide (textEditor = Some path)).
    + erewrite bind_val by apply destroy_spec. rewrite IH.
      f_equal. cbn [length]. rewrite !Nat.iter_succ_r.
      autorewrite with world. reflexivity.
    + unfold bind at 1. unfold ret at 1. now rewrite IH.
Qed.

Lemma cleanup_spec (h : Host) (info : PathInfo) (w : World) :
  try_catch
    (fs_access h (errorPath h info) >>
     fs_unlink h (errorPath h info) >>
     debug h (lit "compiling_error.txt has been deleted successfully."))
    (fun err => debug h (lit "Error deleting compiling_error.txt:")) w
  = (Val tt,
     with_calls (with_files w (files_after_cleanup h info (files w)))
       (cleanup_calls h info (files w))).
Proof.
  unfold cleanup_calls, files_after_cleanup, deletes, logged.
  generalize (errorPath h info). intros p.
  destruct w as [f t a tr]. cbn [files].
  destruct (debugMode (config h)) eqn:Hdebug,
           (fault h (ReqAccess p)) as [ea|] eqn:Haccess,
           (f !! p) as [bytes|] eqn:Hfile,
           (fault h (ReqUnlink p)) as [eu|] eqn:Hunlink.
  all: unfold fs_access, fs_unlink, debug, host_call, when, bind, try_catch,
         emit, ret, throw, get_world, set_files;
       cbn [files tabs activeTextEditor trace];
       rewrite ?Hdebug, ?Haccess, ?Hunlink; cbn [files tabs activeTextEditor trace];
       rewrite ?Hfile, ?Hdebug, ?Hunlink; cbn [files tabs activeTextEditor trace];
       rewrite ?Hfile, ?Hdebug.
  all: f_equal; unfold with_calls, with_files;
       cbn [files tabs activeTextEditor trace];
       rewrite <- ?app_assoc, ?app_nil_r; reflexivity.
Qed.

Lemma unawaited_open (h : Host) (path : jsstring) (w : World) :
  unawaited (workspace_open h path None) w
  = (Val tt,
     with_calls
       (with_active (with_tabs w (tabs_after_open h path None (tabs w)))
          (active_after_open h path None (activeTextEditor w)))
       [Open path None]).
Proof.
  unfold unawaited, try_catch, bind. rewrite workspace_open_spec.
  unfold open_result.
  destruct (fault h (ReqOpen path)); [reflexivity|].
  destruct (opens_nothing h path); reflexivity.
Qed.

Lemma closing_spec (h : Host) (info : PathInfo) (w : World) :
  when (closeErrorTabOnSuccess (config h))
    (try_catch
       (w0 <- get_world;; close_error_tabs h (errorPath h info) (tabs w0))
       (fun err => debug h (lit "Error closing compiling_error.txt:"))) w
  = (Val tt,
     with_calls
       (with_active (with_tabs w (tabs_after_closing h info (tabs w)))
          (active_after_closing h info (tabs w) (activeTextEditor w)))
       (closing_calls h info (tabs w))).
Proof.
  unfold when, closing_calls, tabs_after_closing, active_after_closing.
  destruct (closeErrorTabOnSuccess (config h)).
  - erewrite try_catch_val.
    2:{ unfold bind at 1. unfold get_world. apply close_error_tabs_spec. }
    now rewrite iter_remove_first_all.
  - unfold ret. f_equal. world_eq.
Qed.

Lemma launch_or_success (h : Host) (info : PathInfo) (gdb : bool) (w : World) :
  (if runAfterCompile (config h) then unawaited (runProgram h info gdb)
   else addSuccess (lit "Compilation Successful")) w
  = (Val tt,
     with_calls w
       (if runAfterCompile (config h) then launch_calls h info gdb
        else [Notify Success_ (lit "Compilation Successful")])).
Proof.
  destruct (runAfterCompile (config h)); [|reflexivity].
  unfold unawaited, try_catch, bind. now rewrite runProgram_appends.
Qed.

Lemma warning_spec (h : Host) (stderr : jsstring) (w : World) :
  when (Boolean stderr && showWarnings (config h))
    (addWarning (replace_newlines (lit "<br/>") stderr)) w
  = (Val tt, with_calls w (warning_notification h stderr)).
Proof.
  unfold when, warning_notification.
  destruct (Boolean stderr && showWarnings (config h)); [reflexivity|].
  unfold ret. now rewrite with_calls_nil.
Qed.

Lemma on_close_success (h : Host) (code : option Z) (stderr : jsstring)
    (info : PathInfo) (gdb : bool) (w : World) :
  truthy_code code = false ->
  on_close h code stderr info gdb w
  = (Val Resolved,
     with_calls
       (with_active
          (with_tabs (with_files w (files_after_cleanup h info (files w)))
             (tabs_after_success h info (tabs w)))
          (active_after_success h info (tabs w) (activeTextEditor w)))
       (success_calls h stderr info gdb w)).
Proof.
  intros Hcode. unfold on_close. rewrite Hcode.
  erewrite bind_val by apply debug_spec.
  erewrite bind_val by apply warning_spec.
  erewrite bind_val by apply launch_or_success.
  erewrite bind_val by apply closing_spec.
  erewrite bind_val by apply cleanup_spec.
  erewrite bind_val by apply unawaited_open.
  erewrite bind_val by apply activate_spec.
  unfold ret, success_calls, tabs_after_success, active_after_success.
  autorewrite with world. rewrite <- !app_assoc. reflexivity.
Qed.


(** *** A whole compile *)

Lemma compile_failure (h : Host) (c : Z) (cs : jsstring) (info : PathInfo)
    (args : list jsstring) (gdb : bool) (child : Child) (w : World) :
  fault h ReqSave = None ->
  truthy_code (exit_code child) = true ->
  compile h (Some (c :: cs)) info args gdb child w
  = (Val Pending,
     with_calls
       (with_active
          (with_tabs
             (with_files w (files_after_failure h (stderr_text child) info (files w)))
             (tabs_after_failure h info (tabs w)))
          (active_after_failure h info (activeTextEditor w)))
       (started_calls h (c :: cs) info args child w
        ++ failure_calls h (stderr_text child) info)).
Proof.
  intros Hsave Hcode. rewrite compile_started by assumption.
  erewrite try_catch_val by (now apply on_close_failure).
  autorewrite with world. reflexivity.
Qed.

Lemma compile_success (h : Host) (c : Z) (cs : jsstring) (info : PathInfo)
    (args : list jsstring) (gdb : bool) (child : Child) (w : World) :
  fault h ReqSave = None ->
  truthy_code (exit_code child) = false ->
  compile h (Some (c :: cs)) info args gdb child w
  = (Val Resolved,
     with_calls
       (with_active
          (with_tabs (with_files w (files_after_cleanup h info (files w)))
             (tabs_after_success h info (tabs w)))
          (active_after_success h info (tabs w) (activeTextEditor w)))
       (started_calls h (c :: cs) info args child w
        ++ success_calls h (stderr_text child) info gdb w)).
Proof.
  intros Hsave Hcode. rewrite compile_started by assumption.
  erewrite try_catch_val by (now apply on_close_success).
  unfold success_calls. autorewrite with world. reflexivity.
Qed.

(** *** Sorting the calls of a trace *)

Lemma filter_logged (f : call -> bool) (h : Host) (label : jsstring) :
  f (ConsoleInfo label) = false -> List.filter f (logged h label) = [].
Proof.
  intros Hf. unfold logged. destruct (debugMode (config h)); [|reflexivity].
  cbn. now rewrite Hf.
Qed.

Lemma filter_data_logs (f : call -> bool) (h : Host) (child : Child) :
  (forall label, f (ConsoleInfo label) = false) ->
  List.filter f (data_logs h child) = [].
Proof.
  intros Hf. unfold data_logs.
  induction (stderr_chunks child) as [|chunk chunks IH]; [reflexivity|].
  cbn [List.flat_map]. now rewrite List.filter_app, filter_logged, IH.
Qed.

Lemma filter_saved (f : call -> bool) (w : World) :
  f Save = false -> List.filter f (saved w) = [].
Proof.
  intros Hf. unfold saved. destruct (activeTextEditor w); [|reflexivity].
  cbn. now rewrite Hf.
Qed.

(** The launcher only starts processes and logs. *)
Lemma launch_calls_kind (h : Host) (info : PathInfo) (gdb : bool) :
  Forall (fun c => is_process c || is_log c = true) (launch_calls h info gdb).
Proof.
  unfold launch_calls.
  destruct (str_eq (platform h) (lit "linux")) eqn:Hlinux;
    [|destruct (str_eq (platform h) (lit "win32")) eqn:Hwin;
      [|destruct (str_eq (platform h) (lit "darwin")) eqn:Hmac]].
  - apply bool_decide_eq_true_1 in Hlinux. rewrite runProgram_linux by assumption.
    cbn [snd trace with_calls no_editor_world app]. apply Forall_app. split.
    + unfold logged. destruct (debugMode (config h)); repeat constructor.
    + repeat constructor.
  - apply bool_decide_eq_true_1 in Hwin. rewrite runProgram_windows by assumption.
    cbn [snd trace with_calls no_editor_world app]. apply Forall_app. split.
    + unfold logged. destruct (debugMode (config h)); repeat constructor.
    + repeat constructor.
  - apply bool_decide_eq_true_1 in Hmac. rewrite runProgram_darwin by assumption.
    repeat constructor.
  - unfold runProgram. rewrite Hlinux, Hwin, Hmac. constructor.
Qed.

Lemma filter_none {A} (f : A -> bool) (l : list A) :
  Forall (fun x => f x = false) l -> List.filter f l = [].
Proof.
  induction 1 as [|x l Hx _ IH]; [reflexivity|]. cbn. now rewrite Hx.
Qed.

Lemma filter_launch_calls (f : call -> bool) (h : Host) (info : PathInfo)
    (gdb : bool) :
  (forall c, is_process c || is_log c = true -> f c = false) ->
  List.filter f (launch_calls h info gdb) = [].
Proof.
  intros Hf. apply filter_none.
  eapply Forall_impl; [apply launch_calls_kind|]. exact Hf.
Qed.

Lemma filter_closing_calls (f : call -> bool) (h : Host) (info : PathInfo)
    (tabs : list (option jsstring)) :
  (forall path, f (Destroy path) = false) ->
  List.filter f (closing_calls h info tabs) = [].
Proof.
  intros Hf. unfold closing_calls.
  destruct (closeErrorTabOnSuccess (config h)); [|reflexivity].
  induction (tabs_showing (errorPath h info) tabs) as [|n IH]; [reflexivity|].
  cbn. now rewrite Hf.
Qed.

Lemma filter_cleanup_calls (f : call -> bool) (h : Host) (info : PathInfo)
    (files : gmap jsstring (list Z)) :
  (forall c, is_deletion c || is_log c = true -> f c = false) ->
  List.filter f (cleanup_calls h info files) = [].
Proof.
  intros Hf. unfold cleanup_calls. cbn [List.filter].
  rewrite (Hf (Access _)) by reflexivity.
  destruct (fault h (ReqAccess (errorPath h info))),
           (files !! errorPath h info);
    cbn [List.filter]; rewrite ?(Hf (Unlink _)) by reflexivity;
    apply filter_logged, Hf; reflexivity.
Qed.

Lemma filter_warning (f : call -> bool) (h : Host) (stderr : jsstring) :
  (forall message, f (Notify Warning_ message) = false) ->
  List.filter f (warning_notification h stderr) = [].
Proof.
  intros Hf. unfold warning_notification.
  destruct (Boolean stderr && showWarnings (config h)); [|reflexivity].
  cbn. now rewrite Hf.
Qed.

Lemma filter_started_calls (f : call -> bool) (h : Host) (command : jsstring)
    (info : PathInfo) (args : list jsstring) (child : Child) (w : World) :
  f Save = false ->
  (forall label, f (ConsoleInfo label) = false) ->
  List.filter f (started_calls h command info args child w)
  = List.filter f [Spawn (Some command) args (dir info)].
Proof.
  intros Hsave Hlog. unfold started_calls.
  rewrite !List.filter_app, filter_saved, filter_data_logs by assumption.
  now rewrite app_nil_r.
Qed.

Lemma success_calls_split (h : Host) (c : Z) (cs : jsstring) (info : PathInfo)
    (args : list jsstring) (gdb : bool) (child : Child) (w : World) :
  started_calls h (c :: cs) info args child w
    ++ success_calls h (stderr_text child) info gdb w
  = before_launch h (c :: cs) info args child w
      ++ (if runAfterCompile (config h) then launch_calls h info gdb
          else [Notify Success_ (lit "Compilation Successful")])
      ++ after_launch h info w.
Proof.
  unfold success_calls, before_launch, after_launch.
  now rewrite <- !app_assoc.
Qed.

Lemma files_after_cleanup_sub (h : Host) (info : PathInfo)
    (files : gmap jsstring (list Z)) (path : jsstring) (bytes : list Z) :
  files_after_cleanup h info files !! path = Some bytes ->
  files !! path = Some bytes.
Proof.
  unfold files_after_cleanup. destruct (deletes h info files); [|easy].
  intros H. apply lookup_delete_Some in H. tauto.
Qed.

(** C6.  A compile that started and exited with code zero resolves, and its
    calls are: those before the launch, then either the calls of
    [runProgram] (when run-after-compile is set) or the success
    notification (when it is not), then those after.  The calls before and
    after hold one process start, the compiler's, and no success
    notification; none of the calls writes a file, and every file on disk
    afterwards was there before with the same bytes. *)
Theorem success_runs_or_notifies (h : Host) (c : Z) (cs : jsstring)
    (info : PathInfo) (args : list jsstring) (gdb : bool) (child : Child)
    (w : World) :
  fault h ReqSave = None ->
  exit_code child = Some 0 ->
  exists w' : World,
    compile h (Some (c :: cs)) info args gdb child w = (Val Resolved, w')
    /\ trace w'
       = trace w
           ++ before_launch h (c :: cs) info args child w
           ++ (if runAfterCompile (config h) then launch_calls h info gdb
               else [Notify Success_ (lit "Compilation Successful")])
           ++ after_launch h info w
    /\ (forall w0, runProgram h info gdb w0
                   = (Val tt, with_calls w0 (launch_calls h info gdb)))
    /\ List.filter is_process
         (before_launch h (c :: cs) info args child w ++ after_launch h info w)
       = [Spawn (Some (c :: cs)) args (dir info)]
    /\ List.filter is_success
         (before_launch h (c :: cs) info args child w
            ++ launch_calls h info gdb ++ after_launch h info w)
       = []
    /\ List.filter is_write
         (before_launch h (c :: cs) info args child w
            ++ launch_calls h info gdb ++ after_launch h info w)
       = []
    /\ (forall path bytes,
          files w' !! path = Some bytes -> files w !! path = Some bytes).
Proof.
  intros Hsave Hcode.
  assert (Hfalsy : truthy_code (exit_code child) = false) by now rewrite Hcode.
  eexists. split; [now apply compile_success|].
  autorewrite with world.
  split; [now rewrite success_calls_split|].
  split; [apply runProgram_appends|].
  unfold before_launch, after_launch.
  split; [|split; [|split]].
  - rewrite !List.filter_app.
    rewrite filter_started_calls, filter_logged, filter_warning,
      filter_closing_calls, filter_cleanup_calls by
        (try reflexivity; intros [] ; try reflexivity; discriminate).
    reflexivity.
  - rewrite !List.filter_app.
    rewrite filter_started_calls, filter_logged, filter_warning,
      filter_launch_calls, filter_closing_calls, filter_cleanup_calls by
        (try reflexivity; intros [] ; try reflexivity; discriminate).
    reflexivity.
  - rewrite !List.filter_app.
    rewrite filter_started_calls, filter_logged, filter_warning,
      filter_launch_calls, filter_closing_calls, filter_cleanup_calls by
        (try reflexivity; intros [] ; try reflexivity; discriminate).
    reflexivity.
  - intros path bytes. apply files_after_cleanup_sub.
Qed.

Lemma success_runs_or_notifies_witness :
  fault (demo_host "linux" demo_config) ReqSave = None
  /\ exit_code {| stderr_chunks := []; exit_code := Some 0 |} = Some 0
  /\ exists w' : World,
       compile (demo_host "linux" demo_config) (Some (lit "gcc")) demo_info
         [lit "/home/u/main.c"; lit "-o"; lit "/tmp/main"] false
         {| stderr_chunks := []; exit_code := Some 0 |} demo_world
       = (Val Resolved, w')
       /\ trace w'
          = [Save;
             Spawn (Some (lit "gcc"))
               [lit "/home/u/main.c"; lit "-o"; lit "/tmp/main"] (lit "/home/u");
             Spawn (Some (lit "xterm")) [lit "-hold"; lit "-e"; lit "/tmp/main"]
               (lit "/home/u");
             Access (lit "/home/u/compiling_error.txt");
             Open (lit "/home/u/main.c") None;
             ActivatePane].
Proof.
  split; [reflexivity|]. split; [reflexivity|].
  destruct (success_runs_or_notifies (demo_host "linux" demo_config)
              103 (lit "cc") demo_info
              [lit "/home/u/main.c"; lit "-o"; lit "/tmp/main"] false
              {| stderr_chunks := []; exit_code := Some 0 |} demo_world
              eq_refl eq_refl) as (w' & Hrun & Htrace & _).
  exists w'. split; [exact Hrun|]. rewrite Htrace. reflexivity.
Defined.

(** *** After a success: the diagnostics file goes (C5) *)


Lemma files_after_failure_written (h : Host) (stderr : jsstring) (info : PathInfo)
    (files : gmap jsstring (list Z)) :
  addCompilingErr (config h) = true ->
  fault h (ReqWriteFile (errorPath h info)) = None ->
  files_after_failure h stderr info files
  = <[errorPath h info := utf8_of_string stderr]> files.
Proof.
  intros Hadd Hwrite. unfold files_after_failure, writes.
  now rewrite Hadd, Hwrite.
Qed.




(** *** After a failure: the diagnostics file (C4) *)

Lemma filter_artifact_calls (f : call -> bool) (h : Host) (info : PathInfo)
    (stderr : jsstring) :
  (forall c, is_notification c = true -> f c = true) ->
  (forall c, is_notification c = false -> f c = false) ->
  List.filter f (artifact_calls h info stderr) = [].
Proof.
  intros _ Hf. unfold artifact_calls. cbn [List.filter].
  rewrite (Hf (WriteFile _ _)) by reflexivity.
  destruct (fault h (ReqWriteFile (errorPath h info))).
  - cbn [List.filter]. now rewrite Hf.
  - rewrite List.filter_app, filter_logged by (now apply Hf).
    cbn [List.filter app]. rewrite (Hf (Open _ _)) by reflexivity.
    destruct (open_result h (errorPath h info)) as [[item|]|e];
      cbn [List.filter]; rewrite ?Hf by reflexivity; reflexivity.
Qed.

Lemma notifications_failure_calls (h : Host) (stderr : jsstring) (info : PathInfo) :
  notifications (failure_calls h stderr info) = error_notification h stderr.
Proof.
  unfold notifications, failure_calls. rewrite !List.filter_app.
  rewrite filter_logged by reflexivity.
  assert (Hartifact :
    List.filter is_notification
      (if addCompilingErr (config h) then artifact_calls h info stderr else [])
    = []).
  { destruct (addCompilingErr (config h)); [|reflexivity].
    now apply filter_artifact_calls. }
  rewrite Hartifact, app_nil_r. cbn [app].
  unfold error_notification.
  destruct (showErrorNotifications (config h)); reflexivity.
Qed.

(** C4, as the code has it.  A compile that started, exited with a code
    other than zero, with the diagnostics file enabled, leaves its promise
    pending and calls [fs.writeFile] on [compiling_error.txt] of the source
    directory with the UTF-8 bytes of the text accumulated from [stderr].
    When the host lets the write through, the file holds those bytes; and
    they are exactly the bytes the compiler wrote when every chunk of
    [stderr] is well-formed UTF-8.  A failure of the write or of the open
    is passed to [console.error]; the notifications are the same with and
    without it: the error notification alone, when the setting asks for
    it. *)
Theorem diagnostics_file_contents (h : Host) (c : Z) (cs : jsstring)
    (info : PathInfo) (args : list jsstring) (gdb : bool) (child : Child)
    (w : World) :
  fault h ReqSave = None ->
  truthy_code (exit_code child) = true ->
  addCompilingErr (config h) = true ->
  exists (w' : World) (added : list call),
    compile h (Some (c :: cs)) info args gdb child w = (Val Pending, w')
    /\ trace w' = trace w ++ started_calls h (c :: cs) info args child w ++ added
    /\ In (WriteFile (errorPath h info) (utf8_of_string (stderr_text child))) added
    /\ (fault h (ReqWriteFile (errorPath h info)) = None ->
        files w' !! errorPath h info = Some (utf8_of_string (stderr_text child))
        /\ (Forall well_formed_utf8 (stderr_chunks child) ->
            files w' !! errorPath h info
            = Some (List.concat (stderr_chunks child))))
    /\ notifications added = error_notification h (stderr_text child)
    /\ (forall e, fault h (ReqWriteFile (errorPath h info)) = Some e ->
          files w' = files w
          /\ In (ConsoleError (lit "Error writing compiling_error.txt:") e) added)
    /\ (forall e, fault h (ReqWriteFile (errorPath h info)) = None ->
          fault h (ReqOpen (errorPath h info)) = Some e ->
          In (ConsoleError (lit "Error writing compiling_error.txt:") e) added).
Proof.
  intros Hsave Hcode Hadd.
  exists (snd (compile h (Some (c :: cs)) info args gdb child w)),
         (failure_calls h (stderr_text child) info).
  rewrite compile_failure by assumption. cbn [snd]. autorewrite with world.
  split; [reflexivity|]. split; [reflexivity|].
  unfold failure_calls, artifact_calls. rewrite Hadd.
  split; [|split; [|split; [|split]]].
  - rewrite !in_app_iff. right. right. left. reflexivity.
  - intros Hwrite. rewrite files_after_failure_written by assumption.
    rewrite lookup_insert_eq. split; [reflexivity|].
    intros Hchunks. unfold stderr_text. now rewrite utf8_of_string_chunks.
  - pose proof (notifications_failure_calls h (stderr_text child) info) as Hn.
    unfold failure_calls, artifact_calls in Hn. now rewrite Hadd in Hn.
  - intros e Hwrite. split.
    + unfold files_after_failure, writes. now rewrite Hadd, Hwrite.
    + rewrite Hwrite, !in_app_iff. right. right. right. left. reflexivity.
  - intros e Hwrite Hopen. unfold open_result. rewrite Hwrite, Hopen.
    rewrite !in_app_iff. right. right. right. rewrite in_app_iff.
    right. right. left. reflexivity.
Qed.

Lemma diagnostics_file_contents_witness :
  fault (demo_host "linux" demo_config) ReqSave = None
  /\ truthy_code (Some 1) = true
  /\ addCompilingErr (config (demo_host "linux" demo_config)) = true
  /\ exists w' : World,
       compile (demo_host "linux" demo_config) (Some (lit "gcc")) demo_info
         [lit "/home/u/main.c"; lit "-o"; lit "/tmp/main"] false
         {| stderr_chunks := [[0xE2; 0x80; 0x98; 0x78]; [0xE2; 0x80; 0x99; 10]];
            exit_code := Some 1 |} demo_world
       = (Val Pending, w')
       /\ files w' !! lit "/home/u/compiling_error.txt"
          = Some [0xE2; 0x80; 0x98; 0x78; 0xE2; 0x80; 0x99; 10].
Proof.
  split; [reflexivity|]. split; [reflexivity|]. split; [reflexivity|].
  destruct (diagnostics_file_contents (demo_host "linux" demo_config)
              103 (lit "cc") demo_info
              [lit "/home/u/main.c"; lit "-o"; lit "/tmp/main"] false
              {| stderr_chunks := [[0xE2; 0x80; 0x98; 0x78]; [0xE2; 0x80; 0x99; 10]];
                 exit_code := Some 1 |} demo_world
              eq_refl eq_refl eq_refl)
    as (w' & added & Hrun & _ & _ & Hfile & _).
  exists w'. split; [exact Hrun|].
  apply (Hfile eq_refl).
  repeat constructor.
  - exists [0x2018; 0x78]. split; [|reflexivity].
    repeat constructor; unfold scalar; lia.
  - exists [0x2019; 10]. split; [|reflexivity].
    repeat constructor; unfold scalar; lia.
Defined.

(** C4 as stated fails: when the compiler writes the single byte [0xFF],
    which is not UTF-8, the file holds the three bytes of U+FFFD. *)
Lemma diagnostics_file_bytes_counterexample :
  files
    (snd (compile (demo_host "linux" demo_config) (Some (lit "gcc")) demo_info
            [lit "/home/u/main.c"; lit "-o"; lit "/tmp/main"] false
            {| stderr_chunks := [[0xFF]]; exit_code := Some 1 |} demo_world))
    !! lit "/home/u/compiling_error.txt"
  = Some [0xEF; 0xBF; 0xBD]
  /\ files
       (snd (compile (demo_host "linux" demo_config) (Some (lit "gcc")) demo_info
               [lit "/home/u/main.c"; lit "-o"; lit "/tmp/main"] false
               {| stderr_chunks := [[0xFF]]; exit_code := Some 1 |} demo_world))
       !! lit "/home/u/compiling_error.txt"
     <> Some (List.concat [[0xFF]]).
Proof.
  assert (H : files
    (snd (compile (demo_host "linux" demo_config) (Some (lit "gcc")) demo_info
            [lit "/home/u/main.c"; lit "-o"; lit "/tmp/main"] false
            {| stderr_chunks := [[0xFF]]; exit_code := Some 1 |} demo_world))
    !! lit "/home/u/compiling_error.txt"
  = Some [0xEF; 0xBF; 0xBD]).
  { rewrite (compile_failure (demo_host "linux" demo_config) 103 (lit "cc"))
      by reflexivity.
    cbn [snd]. autorewrite with world.
    rewrite files_after_failure_written by reflexivity.
    apply lookup_insert_eq. }
  split; [exact H|]. rewrite H. discriminate.
Qed.

(** ** The compiler command (C10) *)

Lemma getCommand_other (h : Host) (fileType : option jsstring) :
  fileType <> Some (lit "C") ->
  fileType <> Some (lit "C++") ->
  getCommand h fileType = None.
Proof.
  intros HC Hcpp. unfold getCommand, str_eq.
  destruct fileType as [t|]; [|reflexivity].
  rewrite !bool_decide_eq_false_2 by congruence. reflexivity.
Qed.

(** C10.  For a file type that is neither ["C"] nor ["C++"], an absent one
    included, [getCommand] returns nothing; and [compile], given what
    [getCommand] returned, saves the active editor and calls
    [child_process.spawn] with the absent command all the same: it is the
    call that throws, and the promise is rejected. *)
Theorem getCommand_absent_reaches_spawn (h : Host) (fileType : option jsstring)
    (info : PathInfo) (args : list jsstring) (gdb : bool) (child : Child)
    (w : World) :
  fileType <> Some (lit "C") ->
  fileType <> Some (lit "C++") ->
  fault h ReqSave = None ->
  getCommand h fileType = None
  /\ compile h (getCommand h fileType) info args gdb child w
     = (Exn InvalidFileArgument,
        with_calls w (saved w ++ [Spawn None args (dir info)])).
Proof.
  intros HC Hcpp Hsave. rewrite (getCommand_other h fileType HC Hcpp).
  split; [reflexivity|]. now apply compile_no_command.
Qed.

Lemma getCommand_absent_reaches_spawn_witness :
  Some (lit "Python") <> Some (lit "C")
  /\ Some (lit "Python") <> Some (lit "C++")
  /\ fault (demo_host "linux" demo_config) ReqSave = None
  /\ compile (demo_host "linux" demo_config)
       (getCommand (demo_host "linux" demo_config) (Some (lit "Python")))
       demo_info [lit "/home/u/main.py"; lit "-o"; lit "/tmp/main"] false
       {| stderr_chunks := []; exit_code := Some 0 |} demo_world
     = (Exn InvalidFileArgument,
        with_calls demo_world
          [Save; Spawn None [lit "/home/u/main.py"; lit "-o"; lit "/tmp/main"]
                   (lit "/home/u")]).
Proof.
  assert (HC : Some (lit "Python") <> Some (lit "C")) by discriminate.
  assert (Hcpp : Some (lit "Python") <> Some (lit "C++")) by discriminate.
  split; [exact HC|]. split; [exact Hcpp|]. split; [reflexivity|].
  exact (proj2 (getCommand_absent_reaches_spawn (demo_host "linux" demo_config)
                  (Some (lit "Python")) demo_info
                  [lit "/home/u/main.py"; lit "-o"; lit "/tmp/main"] false
                  {| stderr_chunks := []; exit_code := Some 0 |} demo_world
                  HC Hcpp eq_refl)).
Defined.

(** ** Preconditions of [compileFile] (C3) *)

(** An active editor whose buffer has no file: the error notification, and
    nothing else. *)
Lemma compileFile_unsaved_buffer (h : Host) (fileType : option jsstring)
    (gdb : bool) (child : Child) (w : World) (editor : TextEditor) :
  activeTextEditor w = Some editor ->
  buffer_file editor = None ->
  compileFile h fileType gdb child w
  = (Val tt,
     with_calls w
       [Notify Error_
          (lit "<strong>File not found.</strong><br/>Save before compiling.")]).
Proof.
  intros Ha Hfile. unfold compileFile, getFilePath, getActiveTextEditor, bind.
  rewrite Ha. unfold ret. rewrite Hfile. reflexivity.
Qed.

(** No active editor: [getFilePath] throws, and nothing catches it. *)
Lemma compileFile_no_editor (h : Host) (fileType : option jsstring)
    (gdb : bool) (child : Child) (w : World) :
  activeTextEditor w = None ->
  compileFile h fileType gdb child w = (Exn (ReadOfUndefined (lit "buffer")), w).
Proof.
  intros Ha. unfold compileFile, getFilePath, getActiveTextEditor, bind.
  rewrite Ha. reflexivity.
Qed.

(** The command itself stops one step earlier: [getFileType()] throws in
    the handler. *)
Lemma command_compile_no_editor (h : Host) (child : Child) (w : World) :
  activeTextEditor w = None ->
  command_compile h child w = (Exn (ReadOfUndefined (lit "getGrammar")), w).
Proof.
  intros Ha. unfold command_compile, getFileType, getActiveTextEditor, bind.
  rewrite Ha. reflexivity.
Qed.

(** C3 at its failing input.  With no active text editor, the compile
    command ends in the exception of calling [getGrammar] on [undefined],
    and [compileFile], called on its own, in that of reading [buffer] of
    [undefined]; the world is as before: no process, no file, and no
    notification either. *)
Theorem compileFile_without_editor_throws :
  command_compile (demo_host "linux" demo_config)
    {| stderr_chunks := []; exit_code := Some 0 |} no_editor_world
  = (Exn (ReadOfUndefined (lit "getGrammar")), no_editor_world)
  /\ compileFile (demo_host "linux" demo_config) (Some (lit "C")) false
       {| stderr_chunks := []; exit_code := Some 0 |} no_editor_world
     = (Exn (ReadOfUndefined (lit "buffer")), no_editor_world)
  /\ notifications (trace no_editor_world) = [].
Proof.
  rewrite command_compile_no_editor, compileFile_no_editor by reflexivity.
  repeat split.
Qed.

(** ** Runs from end to end *)

Example demo_parse_main :
  demo_parse (lit "/home/u/main.c") = demo_info
  /\ demo_parse (lit "/home/u/Makefile")
     = {| dir := lit "/home/u"; base := lit "Makefile"; name := lit "Makefile";
          ext := lit "" |}.
Proof. vm_compute. split; reflexivity. Qed.

(** A C file that does not compile: the compiler writes one line and exits
    with 1.  The file is saved, compiled, and the line ends up in
    [compiling_error.txt], which is opened below and made read-only. *)
Example broken_c_scenario :
  compileFile (demo_host "linux" demo_config) (Some (lit "C")) false
    {| stderr_chunks := [List.map Z.of_nat [101; 114; 114; 111; 114; 58; 32; 120]%nat];
       exit_code := Some 1 |}
    demo_world
  = (Val tt,
     {| files := {[ lit "/home/u/compiling_error.txt" := lit "error: x" ]};
        tabs := [Some (lit "/home/u/main.c");
                 Some (lit "/home/u/compiling_error.txt")];
        activeTextEditor := Some demo_editor;
        trace :=
          [Save;
           Spawn (Some (lit "gcc"))
             [lit "/home/u/main.c"; lit "-o"; lit "/tmp/main"; lit "-O2"; lit "-Wall"]
             (lit "/home/u");
           WriteFile (lit "/home/u/compiling_error.txt") (lit "error: x");
           Open (lit "/home/u/compiling_error.txt") (Some (lit "down"));
           SetSoftTabs (lit "/home/u/compiling_error.txt") false;
           SetSoftWrapped (lit "/home/u/compiling_error.txt") true;
           SetReadOnly (lit "/home/u/compiling_error.txt") true;
           ActivateContainer;
           ActivatePane] |}).
Proof. vm_compute. reflexivity. Qed.

(** A C++ file that compiles, with the debugger: [-g] comes first, and the
    program starts under [gdb] in the default terminal, without its hold
    flag. *)
Example main_cpp_gdb_scenario :
  trace
    (snd (compileFile (demo_host "linux" demo_config) (Some (lit "C++")) true
            {| stderr_chunks := []; exit_code := Some 0 |} demo_world))
  = [Save;
     Spawn (Some (lit "g++"))
       [lit "-g"; lit "/home/u/main.c"; lit "-o"; lit "/tmp/main"; lit "-std=c++17"]
       (lit "/home/u");
     Spawn (Some (lit "xterm")) [lit "-e"; lit "gdb"; lit "/tmp/main"] (lit "/home/u");
     Access (lit "/home/u/compiling_error.txt");
     Open (lit "/home/u/main.c") None;
     ActivatePane].
Proof. vm_compute. reflexivity. Qed.

(** A file of another language picked in the tree view: no compiler is
    configured for it, [spawn] refuses the absent command, and the user is
    told so. *)
Example tree_python_scenario :
  trace
    (snd (treeCompile
            (demo_host "linux" demo_config) [lit "/home/u/tool.py"]
            (lit "/home/u/tool.py") false
            {| stderr_chunks := []; exit_code := Some 0 |} no_editor_world))
  = [Spawn None [lit "/home/u/tool.py"; lit "-o"; lit "/tmp/tool"; lit "-O2"; lit "-Wall"]
       (lit "/home/u");
     Notify Error_ (lit "<strong>Error:</strong><br/>failed")].
Proof. vm_compute. reflexivity. Qed.

(** * Further properties of the package *)

(** ** The debug setting only adds log lines *)

Lemma same_but_logs_refl (w : World) : same_but_logs w w.
Proof. repeat split. Qed.

Lemma without_logs_app (a b : list call) :
  without_logs (a ++ b) = without_logs a ++ without_logs b.
Proof. apply List.filter_app. Qed.

Lemma same_but_logs_calls (w1 w2 : World) (a b : list call) :
  same_but_logs w1 w2 ->
  without_logs a = without_logs b ->
  same_but_logs (with_calls w1 a) (with_calls w2 b).
Proof.
  intros (Hf & Ht & Ha & Htr) Hab. repeat split; try assumption.
  cbn [trace with_calls]. now rewrite !without_logs_app, Htr, Hab.
Qed.

Lemma agree_ret {A} (a : A) : agree (ret a) (ret a).
Proof. intros w1 w2 H. split; [reflexivity | exact H]. Qed.

Lemma agree_throw {A} (e : Error) : agree (@throw A e) (throw e).
Proof. intros w1 w2 H. split; [reflexivity | exact H]. Qed.

Lemma agree_bind {A B} (m1 m2 : M A) (k1 k2 : A -> M B) :
  agree m1 m2 -> (forall a, agree (k1 a) (k2 a)) ->
  agree (bind m1 k1) (bind m2 k2).
Proof.
  intros Hm Hk w1 w2 H. destruct (Hm w1 w2 H) as [Hr Hw]. unfold bind.
  destruct (m1 w1) as [[a1|e1] w1'], (m2 w2) as [[a2|e2] w2'];
    cbn [fst snd] in *; try discriminate.
  - injection Hr as ->. now apply Hk.
  - injection Hr as ->. split; [reflexivity | exact Hw].
Qed.

Lemma agree_try_catch {A} (m1 m2 : M A) (h1 h2 : Error -> M A) :
  agree m1 m2 -> (forall e, agree (h1 e) (h2 e)) ->
  agree (try_catch m1 h1) (try_catch m2 h2).
Proof.
  intros Hm Hh w1 w2 H. destruct (Hm w1 w2 H) as [Hr Hw]. unfold try_catch.
  destruct (m1 w1) as [[a1|e1] w1'], (m2 w2) as [[a2|e2] w2'];
    cbn [fst snd] in *; try discriminate.
  - split; [exact Hr | exact Hw].
  - injection Hr as ->. now apply Hh.
Qed.

Lemma agree_unawaited {A} (m1 m2 : M A) :
  agree m1 m2 -> agree (unawaited m1) (unawaited m2).
Proof.
  intros Hm. unfold unawaited. apply agree_try_catch.
  - apply agree_bind; [exact Hm | intros; apply agree_ret].
  - intros; apply agree_ret.
Qed.

Lemma agree_emit (c : call) : agree (emit c) (emit c).
Proof.
  intros w1 w2 H. rewrite !emit_spec. split; [reflexivity|].
  now apply same_but_logs_calls.
Qed.

Lemma agree_when (b : bool) (m1 m2 : M unit) :
  agree m1 m2 -> agree (when b m1) (when b m2).
Proof. destruct b; [easy | intros; apply agree_ret]. Qed.

Lemma without_logs_logged (h : Host) (label : jsstring) :
  without_logs (logged h label) = [].
Proof. unfold logged. now destruct (debugMode (config h)). Qed.

Lemma agree_debug (h : Host) (b : bool) (label : jsstring) :
  agree (debug h label) (debug (debugging b h) label).
Proof.
  intros w1 w2 H. rewrite !debug_spec. split; [reflexivity|].
  apply same_but_logs_calls; [exact H|].
  now rewrite !without_logs_logged.
Qed.

Lemma agree_host_call (h : Host) (b : bool) (r : request) :
  agree (host_call h r) (host_call (debugging b h) r).
Proof.
  unfold host_call. cbn [debugging with_config fault].
  destruct (fault h r); [apply agree_throw | apply agree_ret].
Qed.

(** A computation that reads the state first. *)
Lemma agree_read {A} (k1 k2 : World -> M A) :
  (forall w1 w2, same_but_logs w1 w2 -> agree (k1 w1) (k2 w2)) ->
  agree (bind get_world k1) (bind get_world k2).
Proof. intros Hk w1 w2 H. unfold bind, get_world. now apply Hk. Qed.

Lemma agree_set_files (f : gmap jsstring (list Z)) : agree (set_files f) (set_files f).
Proof. intros w1 w2 (Hf & Ht & Ha & Htr). repeat split; assumption. Qed.

Lemma agree_set_tabs (t : list (option jsstring)) : agree (set_tabs t) (set_tabs t).
Proof. intros w1 w2 (Hf & Ht & Ha & Htr). repeat split; assumption. Qed.

Lemma agree_set_active (a : option TextEditor) :
  agree (set_active a) (set_active a).
Proof. intros w1 w2 (Hf & Ht & Ha & Htr). repeat split; assumption. Qed.

Lemma agree_getActiveTextEditor : agree getActiveTextEditor getActiveTextEditor.
Proof.
  intros w1 w2 H. unfold getActiveTextEditor. cbn [fst snd]. split; [|exact H].
  destruct H as (_ & _ & Ha & _). now rewrite Ha.
Qed.

Lemma agree_refocus (h : Host) (b : bool) (c : call) :
  agree (refocus h c) (refocus (debugging b h) c).
Proof.
  unfold refocus. apply agree_read. intros w1 w2 (_ & _ & Ha & _). rewrite Ha.
  cbn [debugging with_config focused]. apply agree_set_active.
Qed.

Lemma agree_activate (h : Host) (b : bool) (c : call) :
  agree (activate h c) (activate (debugging b h) c).
Proof.
  unfold activate. apply agree_bind; [apply agree_emit | intros _].
  apply agree_refocus.
Qed.

Ltac agree_step :=
  first
    [ apply agree_ret | apply agree_throw | apply agree_emit | apply agree_debug
    | apply agree_host_call | apply agree_set_files | apply agree_set_tabs
    | apply agree_getActiveTextEditor | apply agree_activate | apply agree_refocus
    | apply agree_bind; [|intros ?]
    | apply agree_try_catch; [|intros ?]
    | apply agree_unawaited
    | apply agree_when ].

Lemma agree_fs_writeFile (h : Host) (b : bool) (path text : jsstring) :
  agree (fs_writeFile h path text) (fs_writeFile (debugging b h) path text).
Proof.
  unfold fs_writeFile.
  apply agree_bind; [agree_step | intros _].
  apply agree_bind; [agree_step | intros _].
  apply agree_read. intros w1 w2 (Hf & _). rewrite Hf. agree_step.
Qed.

Lemma agree_fs_access (h : Host) (b : bool) (path : jsstring) :
  agree (fs_access h path) (fs_access (debugging b h) path).
Proof.
  unfold fs_access.
  apply agree_bind; [agree_step | intros _].
  apply agree_bind; [agree_step | intros _].
  apply agree_read. intros w1 w2 (Hf & _). rewrite Hf.
  destruct (files w2 !! path); agree_step.
Qed.

Lemma agree_fs_unlink (h : Host) (b : bool) (path : jsstring) :
  agree (fs_unlink h path) (fs_unlink (debugging b h) path).
Proof.
  unfold fs_unlink.
  apply agree_bind; [agree_step | intros _].
  apply agree_bind; [agree_step | intros _].
  apply agree_read. intros w1 w2 (Hf & _). rewrite Hf.
  destruct (files w2 !! path); agree_step.
Qed.

Lemma agree_workspace_open (h : Host) (b : bool) (path : jsstring)
    (split_option : option jsstring) :
  agree (workspace_open h path split_option)
        (workspace_open (debugging b h) path split_option).
Proof.
  unfold workspace_open.
  apply agree_bind; [agree_step | intros _].
  apply agree_bind; [agree_step | intros _].
  cbn [debugging with_config opens_nothing placed].
  destruct (opens_nothing h path); [agree_step|].
  apply agree_read. intros w1 w2 (_ & Ht & _). rewrite Ht.
  apply agree_bind; [agree_step | intros _].
  apply agree_bind; [agree_step | intros _]. agree_step.
Qed.

Lemma agree_destroy (h : Host) (b : bool) (path : jsstring) :
  agree (destroy h path) (destroy (debugging b h) path).
Proof.
  unfold destroy.
  apply agree_bind; [agree_step | intros _].
  apply agree_read. intros w1 w2 (_ & Ht & _). rewrite Ht.
  apply agree_bind; [agree_step | intros _]. agree_step.
Qed.

Lemma agree_close_error_tabs (h : Host) (b : bool) (target : jsstring)
    (editors : list (option jsstring)) :
  agree (close_error_tabs h target editors)
        (close_error_tabs (debugging b h) target editors).
Proof.
  induction editors as [|textEditor rest IH]; cbn [close_error_tabs].
  - agree_step.
  - apply agree_bind; [|intros _; exact IH].
    destruct (bool_decide (textEditor = Some target));
      [apply agree_destroy | agree_step].
Qed.

Lemma agree_spawn (command : option jsstring) (args : list jsstring) (cwd : jsstring) :
  agree (spawn command args cwd) (spawn command args cwd).
Proof.
  unfold spawn. apply agree_bind; [agree_step | intros _].
  destruct command as [[|c cs]|]; agree_step.
Qed.

Lemma agree_runProgram (h : Host) (b : bool) (info : PathInfo) (gdb : bool) :
  agree (runProgram h info gdb) (runProgram (debugging b h) info gdb).
Proof.
  unfold runProgram.
  change (platform (debugging b h)) with (platform h).
  change (getCompiledPath (debugging b h)) with (getCompiledPath h).
  change (linuxTerminal (config (debugging b h))) with (linuxTerminal (config h)).
  destruct (str_eq (platform h) (lit "linux")).
  - destruct (linuxTerminalCommand (linuxTerminal (config h)) gdb) as [cmd args].
    apply agree_bind; [agree_step | intros _; apply agree_spawn].
  - destruct (str_eq (platform h) (lit "win32")).
    + apply agree_bind; [agree_step | intros _; unfold exec; agree_step].
    + destruct (str_eq (platform h) (lit "darwin")); [apply agree_spawn | agree_step].
Qed.

Lemma agree_on_data (h : Host) (b : bool) (chunks : list (list Z)) (stderr : jsstring) :
  agree (on_data h chunks stderr) (on_data (debugging b h) chunks stderr).
Proof.
  revert stderr. induction chunks as [|data rest IH]; intros stderr; cbn [on_data].
  - agree_step.
  - apply agree_bind; [agree_step | intros _; apply IH].
Qed.

Lemma agree_on_close (h : Host) (b : bool) (code : option Z) (stderr : jsstring)
    (info : PathInfo) (gdb : bool) :
  agree (on_close h code stderr info gdb)
        (on_close (debugging b h) code stderr info gdb).
Proof.
  unfold on_close.
  change (errorPath (debugging b h)) with (errorPath h).
  change (path_join (debugging b h)) with (path_join h).
  cbn [debugging with_config with_debugMode config showErrorNotifications
       addCompilingErr splitDirection showWarnings runAfterCompile
       closeErrorTabOnSuccess].
  apply agree_bind; [agree_step | intros _].
  destruct (truthy_code code).
  - apply agree_bind; [repeat agree_step | intros _].
    apply agree_bind; [|intros _; agree_step].
    apply agree_when. apply agree_try_catch; [|intros e; unfold console_error; agree_step].
    apply agree_bind; [apply agree_fs_writeFile | intros _].
    apply agree_bind; [agree_step | intros _].
    apply agree_bind; [apply agree_workspace_open | intros [item|]];
      unfold addError; repeat agree_step.
  - apply agree_bind; [unfold addWarning; repeat agree_step | intros _].
    apply agree_bind; [|intros _].
    { destruct (runAfterCompile (config h)).
      - apply agree_unawaited, agree_runProgram.
      - unfold addSuccess; agree_step. }
    apply agree_bind; [|intros _].
    { apply agree_when, agree_try_catch; [|intros e; agree_step].
      apply agree_read. intros w1 w2 (_ & Ht & _). rewrite Ht.
      apply agree_close_error_tabs. }
    apply agree_bind; [|intros _].
    { apply agree_try_catch; [|intros e; agree_step].
      apply agree_bind; [apply agree_fs_access | intros _].
      apply agree_bind; [apply agree_fs_unlink | intros _]. agree_step. }
    apply agree_bind; [apply agree_unawaited, agree_workspace_open | intros _].
    repeat agree_step.
Qed.

Lemma agree_compile (h : Host) (b : bool) (command : option jsstring)
    (info : PathInfo) (args : list jsstring) (gdb : bool) (child : Child) :
  agree (compile h command info args gdb child)
        (compile (debugging b h) command info args gdb child).
Proof.
  unfold compile.
  apply agree_bind; [agree_step | intros editor].
  apply agree_bind; [|intros _].
  { destruct editor; [|agree_step]. unfold editor_save.
    apply agree_bind; [agree_step | intros _; agree_step]. }
  apply agree_bind; [apply agree_spawn | intros _].
  apply agree_bind; [apply agree_on_data | intros stderr].
  apply agree_try_catch; [apply agree_on_close | intros _; agree_step].
Qed.

Lemma agree_getArgs (h : Host) (b : bool) (files : list jsstring)
    (output : jsstring) (fileType : option jsstring)
    (extraArgs : option (list jsstring)) :
  agree (getArgs h files output fileType extraArgs)
        (getArgs (debugging b h) files output fileType extraArgs).
Proof.
  unfold getArgs.
  change (compilerOptions (debugging b h)) with (compilerOptions h).
  apply agree_bind; [agree_step | intros _; agree_step].
Qed.

Lemma agree_getFileType (h : Host) (b : bool) (ext : option jsstring) :
  agree (getFileType h ext) (getFileType (debugging b h) ext).
Proof.
  unfold getFileType. change (grammars (debugging b h)) with (grammars h).
  assert (Hactive : agree
    (bind getActiveTextEditor
       (fun editor : option TextEditor =>
          match editor with
          | Some e => ret (Some (grammar_name (getGrammar e)))
          | None => throw (ReadOfUndefined (lit "getGrammar"))
          end))
    (bind getActiveTextEditor
       (fun editor : option TextEditor =>
          match editor with
          | Some e => ret (Some (grammar_name (getGrammar e)))
          | None => throw (ReadOfUndefined (lit "getGrammar"))
          end))).
  { apply agree_bind; [agree_step | intros [e|]; agree_step]. }
  destruct ext as [[|c cs]|]; [exact Hactive | agree_step | exact Hactive].
Qed.

Lemma agree_compileFile (h : Host) (b : bool) (fileType : option jsstring)
    (gdb : bool) (child : Child) :
  agree (compileFile h fileType gdb child)
        (compileFile (debugging b h) fileType gdb child).
Proof.
  unfold compileFile.
  change (path_parse (debugging b h)) with (path_parse h).
  change (getCompiledPath (debugging b h)) with (getCompiledPath h).
  change (getCommand (debugging b h)) with (getCommand h).
  change (error_message (debugging b h)) with (error_message h).
  apply agree_bind; [|intros [filePath|]].
  - unfold getFilePath. apply agree_bind; [agree_step | intros [e|]; agree_step].
  - apply agree_try_catch; [|intros e; unfold addError; agree_step].
    apply agree_bind; [apply agree_getArgs | intros args].
    apply agree_bind; [apply agree_compile | intros _; agree_step].
  - unfold addError. agree_step.
Qed.

Lemma agree_treeCompile (h : Host) (b : bool) (files : list jsstring)
    (target : jsstring) (gdb : bool) (child : Child) :
  agree (treeCompile h files target gdb child)
        (treeCompile (debugging b h) files target gdb child).
Proof.
  unfold treeCompile.
  change (path_parse (debugging b h)) with (path_parse h).
  change (getCompiledPath (debugging b h)) with (getCompiledPath h).
  change (getCommand (debugging b h)) with (getCommand h).
  change (error_message (debugging b h)) with (error_message h).
  apply agree_bind; [apply agree_getFileType | intros fileType].
  apply agree_try_catch; [|intros e; unfold addError; agree_step].
  apply agree_bind; [apply agree_getArgs | intros args].
  apply agree_bind; [apply agree_compile | intros _; agree_step].
Qed.

(** X1.  Switching the debug setting changes nothing but the
    [console.info] lines: from the same world, [compileFile] and
    [treeCompile] end with the same result, the same files and tabs, and
    the same calls once the log lines are taken out. *)
Theorem debug_setting_only_logs (h : Host) (b : bool)
    (fileType : option jsstring) (files : list jsstring) (target : jsstring)
    (gdb : bool) (child : Child) (w : World) :
  (fst (compileFile h fileType gdb child w)
   = fst (compileFile (debugging b h) fileType gdb child w)
   /\ same_but_logs (snd (compileFile h fileType gdb child w))
        (snd (compileFile (debugging b h) fileType gdb child w)))
  /\ (fst (treeCompile h files target gdb child w)
      = fst (treeCompile (debugging b h) files target gdb child w)
      /\ same_but_logs (snd (treeCompile h files target gdb child w))
           (snd (treeCompile (debugging b h) files target gdb child w))).
Proof.
  split.
  - apply agree_compileFile, same_but_logs_refl.
  - apply agree_treeCompile, same_but_logs_refl.
Qed.

(** ** The invariant of a compile *)

Lemma evolves_refl (h : Host) (info : PathInfo) (w : World) : evolves h info w w.
Proof. exists []. split; [now rewrite app_nil_r | constructor]. Qed.

Lemma evolves_trans (h : Host) (info : PathInfo) (w1 w2 w3 : World) :
  evolves h info w1 w2 -> evolves h info w2 w3 -> evolves h info w1 w3.
Proof.
  intros (cs & Htr & Hcs) (cs' & Htr' & Hcs').
  exists (cs ++ cs'). split; [now rewrite Htr', Htr, app_assoc|].
  now apply Forall_app.
Qed.

Lemma evolves_calls (h : Host) (info : PathInfo) (w : World) (cs : list call) :
  Forall (allowed h info) cs -> evolves h info w (with_calls w cs).
Proof. intros Hcs. now exists cs. Qed.

Lemma evolves_silent (h : Host) (info : PathInfo) (w w' : World) :
  trace w' = trace w -> evolves h info w w'.
Proof.
  intros Htr. exists []. split; [now rewrite app_nil_r | constructor].
Qed.

Section Keeps.

Variable h : Host.
Variable info : PathInfo.

Local Abbreviation ok := (keeps (evolves h info)).

Lemma keeps_ret {A} (a : A) : ok (ret a).
Proof. intros w. apply evolves_refl. Qed.

Lemma keeps_throw {A} (e : Error) : ok (@throw A e).
Proof. intros w. apply evolves_refl. Qed.

Lemma keeps_bind {A B} (m : M A) (k : A -> M B) :
  ok m -> (forall a, ok (k a)) -> ok (bind m k).
Proof.
  intros Hm Hk w. specialize (Hm w). unfold bind.
  destruct (m w) as [[a|e] w']; cbn [snd] in *; [|exact Hm].
  eapply evolves_trans; [exact Hm | apply Hk].
Qed.

Lemma keeps_try_catch {A} (m : M A) (handler : Error -> M A) :
  ok m -> (forall e, ok (handler e)) -> ok (try_catch m handler).
Proof.
  intros Hm Hh w. specialize (Hm w). unfold try_catch.
  destruct (m w) as [[a|e] w']; cbn [snd] in *; [exact Hm|].
  eapply evolves_trans; [exact Hm | apply Hh].
Qed.

Lemma keeps_unawaited {A} (m : M A) : ok m -> ok (unawaited m).
Proof.
  intros Hm. apply keeps_try_catch.
  - apply keeps_bind; [exact Hm | intros; apply keeps_ret].
  - intros; apply keeps_ret.
Qed.

Lemma keeps_when (b : bool) (m : M unit) : ok m -> ok (when b m).
Proof. destruct b; [easy | intros; apply keeps_ret]. Qed.

Lemma keeps_emit (c : call) : allowed h info c -> ok (emit c).
Proof.
  intros Hc w. rewrite emit_spec. apply evolves_calls. now constructor.
Qed.

Lemma keeps_debug (label : jsstring) : ok (debug h label).
Proof.
  intros w. rewrite debug_spec. apply evolves_calls.
  unfold logged. destruct (debugMode (config h)) eqn:Hd; repeat constructor.
  exact Hd.
Qed.

Lemma keeps_host_call (r : request) : ok (host_call h r).
Proof. unfold host_call. destruct (fault h r); [apply keeps_throw | apply keeps_ret]. Qed.

Lemma keeps_read {A} (k : World -> M A) :
  (forall w, evolves h info w (snd (k w w))) -> ok (bind get_world k).
Proof. intros Hk w. unfold bind, get_world. apply Hk. Qed.

Lemma keeps_getActiveTextEditor : ok getActiveTextEditor.
Proof. intros w. apply evolves_refl. Qed.

Lemma keeps_refocus (c : call) : ok (refocus h c).
Proof. intros w. now apply evolves_silent. Qed.

Lemma keeps_activate (c : call) : allowed h info c -> ok (activate h c).
Proof.
  intros Hc. unfold activate.
  apply keeps_bind; [now apply keeps_emit | intros _; apply keeps_refocus].
Qed.

Lemma keeps_fs_writeFile (text : jsstring) :
  addCompilingErr (config h) = true ->
  ok (fs_writeFile h (errorPath h info) text).
Proof.
  intros Hadd. unfold fs_writeFile.
  apply keeps_bind; [now apply keeps_emit | intros _].
  apply keeps_bind; [apply keeps_host_call | intros _].
  apply keeps_read. intros w. now apply evolves_silent.
Qed.

Lemma keeps_fs_access : ok (fs_access h (errorPath h info)).
Proof.
  unfold fs_access.
  apply keeps_bind; [now apply keeps_emit | intros _].
  apply keeps_bind; [apply keeps_host_call | intros _].
  apply keeps_read. intros w.
  destruct (files w !! errorPath h info); apply evolves_refl.
Qed.

Lemma keeps_fs_unlink : ok (fs_unlink h (errorPath h info)).
Proof.
  unfold fs_unlink.
  apply keeps_bind; [now apply keeps_emit | intros _].
  apply keeps_bind; [apply keeps_host_call | intros _].
  apply keeps_read. intros w.
  destruct (files w !! errorPath h info); [|apply evolves_refl].
  now apply evolves_silent.
Qed.

Lemma keeps_workspace_open (path : jsstring) (split_option : option jsstring) :
  path = errorPath h info \/ path = path_join h (dir info) (base info) ->
  ok (workspace_open h path split_option).
Proof.
  intros Hpath. unfold workspace_open.
  apply keeps_bind; [now apply keeps_emit | intros _].
  apply keeps_bind; [apply keeps_host_call | intros _].
  destruct (opens_nothing h path); [apply keeps_ret|].
  apply keeps_read. intros w. now apply evolves_silent.
Qed.

Lemma keeps_destroy :
  closeErrorTabOnSuccess (config h) = true ->
  ok (destroy h (errorPath h info)).
Proof.
  intros Hclose. unfold destroy.
  apply keeps_bind; [now apply keeps_emit | intros _].
  apply keeps_read. intros w. now apply evolves_silent.
Qed.

Lemma keeps_close_error_tabs (editors : list (option jsstring)) :
  closeErrorTabOnSuccess (config h) = true ->
  ok (close_error_tabs h (errorPath h info) editors).
Proof.
  intros Hclose. induction editors as [|textEditor rest IH]; cbn [close_error_tabs].
  - apply keeps_ret.
  - apply keeps_bind; [|intros _; exact IH].
    destruct (bool_decide (textEditor = Some (errorPath h info)));
      [now apply keeps_destroy | apply keeps_ret].
Qed.

Lemma keeps_spawn (command : option jsstring) (args : list jsstring) :
  ok (spawn command args (dir info)).
Proof.
  unfold spawn. apply keeps_bind; [now apply keeps_emit | intros _].
  destruct command as [[|c cs]|]; first [apply keeps_ret | apply keeps_throw].
Qed.

Lemma keeps_runProgram (gdb : bool) : ok (runProgram h info gdb).
Proof.
  unfold runProgram.
  destruct (str_eq (platform h) (lit "linux")).
  - destruct (linuxTerminalCommand (linuxTerminal (config h)) gdb) as [cmd args].
    apply keeps_bind; [apply keeps_debug | intros _; apply keeps_spawn].
  - destruct (str_eq (platform h) (lit "win32")).
    + apply keeps_bind; [apply keeps_debug | intros _].
      unfold exec. now apply keeps_emit.
    + destruct (str_eq (platform h) (lit "darwin"));
        [apply keeps_spawn | apply keeps_ret].
Qed.

Lemma keeps_on_data (chunks : list (list Z)) (stderr : jsstring) :
  ok (on_data h chunks stderr).
Proof.
  revert stderr. induction chunks as [|data rest IH]; intros stderr; cbn [on_data].
  - apply keeps_ret.
  - apply keeps_bind; [apply keeps_debug | intros _; apply IH].
Qed.

Lemma keeps_bind_with {A B} (P : A -> Prop) (m : M A) (k : A -> M B) :
  ok m -> (forall w a, fst (m w) = Val a -> P a) ->
  (forall a, P a -> ok (k a)) -> ok (bind m k).
Proof.
  intros Hm HP Hk w. specialize (Hm w). specialize (HP w). unfold bind.
  destruct (m w) as [[a|e] w']; cbn [fst snd] in *; [|exact Hm].
  eapply evolves_trans; [exact Hm | apply Hk, HP; reflexivity].
Qed.

Lemma workspace_open_item (path : jsstring) (split_option : option jsstring)
    (w : World) (item : option jsstring) :
  fst (workspace_open h path split_option w) = Val item ->
  item = None \/ item = Some path.
Proof.
  rewrite workspace_open_spec. cbn [fst]. unfold open_result.
  destruct (fault h (ReqOpen path)); [discriminate|].
  destruct (opens_nothing h path); intros [= <-]; tauto.
Qed.

Lemma keeps_on_close (code : option Z) (stderr : jsstring) (gdb : bool) :
  ok (on_close h code stderr info gdb).
Proof.
  unfold on_close.
  apply keeps_bind; [apply keeps_debug | intros _].
  destruct (truthy_code code).
  - apply keeps_bind; [apply keeps_when; now apply keeps_emit | intros _].
    apply keeps_bind; [|intros _; apply keeps_ret].
    destruct (addCompilingErr (config h)) eqn:Hadd; cbn [when]; [|apply keeps_ret].
    apply keeps_try_catch; [|intros e; now apply keeps_emit].
    apply keeps_bind; [now apply keeps_fs_writeFile | intros _].
    apply keeps_bind; [apply keeps_debug | intros _].
    apply (keeps_bind_with
             (fun item => item = None \/ item = Some (errorPath h info))).
    + apply keeps_workspace_open. now left.
    + intros w item. apply workspace_open_item.
    + intros item [->| ->].
      * apply keeps_bind; [apply keeps_ret | intros _].
        apply keeps_bind; [apply keeps_throw | intros _]. now apply keeps_activate.
      * apply keeps_bind.
        { apply keeps_bind; [now apply keeps_emit | intros _].
          apply keeps_bind; [now apply keeps_emit | intros _].
          now apply keeps_emit. }
        intros _. apply keeps_bind; [now apply keeps_activate | intros _].
        now apply keeps_activate.
  - apply keeps_bind; [apply keeps_when; now apply keeps_emit | intros _].
    apply keeps_bind; [|intros _].
    { destruct (runAfterCompile (config h)).
      - apply keeps_unawaited, keeps_runProgram.
      - now apply keeps_emit. }
    apply keeps_bind; [|intros _].
    { destruct (closeErrorTabOnSuccess (config h)) eqn:Hclose; cbn [when];
        [|apply keeps_ret].
      apply keeps_try_catch; [|intros e; apply keeps_debug].
      apply keeps_read. intros w. now apply keeps_close_error_tabs. }
    apply keeps_bind; [|intros _].
    { apply keeps_try_catch; [|intros e; apply keeps_debug].
      apply keeps_bind; [apply keeps_fs_access | intros _].
      apply keeps_bind; [apply keeps_fs_unlink | intros _]. apply keeps_debug. }
    apply keeps_bind; [apply keeps_unawaited, keeps_workspace_open; now right | intros _].
    apply keeps_bind; [now apply keeps_activate | intros _; apply keeps_ret].
Qed.

Lemma keeps_compile (command : option jsstring) (args : list jsstring)
    (gdb : bool) (child : Child) :
  ok (compile h command info args gdb child).
Proof.
  unfold compile.
  apply keeps_bind; [apply keeps_getActiveTextEditor | intros editor].
  apply keeps_bind; [|intros _].
  { destruct editor; [|apply keeps_ret]. unfold editor_save.
    apply keeps_bind; [now apply keeps_emit | intros _; apply keeps_host_call]. }
  apply keeps_bind; [apply keeps_spawn | intros _].
  apply keeps_bind; [apply keeps_on_data | intros stderr].
  apply keeps_try_catch; [apply keeps_on_close | intros _; apply keeps_ret].
Qed.

Lemma keeps_getArgs (files : list jsstring) (output : jsstring)
    (fileType : option jsstring) (extraArgs : option (list jsstring)) :
  ok (getArgs h files output fileType extraArgs).
Proof.
  unfold getArgs. apply keeps_bind; [apply keeps_debug | intros _; apply keeps_ret].
Qed.

Lemma keeps_getFileType (ext : option jsstring) : ok (getFileType h ext).
Proof.
  assert (Hactive : ok
    (bind getActiveTextEditor
       (fun editor : option TextEditor =>
          match editor with
          | Some e => ret (Some (grammar_name (getGrammar e)))
          | None => throw (ReadOfUndefined (lit "getGrammar"))
          end))).
  { apply keeps_bind; [apply keeps_getActiveTextEditor|].
    intros [e|]; [apply keeps_ret | apply keeps_throw]. }
  unfold getFileType.
  destruct ext as [[|c cs]|]; [exact Hactive | apply keeps_ret | exact Hactive].
Qed.

Lemma keeps_treeCompile (files : list jsstring) (target : jsstring) (gdb : bool)
    (child : Child) :
  info = path_parse h target ->
  ok (treeCompile h files target gdb child).
Proof.
  intros Hinfo. unfold treeCompile. rewrite <- Hinfo.
  apply keeps_bind; [apply keeps_getFileType | intros fileType].
  apply keeps_try_catch; [|intros e; now apply keeps_emit].
  apply keeps_bind; [apply keeps_getArgs | intros args].
  apply keeps_bind; [apply keeps_compile | intros _; apply keeps_ret].
Qed.

Lemma keeps_compileFile (fileType : option jsstring) (gdb : bool) (child : Child)
    (w : World) :
  (forall e filePath,
     activeTextEditor w = Some e -> buffer_file e = Some filePath ->
     info = path_parse h filePath) ->
  evolves h info w (snd (compileFile h fileType gdb child w)).
Proof.
  intros Hinfo. unfold compileFile, getFilePath, getActiveTextEditor.
  unfold bind at 1. unfold bind at 1.
  destruct (activeTextEditor w) as [e|] eqn:Ha; [|apply evolves_refl].
  unfold ret at 1. destruct (buffer_file e) as [filePath|] eqn:Hfile.
  - rewrite <- (Hinfo e filePath eq_refl Hfile).
    apply keeps_try_catch; [|intros err; now apply keeps_emit].
    apply keeps_bind; [apply keeps_getArgs | intros args].
    apply keeps_bind; [apply keeps_compile | intros _; apply keeps_ret].
  - now apply keeps_emit.
Qed.

End Keeps.

(** ** The entry points, up to the compiler *)

Lemma getArgs_spec (h : Host) (sources : list jsstring) (info : PathInfo)
    (fileType : option jsstring) (gdb : bool) (w : World) :
  getArgs h sources (getCompiledPath h (dir info) (name info)) fileType
    (if gdb then Some [lit "-g"] else None) w
  = (Val (compiler_args h sources info fileType gdb),
     with_calls w (logged h (lit "compiler args"))).
Proof.
  unfold getArgs, compiler_args. erewrite bind_val by apply debug_spec.
  destruct gdb; reflexivity.
Qed.

Lemma compile_refused (h : Host) (command : option jsstring) (info : PathInfo)
    (args : list jsstring) (gdb : bool) (child : Child) (w : World) :
  fault h ReqSave = None ->
  command = None \/ command = Some [] ->
  compile h command info args gdb child w
  = (Exn InvalidFileArgument,
     with_calls w (saved w ++ [Spawn command args (dir info)])).
Proof.
  intros Hsave Hcommand. rewrite compile_front by assumption.
  erewrite bind_exn.
  2:{ unfold spawn. erewrite bind_val by apply emit_spec.
      destruct Hcommand as [-> | ->]; reflexivity. }
  now rewrite with_calls_app.
Qed.

Lemma compile_save_fails (h : Host) (command : option jsstring) (info : PathInfo)
    (args : list jsstring) (gdb : bool) (child : Child) (w : World)
    (editor : TextEditor) (e : Error) :
  activeTextEditor w = Some editor ->
  fault h ReqSave = Some e ->
  compile h command info args gdb child w = (Exn e, with_calls w [Save]).
Proof.
  intros Ha Hsave. unfold compile, getActiveTextEditor.
  unfold bind at 1. rewrite Ha.
  erewrite bind_exn; [reflexivity|].
  unfold editor_save. erewrite bind_val by apply emit_spec.
  unfold host_call. now rewrite Hsave.
Qed.

(** Whatever the command and the child, a compile whose save went through
    calls [spawn] next, once, with the command and arguments it was given. *)
Lemma compile_reaches_spawn (h : Host) (command : option jsstring)
    (info : PathInfo) (args : list jsstring) (gdb : bool) (child : Child)
    (w : World) :
  fault h ReqSave = None ->
  exists rest,
    trace (snd (compile h command info args gdb child w))
    = trace w ++ saved w ++ [Spawn command args (dir info)] ++ rest.
Proof.
  intros Hsave. destruct command as [[|c cs]|].
  - exists []. rewrite compile_refused by tauto. cbn [snd trace with_calls].
    now rewrite app_nil_r.
  - destruct (truthy_code (exit_code child)) eqn:Hcode.
    + rewrite compile_failure by assumption. cbn [snd].
      autorewrite with world. unfold started_calls. rewrite <- !app_assoc.
      eexists. reflexivity.
    + rewrite compile_success by assumption. cbn [snd].
      autorewrite with world. unfold started_calls. rewrite <- !app_assoc.
      eexists. reflexivity.
  - exists []. rewrite compile_refused by tauto. cbn [snd trace with_calls].
    now rewrite app_nil_r.
Qed.

Lemma filter_failure_calls_process (h : Host) (stderr : jsstring) (info : PathInfo) :
  List.filter is_process (failure_calls h stderr info) = [].
Proof.
  apply filter_none.
  unfold failure_calls, error_notification, artifact_calls, logged, open_result.
  destruct (debugMode (config h)), (showErrorNotifications (config h)),
           (addCompilingErr (config h)),
           (fault h (ReqWriteFile (errorPath h info))),
           (fault h (ReqOpen (errorPath h info))),
           (opens_nothing h (errorPath h info));
    cbn [app]; repeat constructor.
Qed.

Lemma launch_calls_one_process (h : Host) (info : PathInfo) (gdb : bool) :
  (length (List.filter is_process (launch_calls h info gdb)) <= 1)%nat.
Proof.
  unfold launch_calls.
  destruct (str_eq (platform h) (lit "linux")) eqn:Hlinux;
    [|destruct (str_eq (platform h) (lit "win32")) eqn:Hwin;
      [|destruct (str_eq (platform h) (lit "darwin")) eqn:Hmac]].
  - apply bool_decide_eq_true_1 in Hlinux. rewrite runProgram_linux by assumption.
    cbn [snd trace with_calls no_editor_world app].
    rewrite List.filter_app, filter_logged by reflexivity. cbn. lia.
  - apply bool_decide_eq_true_1 in Hwin. rewrite runProgram_windows by assumption.
    cbn [snd trace with_calls no_editor_world app].
    rewrite List.filter_app, filter_logged by reflexivity. cbn. lia.
  - apply bool_decide_eq_true_1 in Hmac. rewrite runProgram_darwin by assumption.
    cbn. lia.
  - unfold runProgram. rewrite Hlinux, Hwin, Hmac. cbn. lia.
Qed.

(** A compile whose save went through calls [spawn] with the command and
    arguments it was given, once; the only process started afterwards is
    the program, by [runProgram]. *)
Lemma compile_compiler_once (h : Host) (command : option jsstring)
    (info : PathInfo) (args : list jsstring) (gdb : bool) (child : Child)
    (w : World) :
  fault h ReqSave = None ->
  exists rest,
    trace (snd (compile h command info args gdb child w))
    = trace w ++ saved w ++ [Spawn command args (dir info)] ++ rest
    /\ List.filter is_process rest
       = (if runs_program h command child
          then List.filter is_process (launch_calls h info gdb)
          else []).
Proof.
  intros Hsave.
  assert (Hrefused : command = None \/ command = Some [] ->
            exists rest,
              trace (snd (compile h command info args gdb child w))
              = trace w ++ saved w ++ [Spawn command args (dir info)] ++ rest
              /\ List.filter is_process rest
                 = (if runs_program h command child
                    then List.filter is_process (launch_calls h info gdb)
                    else [])).
  { intros Hcommand. exists []. rewrite compile_refused by assumption.
    cbn [snd trace with_calls]. rewrite app_nil_r. split; [reflexivity|].
    destruct Hcommand as [-> | ->]; reflexivity. }
  destruct command as [[|c cs]|]; [apply Hrefused; tauto| |apply Hrefused; tauto].
  unfold runs_program. destruct (truthy_code (exit_code child)) eqn:Hcode.
  - rewrite compile_failure by assumption. cbn [snd negb andb].
    autorewrite with world. unfold started_calls. rewrite <- !app_assoc.
    eexists. split; [reflexivity|].
    rewrite List.filter_app, filter_data_logs by reflexivity.
    apply filter_failure_calls_process.
  - rewrite compile_success by assumption. cbn [snd negb andb].
    autorewrite with world. unfold started_calls. rewrite <- !app_assoc.
    eexists. split; [reflexivity|].
    unfold success_calls. rewrite !List.filter_app.
    rewrite filter_data_logs, filter_logged, filter_warning,
      filter_closing_calls, filter_cleanup_calls by
        (try reflexivity; intros []; try reflexivity; discriminate).
    destruct (runAfterCompile (config h)); cbn [List.filter is_process app];
      now rewrite ?app_nil_r.
Qed.

Lemma compileFile_body (h : Host) (fileType : option jsstring) (gdb : bool)
    (child : Child) (w : World) (editor : TextEditor) (filePath : jsstring) :
  activeTextEditor w = Some editor ->
  buffer_file editor = Some filePath ->
  compileFile h fileType gdb child w
  = try_catch
      (compile h (getCommand h fileType) (path_parse h filePath)
         (compiler_args h [filePath] (path_parse h filePath) fileType gdb)
         gdb child >> ret tt)
      (fun error =>
         addError (lit "<strong>Error:</strong><br/>" ++ error_message h error))
      (with_calls w (logged h (lit "compiler args"))).
Proof.
  intros Ha Hfile. unfold compileFile, getFilePath, getActiveTextEditor.
  unfold bind at 1. unfold bind at 1. rewrite Ha. unfold ret at 1. rewrite Hfile.
  unfold try_catch. erewrite bind_val by apply getArgs_spec. reflexivity.
Qed.

Lemma treeCompile_body (h : Host) (files : list jsstring) (target : jsstring)
    (gdb : bool) (child : Child) (w : World) (fileType : option jsstring) :
  getFileType h (Some (ext (path_parse h target))) w = (Val fileType, w) ->
  treeCompile h files target gdb child w
  = try_catch
      (compile h (getCommand h fileType) (path_parse h target)
         (compiler_args h files (path_parse h target) fileType gdb)
         gdb child >> ret tt)
      (fun error =>
         addError (lit "<strong>Error:</strong><br/>" ++ error_message h error))
      (with_calls w (logged h (lit "compiler args"))).
Proof.
  intros Htype. unfold treeCompile. erewrite bind_val by exact Htype.
  unfold try_catch. erewrite bind_val by apply getArgs_spec. reflexivity.
Qed.

(** The tail of both entry points: [compile] under the [try], its rejection
    turned into a notification. *)
Lemma guarded_compile_ok (h : Host) (command : option jsstring) (info : PathInfo)
    (args : list jsstring) (gdb : bool) (child : Child) (w w' : World)
    (s : settled) :
  compile h command info args gdb child w = (Val s, w') ->
  try_catch (compile h command info args gdb child >> ret tt)
    (fun error =>
       addError (lit "<strong>Error:</strong><br/>" ++ error_message h error)) w
  = (Val tt, w').
Proof.
  intros Hrun. erewrite try_catch_val; [reflexivity|].
  erewrite bind_val by exact Hrun. reflexivity.
Qed.

Lemma guarded_compile_rejected (h : Host) (command : option jsstring)
    (info : PathInfo) (args : list jsstring) (gdb : bool) (child : Child)
    (w w' : World) (e : Error) :
  compile h command info args gdb child w = (Exn e, w') ->
  try_catch (compile h command info args gdb child >> ret tt)
    (fun error =>
       addError (lit "<strong>Error:</strong><br/>" ++ error_message h error)) w
  = (Val tt,
     with_calls w'
       [Notify Error_ (lit "<strong>Error:</strong><br/>" ++ error_message h e)]).
Proof.
  intros Hrun. erewrite try_catch_exn; [reflexivity|].
  erewrite bind_exn by exact Hrun. reflexivity.
Qed.

(** The same under the [try] of the entry points: the notification of a
    rejection starts no process. *)
Lemma guarded_compile_once (h : Host) (command : option jsstring)
    (info : PathInfo) (args : list jsstring) (gdb : bool) (child : Child)
    (w : World) :
  fault h ReqSave = None ->
  exists rest,
    trace
      (snd (try_catch (compile h command info args gdb child >> ret tt)
              (fun error =>
                 addError (lit "<strong>Error:</strong><br/>"
                             ++ error_message h error)) w))
    = trace w ++ saved w ++ [Spawn command args (dir info)] ++ rest
    /\ List.filter is_process rest
       = (if runs_program h command child
          then List.filter is_process (launch_calls h info gdb)
          else []).
Proof.
  intros Hsave.
  destruct (compile_compiler_once h command info args gdb child w Hsave)
    as (rest & Htrace & Hrest).
  destruct (compile h command info args gdb child w) as [[s|e] w'] eqn:Hrun;
    cbn [snd] in Htrace.
  - erewrite guarded_compile_ok by exact Hrun. cbn [snd].
    exists rest. split; [exact Htrace | exact Hrest].
  - erewrite guarded_compile_rejected by exact Hrun. cbn [snd trace with_calls].
    exists (rest ++ [Notify Error_
                       (lit "<strong>Error:</strong><br/>" ++ error_message h e)]).
    split.
    + rewrite Htrace, <- !app_assoc. reflexivity.
    + rewrite List.filter_app, Hrest. cbn [List.filter is_process].
      apply app_nil_r.
Qed.

(** ** Errors before the compiler runs *)

(** X2.  When saving the active editor fails, [compileFile] of a saved file
    ends after [editor.save()]: it shows one error notification, made of
    the error's message, and starts no process. *)
Theorem save_failure_is_reported (h : Host) (fileType : option jsstring)
    (gdb : bool) (child : Child) (w : World) (editor : TextEditor)
    (filePath : jsstring) (e : Error) :
  activeTextEditor w = Some editor ->
  buffer_file editor = Some filePath ->
  fault h ReqSave = Some e ->
  compileFile h fileType gdb child w
  = (Val tt,
     with_calls w
       (logged h (lit "compiler args")
        ++ [Save;
            Notify Error_
              (lit "<strong>Error:</strong><br/>" ++ error_message h e)])).
Proof.
  intros Ha Hfile Hsave.
  rewrite (compileFile_body h fileType gdb child w editor filePath Ha Hfile).
  erewrite guarded_compile_rejected
    by (eapply compile_save_fails; [exact Ha | exact Hsave]).
  now rewrite !with_calls_app.
Qed.

Lemma save_failure_is_reported_witness :
  activeTextEditor demo_world = Some demo_editor
  /\ buffer_file demo_editor = Some (lit "/home/u/main.c")
  /\ fault failing_save_host ReqSave = Some (HostError (lit "EACCES: permission denied"))
  /\ compileFile failing_save_host (Some (lit "C")) false
       {| stderr_chunks := []; exit_code := Some 0 |} demo_world
     = (Val tt,
        with_calls demo_world
          [Save;
           Notify Error_
             (lit "<strong>Error:</strong><br/>EACCES: permission denied")]).
Proof.
  split; [reflexivity|]. split; [reflexivity|]. split; [reflexivity|].
  exact (save_failure_is_reported failing_save_host (Some (lit "C")) false
           {| stderr_chunks := []; exit_code := Some 0 |} demo_world demo_editor
           (lit "/home/u/main.c") (HostError (lit "EACCES: permission denied"))
           eq_refl eq_refl eq_refl).
Defined.

(** X3.  When there is no compiler for the file type ([getCommand] returns
    nothing) or the compiler setting is the empty string, [compileFile] of
    a saved file saves, calls [spawn] with that command, and reports the
    exception of the call in one error notification; no process runs and
    the compile's handlers are never reached. *)
Theorem missing_compiler_is_reported (h : Host) (fileType : option jsstring)
    (gdb : bool) (child : Child) (w : World) (editor : TextEditor)
    (filePath : jsstring) :
  activeTextEditor w = Some editor ->
  buffer_file editor = Some filePath ->
  fault h ReqSave = None ->
  getCommand h fileType = None \/ getCommand h fileType = Some [] ->
  compileFile h fileType gdb child w
  = (Val tt,
     with_calls w
       (logged h (lit "compiler args")
        ++ [Save;
            Spawn (getCommand h fileType)
              (compiler_args h [filePath] (path_parse h filePath) fileType gdb)
              (dir (path_parse h filePath));
            Notify Error_
              (lit "<strong>Error:</strong><br/>"
                 ++ error_message h InvalidFileArgument)])).
Proof.
  intros Ha Hfile Hsave Hcommand.
  rewrite (compileFile_body h fileType gdb child w editor filePath Ha Hfile).
  erewrite guarded_compile_rejected by (now apply compile_refused).
  unfold saved. cbn [activeTextEditor with_calls]. rewrite Ha.
  rewrite !with_calls_app. reflexivity.
Qed.

Lemma missing_compiler_is_reported_witness :
  activeTextEditor demo_world = Some demo_editor
  /\ buffer_file demo_editor = Some (lit "/home/u/main.c")
  /\ fault (demo_host "linux" demo_config) ReqSave = None
  /\ compileFile (demo_host "linux" demo_config) (Some (lit "Rust")) false
       {| stderr_chunks := []; exit_code := Some 0 |} demo_world
     = (Val tt,
        with_calls demo_world
          [Save;
           Spawn None
             [lit "/home/u/main.c"; lit "-o"; lit "/tmp/main"; lit "-O2"; lit "-Wall"]
             (lit "/home/u");
           Notify Error_ (lit "<strong>Error:</strong><br/>failed")]).
Proof.
  split; [reflexivity|]. split; [reflexivity|]. split; [reflexivity|].
  exact (missing_compiler_is_reported (demo_host "linux" demo_config)
           (Some (lit "Rust")) false
           {| stderr_chunks := []; exit_code := Some 0 |} demo_world demo_editor
           (lit "/home/u/main.c") eq_refl eq_refl eq_refl (or_introl eq_refl)).
Defined.

(** ** Outcomes of a compile that started *)

(** X4.  A compiler ended by a signal ([close] with code [null]) is handled
    as one that exited with code zero: the compile makes the same calls,
    leaves the same world and resolves, so the program is launched or the
    success notification shown. *)
Theorem signal_exit_counts_as_success (h : Host) (c : Z) (cs : jsstring)
    (info : PathInfo) (args : list jsstring) (gdb : bool)
    (chunks : list (list Z)) (w : World) :
  fault h ReqSave = None ->
  compile h (Some (c :: cs)) info args gdb
    {| stderr_chunks := chunks; exit_code := None |} w
  = compile h (Some (c :: cs)) info args gdb
      {| stderr_chunks := chunks; exit_code := Some 0 |} w
  /\ fst (compile h (Some (c :: cs)) info args gdb
            {| stderr_chunks := chunks; exit_code := None |} w)
     = Val Resolved
  /\ (runAfterCompile (config h) = false ->
      In (Notify Success_ (lit "Compilation Successful"))
        (trace (snd (compile h (Some (c :: cs)) info args gdb
                       {| stderr_chunks := chunks; exit_code := None |} w)))).
Proof.
  intros Hsave. rewrite !compile_success by (assumption || reflexivity).
  split; [reflexivity|]. split; [reflexivity|].
  intros Hrun. cbn [snd]. autorewrite with world. unfold success_calls.
  rewrite Hrun, !in_app_iff. right. right. right. right. left. now left.
Qed.

Lemma signal_exit_counts_as_success_witness :
  fault (demo_host "linux" demo_config) ReqSave = None
  /\ fst (compile (demo_host "linux" demo_config) (Some (lit "gcc")) demo_info
            [lit "/home/u/main.c"; lit "-o"; lit "/tmp/main"] false
            {| stderr_chunks := []; exit_code := None |} demo_world)
     = Val Resolved.
Proof.
  split; [reflexivity|].
  exact (proj1 (proj2 (signal_exit_counts_as_success (demo_host "linux" demo_config)
                         103 (lit "cc") demo_info
                         [lit "/home/u/main.c"; lit "-o"; lit "/tmp/main"] false
                         [] demo_world eq_refl))).
Defined.

(** X5.  A compile that started and exited with a code other than zero never
    launches the program: after the compiler's own start its calls hold no
    process start, no success notification, no [access] or [unlink] and no
    closing of a tab, and its promise stays pending. *)
Theorem failed_compile_never_launches (h : Host) (c : Z) (cs : jsstring)
    (info : PathInfo) (args : list jsstring) (gdb : bool) (child : Child)
    (w : World) :
  fault h ReqSave = None ->
  truthy_code (exit_code child) = true ->
  exists (w' : World) (added : list call),
    compile h (Some (c :: cs)) info args gdb child w = (Val Pending, w')
    /\ trace w' = trace w ++ started_calls h (c :: cs) info args child w ++ added
    /\ List.filter is_process added = []
    /\ List.filter is_success added = []
    /\ List.filter is_deletion added = []
    /\ (forall path, ~ In (Destroy path) added).
Proof.
  intros Hsave Hcode.
  exists (snd (compile h (Some (c :: cs)) info args gdb child w)),
         (failure_calls h (stderr_text child) info).
  rewrite compile_failure by assumption. cbn [snd]. autorewrite with world.
  split; [reflexivity|]. split; [reflexivity|].
  assert (Hkind : Forall
            (fun c => is_process c = false /\ is_success c = false
                      /\ is_deletion c = false /\ forall path, c <> Destroy path)
            (failure_calls h (stderr_text child) info)).
  { unfold failure_calls, error_notification, artifact_calls, logged, open_result.
    destruct (debugMode (config h)), (showErrorNotifications (config h)),
             (addCompilingErr (config h)),
             (fault h (ReqWriteFile (errorPath h info))),
             (fault h (ReqOpen (errorPath h info))),
             (opens_nothing h (errorPath h info));
      cbn [app]; repeat constructor; discriminate. }
  repeat split.
  - apply filter_none. eapply Forall_impl; [exact Hkind|]. cbn. tauto.
  - apply filter_none. eapply Forall_impl; [exact Hkind|]. cbn. tauto.
  - apply filter_none. eapply Forall_impl; [exact Hkind|]. cbn. tauto.
  - intros path Hin. rewrite List.Forall_forall in Hkind.
    destruct (Hkind _ Hin) as (_ & _ & _ & Hne). now apply (Hne path).
Qed.

Lemma failed_compile_never_launches_witness :
  fault (demo_host "linux" demo_config) ReqSave = None
  /\ truthy_code (Some 2) = true
  /\ exists w' : World,
       compile (demo_host "linux" demo_config) (Some (lit "gcc")) demo_info
         [lit "/home/u/main.c"; lit "-o"; lit "/tmp/main"] false
         {| stderr_chunks := []; exit_code := Some 2 |} demo_world
       = (Val Pending, w').
Proof.
  split; [reflexivity|]. split; [reflexivity|].
  destruct (failed_compile_never_launches (demo_host "linux" demo_config)
              103 (lit "cc") demo_info
              [lit "/home/u/main.c"; lit "-o"; lit "/tmp/main"] false
              {| stderr_chunks := []; exit_code := Some 2 |} demo_world
              eq_refl eq_refl) as (w' & added & Hrun & _).
  exists w'. exact Hrun.
Defined.

(** X6.  With both the error notification and the diagnostics file switched
    off, a failed compile leaves no sign: after the compiler's start it
    makes no call but the debug log, and files and tabs are as before. *)
Theorem failed_compile_can_be_silent (h : Host) (c : Z) (cs : jsstring)
    (info : PathInfo) (args : list jsstring) (gdb : bool) (child : Child)
    (w : World) :
  fault h ReqSave = None ->
  truthy_code (exit_code child) = true ->
  showErrorNotifications (config h) = false ->
  addCompilingErr (config h) = false ->
  compile h (Some (c :: cs)) info args gdb child w
  = (Val Pending,
     with_calls w
       (started_calls h (c :: cs) info args child w ++ logged h (lit "exit code"))).
Proof.
  intros Hsave Hcode Hshow Hadd. rewrite compile_failure by assumption.
  unfold failure_calls, files_after_failure, tabs_after_failure,
    active_after_failure, writes, error_notification.
  rewrite Hshow, Hadd. cbn [andb app]. autorewrite with world.
  now rewrite app_nil_r.
Qed.

Lemma failed_compile_can_be_silent_witness :
  fault (demo_host "linux" (with_error_settings false false demo_config)) ReqSave = None
  /\ truthy_code (Some 1) = true
  /\ showErrorNotifications (config (demo_host "linux" (with_error_settings false false demo_config))) = false
  /\ addCompilingErr (config (demo_host "linux" (with_error_settings false false demo_config))) = false
  /\ compile (demo_host "linux" (with_error_settings false false demo_config))
       (Some (lit "gcc")) demo_info
       [lit "/home/u/main.c"; lit "-o"; lit "/tmp/main"] false
       {| stderr_chunks := [[101; 114; 114]]; exit_code := Some 1 |} demo_world
     = (Val Pending,
        with_calls demo_world
          [Save;
           Spawn (Some (lit "gcc"))
             [lit "/home/u/main.c"; lit "-o"; lit "/tmp/main"] (lit "/home/u")]).
Proof.
  split; [reflexivity|]. split; [reflexivity|]. split; [reflexivity|].
  split; [reflexivity|].
  exact (failed_compile_can_be_silent
           (demo_host "linux" (with_error_settings false false demo_config))
           103 (lit "cc") demo_info
           [lit "/home/u/main.c"; lit "-o"; lit "/tmp/main"] false
           {| stderr_chunks := [[101; 114; 114]]; exit_code := Some 1 |} demo_world
           eq_refl eq_refl eq_refl eq_refl).
Defined.

(** X7.  The notifications of a compile that started and exited with code
    zero are: the warning, when [stderr] was not empty and warnings are
    shown, with every line feed of the text replaced; then the success
    notification, when the program is not to be run.  There is never an
    error notification. *)
Theorem success_notifications (h : Host) (c : Z) (cs : jsstring)
    (info : PathInfo) (args : list jsstring) (gdb : bool) (child : Child)
    (w : World) :
  fault h ReqSave = None ->
  truthy_code (exit_code child) = false ->
  exists (w' : World) (added : list call),
    compile h (Some (c :: cs)) info args gdb child w = (Val Resolved, w')
    /\ trace w' = trace w ++ added
    /\ notifications added
       = (if Boolean (stderr_text child) && showWarnings (config h)
          then [Notify Warning_ (replace_newlines (lit "<br/>") (stderr_text child))]
          else [])
         ++ (if runAfterCompile (config h) then []
             else [Notify Success_ (lit "Compilation Successful")])
    /\ 10 ∉ replace_newlines (lit "<br/>") (stderr_text child).
Proof.
  intros Hsave Hcode.
  eexists _, _. split; [now apply compile_success|].
  autorewrite with world. split; [reflexivity|]. split.
  - unfold notifications, success_calls. rewrite !List.filter_app.
    rewrite filter_started_calls, filter_logged, filter_closing_calls,
      filter_cleanup_calls by
        (try reflexivity; intros []; try reflexivity; discriminate).
    cbn [List.filter is_notification app]. rewrite app_nil_r.
    f_equal.
    + unfold warning_notification.
      destruct (Boolean (stderr_text child) && showWarnings (config h)); reflexivity.
    + destruct (runAfterCompile (config h)); [|reflexivity].
      apply filter_launch_calls. intros []; try reflexivity; discriminate.
  - unfold replace_newlines.
    induction (stderr_text child) as [|u s IH]; [apply not_elem_of_nil|].
    cbn [List.flat_map]. rewrite elem_of_app. intros [Hin|Hin]; [|now apply IH].
    destruct (Z.eqb_spec u 10) as [->|Hne].
    + revert Hin. apply (bool_decide_unpack _). vm_compute. exact I.
    + apply list_elem_of_singleton in Hin. congruence.
Qed.

Lemma success_notifications_witness :
  fault (demo_host "linux" demo_config) ReqSave = None
  /\ truthy_code (Some 0) = false
  /\ exists (w' : World) (added : list call),
       compile (demo_host "linux" demo_config) (Some (lit "gcc")) demo_info
         [lit "/home/u/main.c"; lit "-o"; lit "/tmp/main"] false
         {| stderr_chunks := [[119; 10; 120]]; exit_code := Some 0 |} demo_world
       = (Val Resolved, w')
       /\ trace w' = trace demo_world ++ added
       /\ notifications added = [Notify Warning_ (lit "w<br/>x")].
Proof.
  split; [reflexivity|]. split; [reflexivity|].
  destruct (success_notifications (demo_host "linux" demo_config)
              103 (lit "cc") demo_info
              [lit "/home/u/main.c"; lit "-o"; lit "/tmp/main"] false
              {| stderr_chunks := [[119; 10; 120]]; exit_code := Some 0 |}
              demo_world eq_refl eq_refl)
    as (w' & added & Hrun & Htrace & Hnotes & _).
  exists w', added. split; [exact Hrun|]. split; [exact Htrace | exact Hnotes].
Defined.

(** X8.  On a platform other than Linux, Windows and macOS [runProgram]
    does nothing; so there a successful compile with run-after-compile set
    starts no process but the compiler and shows no success notification
    either. *)
Theorem unsupported_platform_is_silent (h : Host) (c : Z) (cs : jsstring)
    (info : PathInfo) (args : list jsstring) (gdb : bool) (child : Child)
    (w : World) :
  platform h <> lit "linux" ->
  platform h <> lit "win32" ->
  platform h <> lit "darwin" ->
  fault h ReqSave = None ->
  truthy_code (exit_code child) = false ->
  runAfterCompile (config h) = true ->
  runProgram h info gdb w = (Val tt, w)
  /\ exists (w' : World) (added : list call),
       compile h (Some (c :: cs)) info args gdb child w = (Val Resolved, w')
       /\ trace w' = trace w ++ added
       /\ List.filter is_process added = [Spawn (Some (c :: cs)) args (dir info)]
       /\ List.filter is_success added = [].
Proof.
  intros Hlinux Hwin Hmac Hsave Hcode Hrun.
  assert (Hnone : forall w0, runProgram h info gdb w0 = (Val tt, w0)).
  { intros w0. unfold runProgram, str_eq.
    now rewrite !bool_decide_eq_false_2 by assumption. }
  split; [apply Hnone|].
  assert (Hlaunch : launch_calls h info gdb = []).
  { unfold launch_calls. now rewrite Hnone. }
  eexists _, _. split; [now apply compile_success|].
  autorewrite with world. split; [reflexivity|].
  unfold success_calls. rewrite Hrun, Hlaunch. cbn [app].
  split.
  - rewrite !List.filter_app.
    rewrite filter_started_calls, filter_logged, filter_warning,
      filter_closing_calls, filter_cleanup_calls by
        (try reflexivity; intros []; try reflexivity; discriminate).
    reflexivity.
  - rewrite !List.filter_app.
    rewrite filter_started_calls, filter_logged, filter_warning,
      filter_closing_calls, filter_cleanup_calls by
        (try reflexivity; intros []; try reflexivity; discriminate).
    reflexivity.
Qed.

Lemma unsupported_platform_is_silent_witness :
  platform (demo_host "freebsd" demo_config) <> lit "linux"
  /\ platform (demo_host "freebsd" demo_config) <> lit "win32"
  /\ platform (demo_host "freebsd" demo_config) <> lit "darwin"
  /\ runProgram (demo_host "freebsd" demo_config) demo_info false demo_world
     = (Val tt, demo_world).
Proof.
  assert (H1 : platform (demo_host "freebsd" demo_config) <> lit "linux")
    by discriminate.
  assert (H2 : platform (demo_host "freebsd" demo_config) <> lit "win32")
    by discriminate.
  assert (H3 : platform (demo_host "freebsd" demo_config) <> lit "darwin")
    by discriminate.
  split; [exact H1|]. split; [exact H2|]. split; [exact H3|].
  exact (proj1 (unsupported_platform_is_silent (demo_host "freebsd" demo_config)
                  103 (lit "cc") demo_info
                  [lit "/home/u/main.c"; lit "-o"; lit "/tmp/main"] false
                  {| stderr_chunks := []; exit_code := Some 0 |} demo_world
                  H1 H2 H3 eq_refl eq_refl eq_refl)).
Defined.

(** ** The file type *)

Lemma existsb_declares (g : Grammar) (ext : jsstring) :
  existsb (fun fileType => str_eq ext (lit "." ++ fileType)) (fileTypes g) = true
  <-> declares g ext.
Proof.
  rewrite List.existsb_exists. unfold declares, str_eq. split.
  - intros (ft & Hin & Heq). exists ft. split; [now apply list_elem_of_In|].
    now apply bool_decide_eq_true_1 in Heq.
  - intros (ft & Hin & Heq). exists ft. split; [now apply list_elem_of_In|].
    now apply bool_decide_eq_true_2.
Qed.

(** X9.  For an extension that is not empty, [getFileType] reads nothing
    but the grammar registry and leaves the world alone.  Its result is
    absent exactly when no grammar declares the extension; otherwise it is
    the name of the first grammar in registry order that declares it. *)
Theorem getFileType_first_grammar (h : Host) (c : Z) (cs : jsstring) (w : World) :
  exists fileType : option jsstring,
    getFileType h (Some (c :: cs)) w = (Val fileType, w)
    /\ (fileType = None <->
        forall g, g ∈ grammars h -> ~ declares g (c :: cs))
    /\ (forall before g after,
          grammars h = before ++ g :: after ->
          declares g (c :: cs) ->
          (forall g', g' ∈ before -> ~ declares g' (c :: cs)) ->
          fileType = Some (grammar_name g)).
Proof.
  eexists. split; [reflexivity|]. split.
  - destruct (List.find _ (grammars h)) as [g|] eqn:Hfind; cbn [fmap option_fmap option_map].
    + split; [discriminate|]. intros Hnone. exfalso.
      apply List.find_some in Hfind. destruct Hfind as [Hin Hg].
      apply (Hnone g); [now apply list_elem_of_In | now apply existsb_declares].
    + split; [|reflexivity]. intros _ g Hin Hg.
      apply list_elem_of_In in Hin.
      pose proof (List.find_none _ _ Hfind g Hin) as Hno. cbn beta in Hno.
      apply existsb_declares in Hg. congruence.
  - intros before g after Hsplit Hg Hbefore. rewrite Hsplit.
    clear Hsplit. induction before as [|g' before IH]; cbn [app List.find].
    + apply existsb_declares in Hg. now rewrite Hg.
    + match goal with
      | |- context [existsb ?f (fileTypes g')] =>
          destruct (existsb f (fileTypes g')) eqn:Hg'
      end.
      * exfalso. apply (Hbefore g'); [apply list_elem_of_here|].
        now apply existsb_declares.
      * apply IH. intros g'' Hin. apply Hbefore. now apply list_elem_of_further.
Qed.

(** ** The tree view *)

Lemma getFileType_no_extension (h : Host) (ext : option jsstring) (w : World) :
  ext = None \/ ext = Some [] ->
  getFileType h ext w
  = match activeTextEditor w with
    | Some e => (Val (Some (grammar_name (getGrammar e))), w)
    | None => (Exn (ReadOfUndefined (lit "getGrammar")), w)
    end.
Proof.
  intros [-> | ->]; unfold getFileType, getActiveTextEditor, bind;
    destruct (activeTextEditor w); reflexivity.
Qed.

Lemma treeCompile_spawn (h : Host) (files : list jsstring) (target : jsstring)
    (gdb : bool) (child : Child) (w : World) (fileType : option jsstring) :
  getFileType h (Some (ext (path_parse h target))) w = (Val fileType, w) ->
  fault h ReqSave = None ->
  exists rest,
    trace (snd (treeCompile h files target gdb child w))
    = trace w
        ++ logged h (lit "compiler args")
        ++ saved w
        ++ [Spawn (getCommand h fileType)
              (compiler_args h files (path_parse h target) fileType gdb)
              (dir (path_parse h target))]
        ++ rest.
Proof.
  intros Htype Hsave. rewrite (treeCompile_body _ _ _ _ _ _ _ Htype).
  destruct (compile_reaches_spawn h (getCommand h fileType) (path_parse h target)
              (compiler_args h files (path_parse h target) fileType gdb) gdb child
              (with_calls w (logged h (lit "compiler args"))) Hsave)
    as (rest & Hrest).
  destruct (compile h (getCommand h fileType) (path_parse h target)
              (compiler_args h files (path_parse h target) fileType gdb) gdb child
              (with_calls w (logged h (lit "compiler args"))))
    as [[s|e] w'] eqn:Hrun; cbn [snd] in Hrest.
  - erewrite guarded_compile_ok by exact Hrun. cbn [snd].
    exists rest. rewrite Hrest. cbn [trace with_calls]. unfold saved.
    cbn [activeTextEditor with_calls]. now rewrite <- !app_assoc.
  - erewrite guarded_compile_rejected by exact Hrun. cbn [snd trace with_calls].
    eexists. rewrite Hrest. cbn [trace with_calls]. unfold saved.
    cbn [activeTextEditor with_calls]. rewrite <- !app_assoc. reflexivity.
Qed.

(** X10.  [treeCompile] makes one compiler call for the whole selection: it
    saves the active editor if there is one and then calls [spawn] with the
    command of the clicked entry's file type, the debug flag if asked for,
    every selected path in selection order (none, when the selection is
    empty), [-o] with an output named after the clicked entry, and the
    flags of that file type, in the clicked entry's directory.  No process
    is started before that call, and the only ones started after it are
    those of [runProgram], at most one, when the compiler was started,
    ended with success and the program is to be run: the compiler is never
    started twice. *)
Theorem treeCompile_one_compiler_call (h : Host) (files : list jsstring)
    (target : jsstring) (gdb : bool) (child : Child) (w : World)
    (fileType : option jsstring) :
  getFileType h (Some (ext (path_parse h target))) w = (Val fileType, w) ->
  fault h ReqSave = None ->
  exists rest,
    trace (snd (treeCompile h files target gdb child w))
    = trace w
        ++ logged h (lit "compiler args")
        ++ saved w
        ++ [Spawn (getCommand h fileType)
              ((if gdb then [lit "-g"] else [])
                 ++ files
                 ++ [lit "-o";
                     getCompiledPath h (dir (path_parse h target))
                       (name (path_parse h target))]
                 ++ List.filter Boolean (split SPACE (compilerOptions h fileType)))
              (dir (path_parse h target))]
        ++ rest
    /\ List.filter is_process (logged h (lit "compiler args") ++ saved w) = []
    /\ List.filter is_process rest
       = (if runs_program h (getCommand h fileType) child
          then List.filter is_process (launch_calls h (path_parse h target) gdb)
          else [])
    /\ (length (List.filter is_process (launch_calls h (path_parse h target) gdb))
        <= 1)%nat.
Proof.
  intros Htype Hsave. rewrite (treeCompile_body _ _ _ _ _ _ _ Htype).
  destruct (guarded_compile_once h (getCommand h fileType) (path_parse h target)
              (compiler_args h files (path_parse h target) fileType gdb) gdb child
              (with_calls w (logged h (lit "compiler args"))) Hsave)
    as (rest & Htrace & Hrest).
  exists rest. split; [|split; [|split]].
  - rewrite Htrace. cbn [trace with_calls]. unfold saved.
    cbn [activeTextEditor with_calls]. unfold compiler_args.
    now rewrite <- !app_assoc.
  - now rewrite List.filter_app, filter_logged, filter_saved by reflexivity.
  - exact Hrest.
  - apply launch_calls_one_process.
Qed.

Lemma treeCompile_one_compiler_call_witness :
  getFileType (demo_host "linux" demo_config)
    (Some (ext (path_parse (demo_host "linux" demo_config) (lit "/home/u/b.cpp"))))
    no_editor_world
  = (Val (Some (lit "C++")), no_editor_world)
  /\ fault (demo_host "linux" demo_config) ReqSave = None
  /\ exists rest,
       trace (snd (treeCompile (demo_host "linux" demo_config)
                     [lit "/home/u/a.cpp"; lit "/home/u/b.cpp"]
                     (lit "/home/u/b.cpp") true
                     {| stderr_chunks := []; exit_code := Some 0 |}
                     no_editor_world))
       = [Spawn (Some (lit "g++"))
            [lit "-g"; lit "/home/u/a.cpp"; lit "/home/u/b.cpp"; lit "-o";
             lit "/tmp/b"; lit "-std=c++17"]
            (lit "/home/u")]
         ++ rest
       /\ List.filter is_process rest
          = [Spawn (Some (lit "xterm")) [lit "-e"; lit "gdb"; lit "/tmp/b"]
               (lit "/home/u")].
Proof.
  split; [reflexivity|]. split; [reflexivity|].
  destruct (treeCompile_one_compiler_call (demo_host "linux" demo_config)
              [lit "/home/u/a.cpp"; lit "/home/u/b.cpp"] (lit "/home/u/b.cpp") true
              {| stderr_chunks := []; exit_code := Some 0 |} no_editor_world
              (Some (lit "C++")) eq_refl eq_refl)
    as (rest & Htrace & _ & Hrest & _).
  exists rest. split; [exact Htrace | exact Hrest].
Defined.

(** X11.  An entry without extension picked in the tree view takes the file
    type of the active editor's grammar, whatever the entry is: with no
    active editor [treeCompile] throws before any call, outside its [try];
    with one, the compiler started is that of the editor's grammar. *)
Theorem treeCompile_without_extension (h : Host) (files : list jsstring)
    (target : jsstring) (gdb : bool) (child : Child) (w : World) :
  ext (path_parse h target) = [] ->
  (activeTextEditor w = None ->
   treeCompile h files target gdb child w
   = (Exn (ReadOfUndefined (lit "getGrammar")), w))
  /\ (forall e,
        activeTextEditor w = Some e ->
        fault h ReqSave = None ->
        exists rest,
          trace (snd (treeCompile h files target gdb child w))
          = trace w
              ++ logged h (lit "compiler args")
              ++ [Save;
                  Spawn (getCommand h (Some (grammar_name (getGrammar e))))
                    (compiler_args h files (path_parse h target)
                       (Some (grammar_name (getGrammar e))) gdb)
                    (dir (path_parse h target))]
              ++ rest).
Proof.
  intros Hext. split.
  - intros Ha. unfold treeCompile. erewrite bind_exn; [reflexivity|].
    rewrite Hext, getFileType_no_extension by tauto. now rewrite Ha.
  - intros e Ha Hsave.
    assert (Htype : getFileType h (Some (ext (path_parse h target))) w
                    = (Val (Some (grammar_name (getGrammar e))), w)).
    { rewrite Hext, getFileType_no_extension by tauto. now rewrite Ha. }
    destruct (treeCompile_spawn h files target gdb child w _ Htype Hsave)
      as (rest & Hrest).
    exists rest. rewrite Hrest. unfold saved. rewrite Ha. reflexivity.
Qed.

Lemma treeCompile_without_extension_witness :
  ext (path_parse (demo_host "linux" demo_config) (lit "/home/u/Makefile")) = []
  /\ treeCompile (demo_host "linux" demo_config) [lit "/home/u/Makefile"]
       (lit "/home/u/Makefile") false
       {| stderr_chunks := []; exit_code := Some 0 |} no_editor_world
     = (Exn (ReadOfUndefined (lit "getGrammar")), no_editor_world).
Proof.
  split; [reflexivity|].
  exact (proj1 (treeCompile_without_extension (demo_host "linux" demo_config)
                  [lit "/home/u/Makefile"] (lit "/home/u/Makefile") false
                  {| stderr_chunks := []; exit_code := Some 0 |} no_editor_world
                  eq_refl) eq_refl).
Defined.

(** ** A character split between two chunks *)

Lemma lone_continuation (x : Z) (bytes : list Z) :
  0 <= x < 64 ->
  utf8_decode_from decoder_init (0x80 + x :: bytes)
  = 0xFFFD :: utf8_decode_from decoder_init bytes.
Proof. intros Hx. decoder_step. reflexivity. Qed.

Lemma split_chunks_text (c : Z) (first second : list Z) :
  scalar c ->
  utf8_encode_cp c = first ++ second ->
  first <> [] ->
  second <> [] ->
  Buffer_toString first ++ Buffer_toString second
  = repeat 0xFFFD (S (length second)).
Proof.
  intros Hc Heq Hfirst Hsecond.
  unfold Buffer_toString.
  unfold scalar in Hc. unfold utf8_encode_cp in Heq.
  destruct (Z.ltb_spec c 0x80);
    [|destruct (Z.ltb_spec c 0x800); [|destruct (Z.ltb_spec c 0x10000)]].
  - destruct first as [|a [|? ?]], second as [|b ?]; try congruence; discriminate.
  - destruct first as [|a0 [|a1 first]]; [congruence| |].
    + injection Heq as <- <-.
      rewrite (lone_continuation (c mod 64)) by lia.
      decoder_step. reflexivity.
    + injection Heq as _ _ Hs.
      destruct first; [cbn in Hs; subst; congruence | discriminate].
  - destruct first as [|a0 [|a1 [|a2 first]]]; [congruence| | |].
    + injection Heq as <- <-.
      rewrite (lone_continuation ((c / 64) mod 64)) by lia.
      rewrite (lone_continuation (c mod 64)) by lia.
      decoder_step. reflexivity.
    + injection Heq as <- <- <-.
      rewrite (lone_continuation (c mod 64)) by lia.
      decoder_step.
      destruct (Z.eqb_spec (0xE0 + c / 4096) 0xE0);
        destruct (Z.eqb_spec (0xE0 + c / 4096) 0xED);
        try lia; decoder_step; reflexivity.
    + injection Heq as _ _ _ Hs.
      destruct first; [cbn in Hs; subst; congruence | discriminate].
  - destruct first as [|a0 [|a1 [|a2 [|a3 first]]]]; [congruence| | | |].
    + injection Heq as <- <-.
      rewrite (lone_continuation ((c / 4096) mod 64)) by lia.
      rewrite (lone_continuation ((c / 64) mod 64)) by lia.
      rewrite (lone_continuation (c mod 64)) by lia.
      decoder_step. reflexivity.
    + injection Heq as <- <- <-.
      rewrite (lone_continuation ((c / 64) mod 64)) by lia.
      rewrite (lone_continuation (c mod 64)) by lia.
      decoder_step.
      destruct (Z.eqb_spec (0xF0 + c / 262144) 0xF0);
        destruct (Z.eqb_spec (0xF0 + c / 262144) 0xF4);
        try lia; decoder_step; reflexivity.
    + injection Heq as <- <- <- <-.
      rewrite (lone_continuation (c mod 64)) by lia.
      decoder_step.
      destruct (Z.eqb_spec (0xF0 + c / 262144) 0xF0);
        destruct (Z.eqb_spec (0xF0 + c / 262144) 0xF4);
        try lia; do 2 decoder_step; reflexivity.
    + injection Heq as _ _ _ _ Hs.
      destruct first; [cbn in Hs; subst; congruence | discriminate].
Qed.

Lemma replacement_bytes (n : nat) :
  length (utf8_of_string (repeat 0xFFFD n)) = (3 * n)%nat.
Proof.
  induction n as [|n IH]; [reflexivity|].
  change (repeat 0xFFFD (S n)) with (0xFFFD :: repeat 0xFFFD n).
  change (utf8_of_string (0xFFFD :: repeat 0xFFFD n))
    with (utf8_encode_cp 0xFFFD ++ utf8_of_string (repeat 0xFFFD n)).
  rewrite length_app, IH.
  change (length (utf8_encode_cp 0xFFFD)) with 3%nat. lia.
Qed.

(** X12.  The [data] handler of [compile] decodes each chunk on its own
    ([stderr += data]), so a character whose bytes arrive in two chunks is
    lost.  The handler run on the two chunks returns one U+FFFD for the
    first chunk and one for each byte of the second, where on the same
    bytes in one chunk it returns the character.  And a failed compile
    whose compiler wrote the character in two chunks leaves a diagnostics
    file that does not hold the bytes the compiler wrote, where the same
    bytes in one chunk are written back as they came. *)
Theorem split_character_is_lost (h : Host) (c : Z) (first second : list Z)
    (c0 : Z) (cs : jsstring) (info : PathInfo) (args : list jsstring)
    (gdb : bool) (code : option Z) (w : World) :
  scalar c ->
  utf8_encode_cp c = first ++ second ->
  first <> [] ->
  second <> [] ->
  fst (on_data h [first; second] (lit "") w)
  = Val (repeat 0xFFFD (S (length second)))
  /\ fst (on_data h [first ++ second] (lit "") w) = Val (utf16_units c)
  /\ (fault h ReqSave = None ->
      truthy_code code = true ->
      addCompilingErr (config h) = true ->
      fault h (ReqWriteFile (errorPath h info)) = None ->
      files (snd (compile h (Some (c0 :: cs)) info args gdb
                    {| stderr_chunks := [first; second]; exit_code := code |} w))
        !! errorPath h info
      = Some (utf8_of_string (repeat 0xFFFD (S (length second))))
      /\ utf8_of_string (repeat 0xFFFD (S (length second))) <> first ++ second
      /\ files (snd (compile h (Some (c0 :: cs)) info args gdb
                       {| stderr_chunks := [first ++ second]; exit_code := code |}
                       w))
           !! errorPath h info
         = Some (first ++ second)).
Proof.
  intros Hc Heq Hfirst Hsecond.
  pose proof (split_chunks_text c first second Hc Heq Hfirst Hsecond) as Hsplit.
  assert (Hwhole : Buffer_toString (first ++ second) = utf16_units c).
  { unfold Buffer_toString. rewrite <- Heq, <- (app_nil_r (utf8_encode_cp c)).
    rewrite decode_encode_cp by assumption.
    change (utf8_decode_from decoder_init []) with (@nil Z).
    cbn [List.flat_map]. now rewrite !app_nil_r. }
  split; [|split].
  - rewrite on_data_spec. cbn [fst List.map List.concat app].
    now rewrite app_nil_r, Hsplit.
  - rewrite on_data_spec. cbn [fst List.map List.concat app].
    now rewrite app_nil_r, Hwhole.
  - intros Hsave Hcode Hadd Hwrite. split; [|split].
    + rewrite compile_failure by assumption. cbn [snd].
      autorewrite with world.
      rewrite files_after_failure_written by assumption.
      rewrite lookup_insert_eq. unfold stderr_text.
      cbn [stderr_chunks List.map List.concat]. now rewrite app_nil_r, Hsplit.
    + intros Hbytes. apply (f_equal length) in Hbytes.
      rewrite replacement_bytes, <- Heq in Hbytes.
      assert (Hlen : (length (utf8_encode_cp c) <= 4)%nat).
      { unfold utf8_encode_cp. repeat destruct (_ <? _); cbn; lia. }
      destruct second as [|b second]; [congruence|].
      cbn [length] in Hbytes. lia.
    + rewrite compile_failure by assumption. cbn [snd].
      autorewrite with world.
      rewrite files_after_failure_written by assumption.
      rewrite lookup_insert_eq. unfold stderr_text.
      cbn [stderr_chunks List.map List.concat].
      rewrite app_nil_r, Hwhole, <- Heq, <- (app_nil_r (utf16_units c)).
      rewrite utf8_of_string_units by assumption.
      cbn [utf8_of_string]. now rewrite app_nil_r.
Qed.

Lemma split_character_is_lost_witness :
  scalar 0xE9
  /\ utf8_encode_cp 0xE9 = [0xC3] ++ [0xA9]
  /\ fst (on_data (demo_host "linux" demo_config) [[0xC3]; [0xA9]] (lit "")
            demo_world)
     = Val [0xFFFD; 0xFFFD]
  /\ fst (on_data (demo_host "linux" demo_config) [[0xC3; 0xA9]] (lit "")
            demo_world)
     = Val [0xE9]
  /\ files
       (snd (compile (demo_host "linux" demo_config) (Some (lit "gcc")) demo_info
               [lit "/home/u/main.c"; lit "-o"; lit "/tmp/main"] false
               {| stderr_chunks := [[0xC3]; [0xA9]]; exit_code := Some 1 |}
               demo_world))
       !! lit "/home/u/compiling_error.txt"
     = Some [0xEF; 0xBF; 0xBD; 0xEF; 0xBF; 0xBD].
Proof.
  assert (Hc : scalar 0xE9) by (left; lia).
  split; [exact Hc|]. split; [reflexivity|].
  pose proof (split_character_is_lost (demo_host "linux" demo_config) 0xE9
                [0xC3] [0xA9] 103 (lit "cc") demo_info
                [lit "/home/u/main.c"; lit "-o"; lit "/tmp/main"] false (Some 1)
                demo_world Hc eq_refl
                ltac:(discriminate) ltac:(discriminate)) as (H1 & H2 & H3).
  split; [exact H1|]. split; [exact H2|].
  exact (proj1 (H3 eq_refl eq_refl eq_refl eq_refl)).
Defined.

(** ** What a compile leaves alone *)

(** X13.  Whatever the command, the arguments, the child and the failures of
    the host, [compile] never erases a call, and the file-system calls it
    makes itself all name the diagnostics file of the source directory:
    every [access] and [unlink], and every [writeFile], which moreover
    occurs only when the setting asks for the file.  (What the editor's
    save and the compiler write is theirs, not the package's.) *)
Theorem fs_calls_name_diagnostics_file (h : Host)
    (command : option jsstring) (info : PathInfo) (args : list jsstring)
    (gdb : bool) (child : Child) (w : World) :
  exists calls,
    trace (snd (compile h command info args gdb child w)) = trace w ++ calls
    /\ (forall path,
          Access path ∈ calls \/ Unlink path ∈ calls ->
          path = errorPath h info)
    /\ (forall path bytes,
          WriteFile path bytes ∈ calls ->
          path = errorPath h info /\ addCompilingErr (config h) = true).
Proof.
  destruct (keeps_compile h info command args gdb child w)
    as (calls & Htrace & Hcalls).
  exists calls. split; [exact Htrace|].
  rewrite Forall_forall in Hcalls. split.
  - intros path [Hin | Hin]; exact (Hcalls _ Hin).
  - intros path bytes Hin. exact (Hcalls _ Hin).
Qed.


(** X15.  Every process [compile] starts, the compiler and then the
    program or its terminal, runs in the directory of the source, also when
    the output goes to the temporary directory. *)
Theorem processes_run_in_source_directory (h : Host) (command : option jsstring)
    (info : PathInfo) (args : list jsstring) (gdb : bool) (child : Child)
    (w : World) :
  exists calls,
    trace (snd (compile h command info args gdb child w)) = trace w ++ calls
    /\ (forall program arguments cwd,
          Spawn program arguments cwd ∈ calls -> cwd = dir info)
    /\ (forall commandLine cwd, Exec commandLine cwd ∈ calls -> cwd = dir info).
Proof.
  destruct (keeps_compile h info command args gdb child w)
    as (calls & Htrace & Hcalls).
  exists calls. split; [exact Htrace|].
  rewrite Forall_forall in Hcalls.
  split; intros; exact (Hcalls _ ltac:(eassumption)).
Qed.

Lemma compileFile_evolves (h : Host) (fileType : option jsstring) (gdb : bool)
    (child : Child) (w : World) :
  evolves h (active_info h w) w (snd (compileFile h fileType gdb child w)).
Proof.
  apply keeps_compileFile. intros e filePath Ha Hfile.
  unfold active_info. now rewrite Ha, Hfile.
Qed.

(** X16.  With the debug setting off neither entry point writes a line to
    the console with [console.info], whatever happens: the calls they add
    hold none. *)
Theorem no_console_info_without_debugMode (h : Host) (fileType : option jsstring)
    (files : list jsstring) (target : jsstring) (gdb : bool) (child : Child)
    (w : World) :
  debugMode (config h) = false ->
  (exists calls,
     trace (snd (compileFile h fileType gdb child w)) = trace w ++ calls
     /\ forall label, ConsoleInfo label ∉ calls)
  /\ (exists calls,
        trace (snd (treeCompile h files target gdb child w)) = trace w ++ calls
        /\ forall label, ConsoleInfo label ∉ calls).
Proof.
  intros Hoff. split.
  - destruct (compileFile_evolves h fileType gdb child w)
      as (calls & Htrace & Hcalls).
    exists calls. split; [exact Htrace|].
    rewrite Forall_forall in Hcalls. intros label Hin.
    specialize (Hcalls _ Hin). cbn in Hcalls. congruence.
  - destruct (keeps_treeCompile h (path_parse h target) files target gdb child
                eq_refl w) as (calls & Htrace & Hcalls).
    exists calls. split; [exact Htrace|].
    rewrite Forall_forall in Hcalls. intros label Hin.
    specialize (Hcalls _ Hin). cbn in Hcalls. congruence.
Qed.

Lemma no_console_info_without_debugMode_witness :
  debugMode (config (demo_host "linux" demo_config)) = false
  /\ exists calls,
       trace (snd (compileFile (demo_host "linux" demo_config) (Some (lit "C"))
                     false {| stderr_chunks := [[0x61]]; exit_code := Some 1 |}
                     demo_world))
       = trace demo_world ++ calls
       /\ forall label, ConsoleInfo label ∉ calls.
Proof.
  split; [reflexivity|].
  exact (proj1 (no_console_info_without_debugMode (demo_host "linux" demo_config)
                  (Some (lit "C")) [] (lit "/home/u/main.c") false
                  {| stderr_chunks := [[0x61]]; exit_code := Some 1 |}
                  demo_world eq_refl)).
Defined.

(** ** From the editor to the compiler and to the program *)

(** X17.  [compileFile] on an editor with a file saves the editor first and
    then starts the compiler of the file type on that file alone, with the
    output named after it and the flags of the file type, in the file's
    directory; this for every child and every platform.  The only process
    started after that call is the program, by [runProgram] (at most one
    call), when the compiler was started, ended with success and the
    program is to be run: the compiler is never started twice. *)
Theorem compileFile_saves_then_compiles (h : Host) (fileType : option jsstring)
    (gdb : bool) (child : Child) (w : World) (editor : TextEditor)
    (filePath : jsstring) :
  activeTextEditor w = Some editor ->
  buffer_file editor = Some filePath ->
  fault h ReqSave = None ->
  exists rest,
    trace (snd (compileFile h fileType gdb child w))
    = trace w
        ++ logged h (lit "compiler args")
        ++ [Save;
            Spawn (getCommand h fileType)
              ((if gdb then [lit "-g"] else [])
                 ++ [filePath; lit "-o";
                     getCompiledPath h (dir (path_parse h filePath))
                       (name (path_parse h filePath))]
                 ++ List.filter Boolean (split SPACE (compilerOptions h fileType)))
              (dir (path_parse h filePath))]
        ++ rest
    /\ List.filter is_process rest
       = (if runs_program h (getCommand h fileType) child
          then List.filter is_process (launch_calls h (path_parse h filePath) gdb)
          else [])
    /\ (length (List.filter is_process (launch_calls h (path_parse h filePath) gdb))
        <= 1)%nat.
Proof.
  intros Ha Hfile Hsave. rewrite (compileFile_body _ _ _ _ _ _ _ Ha Hfile).
  destruct (guarded_compile_once h (getCommand h fileType) (path_parse h filePath)
              (compiler_args h [filePath] (path_parse h filePath) fileType gdb) gdb
              child (with_calls w (logged h (lit "compiler args"))) Hsave)
    as (rest & Htrace & Hrest).
  exists rest. split; [|split].
  - rewrite Htrace. cbn [trace with_calls]. unfold saved.
    cbn [activeTextEditor with_calls]. rewrite Ha. unfold compiler_args.
    now rewrite <- !app_assoc.
  - exact Hrest.
  - apply launch_calls_one_process.
Qed.

Lemma compileFile_saves_then_compiles_witness :
  activeTextEditor demo_world = Some demo_editor
  /\ buffer_file demo_editor = Some (lit "/home/u/main.c")
  /\ fault (demo_host "darwin" demo_config) ReqSave = None
  /\ exists rest,
       trace (snd (compileFile (demo_host "darwin" demo_config) (Some (lit "C"))
                     true {| stderr_chunks := []; exit_code := Some 2 |}
                     demo_world))
       = [Save;
          Spawn (Some (lit "gcc"))
            [lit "-g"; lit "/home/u/main.c"; lit "-o"; lit "/tmp/main";
             lit "-O2"; lit "-Wall"]
            (lit "/home/u")]
         ++ rest
       /\ List.filter is_process rest = [].
Proof.
  split; [reflexivity|]. split; [reflexivity|]. split; [reflexivity|].
  destruct (compileFile_saves_then_compiles (demo_host "darwin" demo_config)
              (Some (lit "C")) true {| stderr_chunks := []; exit_code := Some 2 |}
              demo_world demo_editor (lit "/home/u/main.c") eq_refl eq_refl eq_refl)
    as (rest & Htrace & Hrest & _).
  exists rest. split; [exact Htrace | exact Hrest].
Defined.

Lemma launch_calls_launches (h : Host) (info : PathInfo) (gdb : bool) :
  platform h = lit "linux" \/ platform h = lit "win32" \/ platform h = lit "darwin" ->
  exists logs launch,
    launch_calls h info gdb = logs ++ [launch]
    /\ launches (getCompiledPath h (dir info) (name info)) (dir info) launch.
Proof.
  unfold launch_calls. intros [Hp | [Hp | Hp]].
  - rewrite runProgram_linux by assumption. cbn [snd trace with_calls no_editor_world app].
    eexists _, _. split; [reflexivity|]. split; [reflexivity|].
    unfold terminal_args. eexists. rewrite !app_assoc. reflexivity.
  - rewrite runProgram_windows by assumption. cbn [snd trace with_calls no_editor_world app].
    eexists _, _. split; [reflexivity|]. split; [reflexivity|].
    unfold windowsCommand.
    exists (lit "start " ++ DQUOTE ++ name info ++ DQUOTE ++ lit " cmd /C " ++ DQUOTE
              ++ (if gdb then lit "gdb" else lit "")),
      (if gdb then lit "" else lit "& echo. & pause").
    now rewrite <- !app_assoc.
  - rewrite runProgram_darwin by assumption. cbn [snd trace with_calls no_editor_world app].
    exists [], (Spawn (Some (lit "open")) [getCompiledPath h (dir info) (name info)]
                  (dir info)).
    split; [reflexivity|]. split; [reflexivity|]. now exists [].
Qed.

(** X18.  What is run is what was built: when [compileFile] compiles with
    success and the program is to be run, on a platform [runProgram] knows,
    the path given to the compiler after [-o] is the path the launch call
    starts, in the same directory, and the launch comes after the
    compiler. *)
Theorem compiled_program_is_launched (h : Host) (fileType : option jsstring)
    (gdb : bool) (child : Child) (w : World) (editor : TextEditor)
    (filePath : jsstring) (c : Z) (cs : jsstring) :
  activeTextEditor w = Some editor ->
  buffer_file editor = Some filePath ->
  fault h ReqSave = None ->
  getCommand h fileType = Some (c :: cs) ->
  truthy_code (exit_code child) = false ->
  runAfterCompile (config h) = true ->
  platform h = lit "linux" \/ platform h = lit "win32" \/ platform h = lit "darwin" ->
  exists output before between launch after,
    trace (snd (compileFile h fileType gdb child w))
    = trace w ++ before
        ++ [Spawn (Some (c :: cs))
              ((if gdb then [lit "-g"] else [])
                 ++ [filePath; lit "-o"; output]
                 ++ List.filter Boolean (split SPACE (compilerOptions h fileType)))
              (dir (path_parse h filePath))]
        ++ between ++ [launch] ++ after
    /\ output = getCompiledPath h (dir (path_parse h filePath))
                  (name (path_parse h filePath))
    /\ launches output (dir (path_parse h filePath)) launch.
Proof.
  intros Ha Hfile Hsave Hcommand Hcode Hrun Hplatform.
  rewrite (compileFile_body _ _ _ _ _ _ _ Ha Hfile), Hcommand.
  erewrite guarded_compile_ok by (now apply compile_success).
  cbn [snd]. autorewrite with world.
  destruct (launch_calls_launches h (path_parse h filePath) gdb Hplatform)
    as (logs & launch & Hlaunch & Hprogram).
  unfold started_calls, success_calls, compiler_args. rewrite Hrun, Hlaunch.
  exists (getCompiledPath h (dir (path_parse h filePath))
            (name (path_parse h filePath))),
    (logged h (lit "compiler args") ++ [Save]),
    (data_logs h child ++ logged h (lit "exit code")
       ++ warning_notification h (stderr_text child) ++ logs),
    launch,
    (closing_calls h (path_parse h filePath) (tabs w)
       ++ cleanup_calls h (path_parse h filePath) (files w)
       ++ [Open (path_join h (dir (path_parse h filePath))
                   (base (path_parse h filePath))) None;
           ActivatePane]).
  split; [|split; [reflexivity | exact Hprogram]].
  unfold saved. cbn [activeTextEditor with_calls]. rewrite Ha.
  rewrite <- !app_assoc. reflexivity.
Qed.

Lemma compiled_program_is_launched_witness :
  activeTextEditor demo_world = Some demo_editor
  /\ buffer_file demo_editor = Some (lit "/home/u/main.c")
  /\ fault (demo_host "win32" demo_config) ReqSave = None
  /\ getCommand (demo_host "win32" demo_config) (Some (lit "C")) = Some (lit "gcc")
  /\ truthy_code (Some 0) = false
  /\ runAfterCompile (config (demo_host "win32" demo_config)) = true
  /\ exists output before between launch after,
       trace (snd (compileFile (demo_host "win32" demo_config) (Some (lit "C"))
                     false {| stderr_chunks := []; exit_code := Some 0 |}
                     demo_world))
       = trace demo_world ++ before
           ++ [Spawn (Some (lit "gcc"))
                 ([] ++ [lit "/home/u/main.c"; lit "-o"; output]
                    ++ [lit "-O2"; lit "-Wall"])
                 (lit "/home/u")]
           ++ between ++ [launch] ++ after
       /\ output = lit "/tmp/main"
       /\ launches output (lit "/home/u") launch.
Proof.
  do 6 (split; [reflexivity|]).
  exact (compiled_program_is_launched (demo_host "win32" demo_config)
           (Some (lit "C")) false {| stderr_chunks := []; exit_code := Some 0 |}
           demo_world demo_editor (lit "/home/u/main.c") 103 (lit "cc")
           eq_refl eq_refl eq_refl eq_refl eq_refl eq_refl
           (or_intror (or_introl eq_refl))).
Defined.

(** ** Compiling again *)

Lemma files_after_cleanup_twice (h : Host) (info : PathInfo)
    (files : gmap jsstring (list Z)) :
  files_after_cleanup h info (files_after_cleanup h info files)
  = files_after_cleanup h info files.
Proof.
  unfold files_after_cleanup at 2 3. destruct (deletes h info files) eqn:Hd.
  - unfold files_after_cleanup, deletes. rewrite lookup_delete_eq.
    destruct (fault h (ReqAccess (errorPath h info))); reflexivity.
  - unfold files_after_cleanup. now rewrite Hd.
Qed.

Lemma files_after_failure_twice (h : Host) (stderr : jsstring) (info : PathInfo)
    (files : gmap jsstring (list Z)) :
  files_after_failure h stderr info (files_after_failure h stderr info files)
  = files_after_failure h stderr info files.
Proof.
  unfold files_after_failure. destruct (writes h info); [|reflexivity].
  apply insert_insert_eq.
Qed.

(** X19.  Compiling again with the same outcome leaves the diagnostics file
    as the first compile left it: when the compiler ends a second time as
    it did the first (same exit code, same output on [stderr]; command,
    arguments and debugger may differ), the diagnostics file is there or
    not as after the first compile, with the same bytes.  After two
    failures it holds the compiler's output once: the file is replaced,
    not appended to. *)
Theorem compiling_again_keeps_diagnostics_file (h : Host) (c c' : Z)
    (cs cs' : jsstring) (info : PathInfo) (args args' : list jsstring)
    (gdb gdb' : bool) (child : Child) (w : World) :
  fault h ReqSave = None ->
  files (snd (compile h (Some (c' :: cs')) info args' gdb' child
                (snd (compile h (Some (c :: cs)) info args gdb child w))))
    !! errorPath h info
  = files (snd (compile h (Some (c :: cs)) info args gdb child w))
      !! errorPath h info
  /\ (truthy_code (exit_code child) = true ->
      addCompilingErr (config h) = true ->
      fault h (ReqWriteFile (errorPath h info)) = None ->
      files (snd (compile h (Some (c' :: cs')) info args' gdb' child
                    (snd (compile h (Some (c :: cs)) info args gdb child w))))
        !! errorPath h info
      = Some (utf8_of_string (stderr_text child))).
Proof.
  intros Hsave. destruct (truthy_code (exit_code child)) eqn:Hcode.
  - rewrite !compile_failure by assumption. cbn [snd]. autorewrite with world.
    rewrite files_after_failure_twice. split; [reflexivity|].
    intros _ Hadd Hwrite. rewrite files_after_failure_written by assumption.
    apply lookup_insert_eq.
  - rewrite !compile_success by assumption. cbn [snd]. autorewrite with world.
    rewrite files_after_cleanup_twice. split; [reflexivity | discriminate].
Qed.

Lemma compiling_again_keeps_diagnostics_file_witness :
  fault (demo_host "linux" demo_config) ReqSave = None
  /\ files
       (snd (compile (demo_host "linux" demo_config) (Some (lit "gcc")) demo_info
               [] false {| stderr_chunks := [[0x61]]; exit_code := Some 1 |}
               (snd (compile (demo_host "linux" demo_config) (Some (lit "gcc"))
                       demo_info [] false
                       {| stderr_chunks := [[0x61]]; exit_code := Some 1 |}
                       demo_world))))
       !! lit "/home/u/compiling_error.txt"
     = Some [0x61].
Proof.
  split; [reflexivity|].
  exact (proj2 (compiling_again_keeps_diagnostics_file
                  (demo_host "linux" demo_config)
                  103 103 (lit "cc") (lit "cc") demo_info [] [] false false
                  {| stderr_chunks := [[0x61]]; exit_code := Some 1 |}
                  demo_world eq_refl)
           eq_refl eq_refl eq_refl).
Defined.

(** ** The declared defaults *)

Lemma flat_map_nothing {A B} (l : list A) :
  List.flat_map (fun _ : A => @nil B) l = [].
Proof. induction l as [|a l IH]; [reflexivity | exact IH]. Qed.

(** X20.  With the settings the schema declares and nothing set by the
    user, a compile that fails raises no notification: it writes the
    diagnostics file and opens it in a pane split downwards, read-only; and
    a compile that succeeds on Linux runs the program from the temporary
    directory in [xterm], the schema having no terminal setting. *)
Theorem declared_defaults (h : Host) (c : Z) (cs : jsstring) (info : PathInfo)
    (args : list jsstring) (gdb : bool) (child : Child) (w : World) :
  config h = default_config ->
  fault h ReqSave = None ->
  (truthy_code (exit_code child) = true ->
   fault h (ReqWriteFile (errorPath h info)) = None ->
   open_result h (errorPath h info) = Val (Some (errorPath h info)) ->
   trace (snd (compile h (Some (c :: cs)) info args gdb child w))
   = trace w ++ saved w
       ++ [Spawn (Some (c :: cs)) args (dir info);
           WriteFile (errorPath h info) (utf8_of_string (stderr_text child));
           Open (errorPath h info) (Some (lit "down"));
           SetSoftTabs (errorPath h info) false;
           SetSoftWrapped (errorPath h info) true;
           SetReadOnly (errorPath h info) true;
           ActivateContainer; ActivatePane])
  /\ (truthy_code (exit_code child) = false ->
      platform h = lit "linux" ->
      exists rest,
        trace (snd (compile h (Some (c :: cs)) info args gdb child w))
        = trace w ++ saved w
            ++ [Spawn (Some (c :: cs)) args (dir info)]
            ++ warning_notification h (stderr_text child)
            ++ [Spawn (Some (lit "xterm"))
                  ((if gdb then [lit "-e"; lit "gdb"] else [lit "-hold"; lit "-e"])
                     ++ [path_join h (tmpdir h) (name info)])
                  (dir info)]
            ++ rest).
Proof.
  intros Hconfig Hsave.
  assert (Hlogged : forall label, logged h label = []).
  { intros label. unfold logged. now rewrite Hconfig. }
  assert (Hdata : data_logs h child = []).
  { unfold data_logs. erewrite List.flat_map_ext by (intros; apply Hlogged).
    apply flat_map_nothing. }
  split.
  - intros Hcode Hwrite Hopen. rewrite compile_failure by assumption.
    cbn [snd]. autorewrite with world.
    unfold started_calls, failure_calls, error_notification, artifact_calls.
    rewrite Hdata, !Hlogged, Hwrite, Hopen, Hconfig.
    cbn [showErrorNotifications addCompilingErr splitDirection default_config app].
    now rewrite <- !app_assoc.
  - intros Hcode Hlinux. rewrite compile_success by assumption.
    cbn [snd]. autorewrite with world.
    unfold started_calls, success_calls, launch_calls.
    rewrite runProgram_linux by assumption.
    cbn [snd trace with_calls no_editor_world app].
    unfold getCompiledPath, terminal_args.
    rewrite Hdata, !Hlogged, Hconfig.
    cbn [runAfterCompile compileToTmpDirectory linuxTerminal default_config
         terminalSpec defaultTerminal command argsPrefix holdFlag app].
    eexists. rewrite <- !app_assoc. cbn [app]. do 3 f_equal.
    destruct gdb; reflexivity.
Qed.

Lemma declared_defaults_witness :
  config (with_config default_config (demo_host "linux" demo_config)) = default_config
  /\ fault (with_config default_config (demo_host "linux" demo_config)) ReqSave = None
  /\ truthy_code (Some 1) = true
  /\ trace (snd (compile (with_config default_config (demo_host "linux" demo_config))
                   (Some (lit "gcc")) demo_info [lit "main.c"] false
                   {| stderr_chunks := [[0x61]]; exit_code := Some 1 |} demo_world))
     = [Save;
        Spawn (Some (lit "gcc")) [lit "main.c"] (lit "/home/u");
        WriteFile (lit "/home/u/compiling_error.txt") [0x61];
        Open (lit "/home/u/compiling_error.txt") (Some (lit "down"));
        SetSoftTabs (lit "/home/u/compiling_error.txt") false;
        SetSoftWrapped (lit "/home/u/compiling_error.txt") true;
        SetReadOnly (lit "/home/u/compiling_error.txt") true;
        ActivateContainer; ActivatePane].
Proof.
  split; [reflexivity|]. split; [reflexivity|]. split; [reflexivity|].
  exact (proj1 (declared_defaults
                  (with_config default_config (demo_host "linux" demo_config))
                  103 (lit "cc") demo_info [lit "main.c"] false
                  {| stderr_chunks := [[0x61]]; exit_code := Some 1 |} demo_world
                  eq_refl eq_refl)
           eq_refl eq_refl eq_refl).
Defined.
